(** * The activity feed of c2corg_api (views/feed.py)

    A shallow embedding of the three feed endpoints: the global feed
    ([FeedRest]), the personal feed ([PersonalFeedRest]) and the profile feed
    ([ProfileFeedRest]), of the construction of the personal filter, of the
    token pagination over the change log and of the loading of the documents
    a page refers to.

    The database is a record of tables (lists of rows), a SQLAlchemy query is
    a record that is built up by [query_filter]/[query_limit] and run by
    [query_all], SQL conditions are syntax trees evaluated in SQL's
    three-valued logic, and Python exceptions are the [Raise] case of
    [result]. *)

From stdpp Require Import gmap strings list sorting pretty.

Local Open Scope string_scope.
Local Open Scope list_scope.
Local Open Scope Z_scope.

(** ** Exceptions *)

Inductive exn :=
  | HTTPNotFound (msg : string)
  | HTTPForbidden (msg : string)
  | AttributeError
  | KeyError
  | DataError.

Inductive result (A : Type) :=
  | Ok (a : A)
  | Raise (e : exn).
Arguments Ok {A} a.
Arguments Raise {A} e.

Global Instance result_ret : MRet result := λ A a, Ok a.
Global Instance result_bind : MBind result := λ A B f m,
  match m with
  | Ok a => f a
  | Raise e => Raise e
  end.

(** ** Rows of the tables the feed reads *)

(** [DocumentChange] (models/feed.py).  [time] is an instant (a timestamp
    with time zone), kept as its position on the time line; the array columns
    are lists; the image ids are nullable. *)
Record DocumentChange := {
  change_id : Z;
  time : Z;
  user_id : Z;
  change_type : string;
  document_id : Z;
  document_type : string;
  activities : list string;
  area_ids : list Z;
  user_ids : list Z;
  image1_id : option Z;
  image2_id : option Z;
  image3_id : option Z;
  more_images : bool
}.

(** [User] as [get_changes_of_personal_feed] and [ProfileFeedRest.get] load
    it.  [has_area_filter] and [is_following_users] are column properties of
    the mapped class: attributes of the loaded object, read as such by the
    code below. *)
Record User := {
  id : Z;
  email_validated : bool;
  is_profile_public : bool;
  feed_followed_only : bool;
  feed_filter_activities : list string;
  has_area_filter : bool;
  is_following_users : bool
}.

Record FollowedUser := {
  followed_user_id : Z;
  follower_user_id : Z
}.

Record FilterArea := {
  area_id : Z;
  filter_user_id : Z   (* FilterArea.user_id *)
}.

(** [DBSession]: the state of the tables during one request. *)
Record DB := {
  users : list User;
  feed_document_changes : list DocumentChange;
  feed_followed_users : list FollowedUser;
  feed_filter_area : list FilterArea
}.

(** ** SQL conditions *)

(** A SQL boolean: [None] is NULL. *)
Definition sql_bool := option bool.

Definition sql_and (a b : sql_bool) : sql_bool :=
  match a, b with
  | Some false, _ | _, Some false => Some false
  | Some true, Some true => Some true
  | _, _ => None
  end.

Definition sql_or (a b : sql_bool) : sql_bool :=
  match a, b with
  | Some true, _ | _, Some true => Some true
  | Some false, Some false => Some false
  | _, _ => None
  end.

(** PostgreSQL's array overlap [&&]: the arrays have an element in common. *)
Definition overlap `{EqDecision A} (xs ys : list A) : bool :=
  existsb (λ x, bool_decide (x ∈ ys)) xs.

(** The conditions feed.py builds over [DocumentChange].  The right operand
    of an overlap with a subquery is the subquery's scalar value, NULL when
    the subquery has no row. *)
Inductive clause :=
  | time_lt (t : Z)                              (* DocumentChange.time < t *)
  | time_eq (t : Z)                              (* DocumentChange.time == t *)
  | change_id_gt (i : Z)                         (* DocumentChange.change_id > i *)
  | user_ids_overlap (ids : option (list Z))     (* DocumentChange.user_ids.op('&&')(ids) *)
  | area_ids_overlap (ids : option (list Z))     (* DocumentChange.area_ids.op('&&')(ids) *)
  | activities_overlap (acts : list string)      (* DocumentChange.activities.op('&&')(acts) *)
  | and_ (a b : clause)
  | or_ (a b : clause).

Fixpoint eval_clause (f : clause) (c : DocumentChange) : sql_bool :=
  match f with
  | time_lt t => Some (bool_decide (time c < t))
  | time_eq t => Some (bool_decide (time c = t))
  | change_id_gt i => Some (bool_decide (change_id c > i))
  | user_ids_overlap ids => overlap (user_ids c) <$> ids
  | area_ids_overlap ids => overlap (area_ids c) <$> ids
  | activities_overlap acts => Some (overlap (activities c) acts)
  | and_ a b => sql_and (eval_clause a c) (eval_clause b c)
  | or_ a b => sql_or (eval_clause a c) (eval_clause b c)
  end.

(** A WHERE clause keeps the rows on which the condition is true (not false,
    not NULL). *)
Definition holds (f : clause) (c : DocumentChange) : bool :=
  match eval_clause f c with
  | Some true => true
  | _ => false
  end.

(** ** Queries over the change log *)

(** [order_by(DocumentChange.time.desc(), DocumentChange.change_id)]:
    [feed_order c1 c2] when [c1] may come before [c2]. *)
Definition feed_order (c1 c2 : DocumentChange) : Prop :=
  time c2 < time c1 ∨ (time c1 = time c2 ∧ change_id c1 ≤ change_id c2).

Global Instance feed_order_dec : RelDecision feed_order.
Proof. intros c1 c2. unfold feed_order. apply _. Defined.

(** The query object: the conditions added by [filter] and the LIMIT. *)
Record Query := {
  whereclause : list clause;
  limit_clause : option Z
}.

(** [DBSession.query(DocumentChange).order_by(time.desc(), change_id)] *)
Definition query_document_changes : Query :=
  {| whereclause := []; limit_clause := None |}.

Definition query_filter (f : clause) (q : Query) : Query :=
  {| whereclause := whereclause q ++ [f]; limit_clause := limit_clause q |}.

Definition query_limit (limit : Z) (q : Query) : Query :=
  {| whereclause := whereclause q; limit_clause := Some limit |}.

(** [query.all()]: WHERE, then ORDER BY, then LIMIT.  PostgreSQL rejects a
    negative LIMIT. *)
Definition query_all (db : DB) (q : Query) : result (list DocumentChange) :=
  let rows :=
    filter (λ c, forallb (λ f, holds f c) (whereclause q) = true)
           (feed_document_changes db) in
  let rows := merge_sort feed_order rows in
  match limit_clause q with
  | None => Ok rows
  | Some limit =>
      if bool_decide (limit < 0) then Raise DataError
      else Ok (take (Z.to_nat limit) rows)
  end.

(** The subquery
    [query(func.array_agg(FollowedUser.followed_user_id))
       .filter(FollowedUser.follower_user_id == user.id)
       .group_by(FollowedUser.follower_user_id)]:
    one row holding the array when the user follows somebody, no row
    otherwise. *)
Definition followed_users_subquery (db : DB) (user : User) : option (list Z) :=
  match filter (λ r, follower_user_id r = id user) (feed_followed_users db) with
  | [] => None
  | rows => Some (followed_user_id <$> rows)
  end.

Definition filtered_area_ids_subquery (db : DB) (user : User) : option (list Z) :=
  match filter (λ r, filter_user_id r = id user) (feed_filter_area db) with
  | [] => None
  | rows => Some (area_id <$> rows)
  end.

(** ** The constants *)

Definition DEFAULT_PAGE_LIMIT : Z := 10.
Definition MAX_PAGE_LIMIT : Z := 50.

(** ** get_changes_of_feed *)

Definition get_changes_of_feed (db : DB) (token_id token_time : option Z)
    (limit : Z) (extra_filter : option clause) : result (list DocumentChange) :=
  let query := query_document_changes in
  (* pagination filter; a datetime is always true *)
  let query :=
    match token_id, token_time with
    | Some token_id, Some token_time =>
        query_filter
          (or_ (time_lt token_time)
               (and_ (time_eq token_time) (change_id_gt token_id)))
          query
    | _, _ => query
    end in
  let query :=
    match extra_filter with
    | Some extra_filter => query_filter extra_filter query
    | None => query
    end in
  query_all db (query_limit limit query).

(** ** The personal filter *)

(** Truth value of a Python list. *)
Definition list_truthy {A} (l : list A) : bool :=
  match l with [] => false | _ => true end.

Definition create_followed_users_filter (db : DB) (user : User) : option clause :=
  if negb (is_following_users user) then None
  else Some (user_ids_overlap (followed_users_subquery db user)).

Definition create_area_filter (db : DB) (user : User) : option clause :=
  if negb (has_area_filter user) then None
  else Some (area_ids_overlap (filtered_area_ids_subquery db user)).

Definition create_activity_filter (user : User) : option clause :=
  if negb (list_truthy (feed_filter_activities user)) then None
  else Some (activities_overlap (feed_filter_activities user)).

Definition create_personal_filter (db : DB) (user : User) : option clause :=
  if feed_followed_only user then
    (* only include changes of followed users *)
    create_followed_users_filter db user
  else
    (* filter on area and activity (`and` connected) *)
    let area_activity_filter :=
      if list_truthy (feed_filter_activities user) || has_area_filter user then
        let area_filter := create_area_filter db user in
        let activity_filter := create_activity_filter user in
        match area_filter, activity_filter with
        | Some a, Some b => Some (and_ a b)
        | Some a, None => Some a
        | None, Some b => Some b
        | None, None => None
        end
      else None in
    match area_activity_filter with
    | None => None
    | Some _ =>
        (* filter on followed users *)
        let followed_users_filter :=
          if is_following_users user
          then create_followed_users_filter db user
          else None in
        (* `or` connect the filter on followed users with the
           area/activity filter *)
        match area_activity_filter, followed_users_filter with
        | Some a, Some b => Some (or_ a b)
        | Some a, None => Some a
        | None, Some b => Some b
        | None, None => None
        end
    end.

Definition has_no_custom_filter (user : User) : bool :=
  let has_custom_filter :=
    list_truthy (feed_filter_activities user) ||
    has_area_filter user ||
    is_following_users user ||
    feed_followed_only user in
  negb has_custom_filter.

(** [DBSession.query(User).filter(User.id == user_id).first()];
    [user_id] is [None] for an anonymous request, and [id == NULL] selects
    no row. *)
Definition query_user (db : DB) (user_id : option Z) : option User :=
  head (filter (λ u, Some (id u) = user_id) (users db)).

Definition get_changes_of_personal_feed (db : DB) (user_id : option Z)
    (token_id token_time : option Z) (limit : Z)
    : result (list DocumentChange) :=
  match query_user db user_id with
  | None => Raise AttributeError        (* has_no_custom_filter(None) *)
  | Some user =>
      if has_no_custom_filter user then
        get_changes_of_feed db token_id token_time limit None
      else
        let personal_filter := create_personal_filter db user in
        get_changes_of_feed db token_id token_time limit personal_filter
  end.

Definition get_changes_of_profile_feed (db : DB) (user_id : Z)
    (token_id token_time : option Z) (limit : Z)
    : result (list DocumentChange) :=
  let user_exists :=
    bool_decide (Exists (λ u, id u = user_id) (users db)) in
  if negb user_exists then Raise (HTTPNotFound "user not found")
  else
    let user_filter := user_ids_overlap (Some [user_id]) in
    get_changes_of_feed db token_id token_time limit (Some user_filter).

(** ** Loading the documents of a page *)

(** A document as [get_documents_for_ids] returns it: a dictionary with the
    key ['document_id'] (hence never an empty, false dictionary); the other
    keys are kept as one opaque value. *)
Record Doc := {
  doc_document_id : Z;
  doc_content : string
}.

Global Instance Doc_eq_dec : EqDecision Doc.
Proof. solve_decision. Defined.

(** [USERPROFILE_TYPE] (models/user_profile.py) and [IMAGE_TYPE]
    (models/image.py): the polymorphic identities of the two document
    classes, as in the docstring of [get_documents_to_load]. *)
Definition USERPROFILE_TYPE : string := "u".
Definition IMAGE_TYPE : string := "i".

(** Truth value of a nullable integer: [None] and [0] are false. *)
Definition id_truthy (i : option Z) : bool :=
  match i with
  | Some i => bool_decide (i ≠ 0)
  | None => false
  end.

(** [documents_to_load[k].update(ids)] on a [defaultdict(set)]; the dictionary
    keeps the order in which its keys were first used. *)
Fixpoint dict_update (k : string) (ids : gset Z) (d : list (string * gset Z))
    : list (string * gset Z) :=
  match d with
  | [] => [(k, ids)]
  | (k', s) :: d' =>
      if decide (k = k') then (k', s ∪ ids) :: d'
      else (k', s) :: dict_update k ids d'
  end.

Definition dict_add_if (b : bool) (k : string) (i : option Z)
    (d : list (string * gset Z)) : list (string * gset Z) :=
  match i with
  | Some i => if b then dict_update k {[ i ]} d else d
  | None => d
  end.

Definition get_documents_to_load (changes : list DocumentChange)
    : list (string * gset Z) :=
  foldl (λ documents_to_load change,
    let d := dict_update (document_type change) {[ document_id change ]}
               documents_to_load in
    let d := dict_update USERPROFILE_TYPE {[ user_id change ]} d in
    let d := dict_update USERPROFILE_TYPE (list_to_set (user_ids change)) d in
    let d := dict_add_if (id_truthy (image1_id change)) IMAGE_TYPE
               (image1_id change) d in
    let d := dict_add_if (id_truthy (image2_id change)) IMAGE_TYPE
               (image2_id change) d in
    dict_add_if (id_truthy (image3_id change)) IMAGE_TYPE
      (image3_id change) d)
    [] changes.

(** An entry of the feed and the response. *)
Record FeedEntry := {
  e_id : Z;
  e_time : string;
  e_user : Doc;
  e_participants : list Doc;
  e_change_type : string;
  e_document : Doc;
  e_image1 : option Doc;
  e_image2 : option Doc;
  e_image3 : option Doc;
  e_more_images : bool
}.

(** The response dictionary; [pagination_token = None] when the key is
    absent. *)
Record Feed := {
  feed : list FeedEntry;
  pagination_token : option string
}.

(** [documents[k]] *)
Definition getitem (documents : gmap Z Doc) (k : Z) : result Doc :=
  match documents !! k with
  | Some d => Ok d
  | None => Raise KeyError
  end.

(** [documents.get(k)] as a condition *)
Definition get_truthy (documents : gmap Z Doc) (k : Z) : bool :=
  bool_decide (is_Some (documents !! k)).

(** The validated request: what the validators leave in
    [request.validated], and the authentication state. *)
Record Request := {
  validated_lang : option string;
  validated_token_id : option Z;
  validated_token_time : option Z;
  validated_limit : option Z;
  validated_u : Z;
  authenticated_userid : option Z;
  has_permission_authenticated : bool
}.

Definition get_params (request : Request)
    : option string * option Z * option Z * Z :=
  let lang := validated_lang request in
  let token_id := validated_token_id request in
  let token_time := validated_token_time request in
  let limit := validated_limit request in
  let limit :=
    Z.min (match limit with None => DEFAULT_PAGE_LIMIT | Some limit => limit end)
          MAX_PAGE_LIMIT in
  (lang, token_id, token_time, limit).

Section Feed.

(** [datetime.isoformat] *)
Variable isoformat : Z → string.

(** [document_configs] of views/document_schemas.py: the configuration of
    each document type, a dictionary keyed by the type; [Config] is the type
    of its values. *)
Context {Config : Type}.
Variable document_configs : gmap string Config.

(** [get_documents_for_ids(document_ids, lang, document_config)
    .get('documents')] of views/document_listings.py: the documents found
    for a set of ids with the configuration of one document type. *)
Variable get_documents_for_ids : gset Z → option string → Config → list Doc.

(** [document_configs[document_type]] *)
Definition getitem_config (document_type : string) : result Config :=
  match document_configs !! document_type with
  | Some document_config => Ok document_config
  | None => Raise KeyError
  end.

(** The loop of [load_documents] over the items of [documents_to_load],
    [documents] being the dictionary filled so far. *)
Fixpoint load_documents_items (documents : gmap Z Doc)
    (items : list (string * gset Z)) (lang : option string)
    : result (gmap Z Doc) :=
  match items with
  | [] => mret documents
  | (document_type, document_ids) :: items =>
      document_config ← getitem_config document_type;
      let docs := get_documents_for_ids document_ids lang document_config in
      load_documents_items
        (foldl (λ documents doc, <[doc_document_id doc := doc]> documents)
               documents docs)
        items lang
  end.

Definition load_documents (documents_to_load : list (string * gset Z))
    (lang : option string) : result (gmap Z Doc) :=
  load_documents_items ∅ documents_to_load lang.

(** ['{},{}'.format(change_id, time.isoformat())] *)
Definition format_token (c : DocumentChange) : string :=
  pretty (change_id c) +:+ "," +:+ isoformat (time c).

Definition load_image (documents : gmap Z Doc) (image_id : option Z)
    : result (option Doc) :=
  match image_id with
  | Some i =>
      if id_truthy image_id && get_truthy documents i
      then d ← getitem documents i; mret (Some d)
      else mret None
  | None => mret None
  end.

Definition feed_entry (documents : gmap Z Doc) (c : DocumentChange)
    : result FeedEntry :=
  user ← getitem documents (user_id c);
  participants ←
    mapM (getitem documents)
         (filter (λ user_id', user_id' ≠ user_id c ∧
                              get_truthy documents user_id' = true)
                 (user_ids c));
  document ← getitem documents (document_id c);
  image1 ← load_image documents (image1_id c);
  image2 ← load_image documents (image2_id c);
  image3 ← load_image documents (image3_id c);
  mret {| e_id := change_id c;
          e_time := isoformat (time c);
          e_user := user;
          e_participants := participants;
          e_change_type := change_type c;
          e_document := document;
          e_image1 := image1;
          e_image2 := image2;
          e_image3 := image3;
          e_more_images := more_images c |}.

(** The documents of a page, and the changes of the page that survive:
    those whose user and document could be loaded. *)
Definition page_documents (changes : list DocumentChange)
    (lang : option string) : result (gmap Z Doc) :=
  load_documents (get_documents_to_load changes) lang.

Definition loaded (documents : gmap Z Doc) (c : DocumentChange) : Prop :=
  get_truthy documents (user_id c) = true ∧
  get_truthy documents (document_id c) = true.

Definition load_feed (changes : list DocumentChange) (lang : option string)
    : result Feed :=
  match changes with
  | [] => mret {| feed := []; pagination_token := None |}
  | _ =>
      let documents_to_load := get_documents_to_load changes in
      documents ← load_documents documents_to_load lang;
      (* only return changes for which the document/user could be loaded *)
      let changes := filter (loaded documents) changes in
      match last changes with
      | None => mret {| feed := []; pagination_token := None |}
      | Some last_change =>
          let pagination_token := format_token last_change in
          entries ← mapM (feed_entry documents) changes;
          mret {| feed := entries;
                  pagination_token := Some pagination_token |}
      end
  end.

(** *** The three resources *)

Definition FeedRest_get (db : DB) (request : Request) : result Feed :=
  let '(lang, token_id, token_time, limit) := get_params request in
  changes ← get_changes_of_feed db token_id token_time limit None;
  load_feed changes lang.

Definition PersonalFeedRest_get (db : DB) (request : Request) : result Feed :=
  let user_id := authenticated_userid request in
  let '(lang, token_id, token_time, limit) := get_params request in
  changes ← get_changes_of_personal_feed db user_id token_id token_time limit;
  load_feed changes lang.

Definition ProfileFeedRest_get (db : DB) (request : Request) : result Feed :=
  let '(lang, token_id, token_time, limit) := get_params request in
  (* load the requested user *)
  let requested_user_id := validated_u request in
  let requested_user :=
    head (filter (λ u, email_validated u = true)
            (filter (λ u, id u = requested_user_id) (users db))) in
  match requested_user with
  | None => Raise (HTTPNotFound "user not found")
  | Some requested_user =>
      if is_profile_public requested_user ||
         has_permission_authenticated request
      then
        changes ← get_changes_of_profile_feed db requested_user_id
                    token_id token_time limit;
        load_feed changes lang
      else Raise (HTTPForbidden "no permission to see the feed")
  end.

End Feed.

(** * The search (search/search.py) *)

Module Search.

(** The exception of [int(doc.meta.id)]. *)
Inductive exn :=
  | ValueError.

Inductive result (A : Type) :=
  | Ok (a : A)
  | Raise (e : exn).
Arguments Ok {A} a.
Arguments Raise {A} e.

Global Instance result_ret : MRet result := λ A a, Ok a.
Global Instance result_bind : MBind result := λ A B f m,
  match m with
  | Ok a => f a
  | Raise e => Raise e
  end.

(** A row of the table of [model] with its locales (of [locale_model]), as
    the query of [get_documents] loads it. *)
Record DocumentLocale := {
  lang : string;
  title : string
}.

Record Document := {
  document_id : Z;
  redirects_to : option Z;
  locales : list DocumentLocale
}.

(** The answer of ElasticSearch: the ids of the hits of the page
    ([doc.meta.id], strings) and [response.hits.total]. *)
Record Response := {
  hits : list string;
  hits_total : Z
}.

(** The dictionary [search_for_type] returns. *)
Record SearchResult (Json : Type) := {
  count : nat;
  total : Z;
  documents : list Json
}.
Arguments count {Json} _.
Arguments total {Json} _.
Arguments documents {Json} _.

Section Search.

(** [set_best_locale(documents, lang)] of views/__init__.py, which changes
    the documents in place: the list after the call. *)
Variable set_best_locale : list Document → string → list Document.

(** [get_documents(document_ids, model, locale_model, lang)]; [table] holds
    the rows of [model]. *)
Definition get_documents (table : list Document) (document_ids : list Z)
    (lang : option string) : list Document :=
  match document_ids with
  | [] => []
  | _ =>
      let documents :=
        filter (λ doc, redirects_to doc = None ∧
                       document_id doc ∈ document_ids) table in
      let documents :=
        match lang with
        | Some lang => set_best_locale documents lang
        | None => documents
        end in
      (* make sure the documents stay in the same order as returned by ES *)
      let document_index : gmap Z Document :=
        foldl (λ index doc, <[document_id doc := doc]> index) ∅ documents in
      omap (λ id, document_index !! id) document_ids
  end.

(** The search [create_search().query(...).filter(...).fields([])
    .extra(from_=0, size=limit).execute()] for a term, a document type and
    a limit. *)
Variable execute : string → string → Z → Response.

(** [int] on the id of a hit; [None] when it raises [ValueError]. *)
Variable int : string → option Z.

Context {Schema Json : Type}.

(** [to_json_dict(doc, schema)] of views/__init__.py. *)
Variable to_json_dict : Document → Schema → Json.

Definition search_for_type (table : list Document) (search_term : string)
    (document_type : string) (schema : Schema)
    (adapt_schema : option (Schema → Document → Schema))
    (limit : Z) (lang : option string) : result (SearchResult Json) :=
  (* only request the document ids from ES *)
  let response := execute search_term document_type limit in
  document_ids ←
    mapM (λ id, match int id with
                | Some i => Ok i
                | None => Raise ValueError
                end) (hits response);
  (* then load the documents for the returned ids *)
  let documents := get_documents table document_ids lang in
  let count := length documents in
  let total := hits_total response in
  mret {| count := count;
          total := total;
          documents :=
            (λ doc, to_json_dict doc
                      match adapt_schema with
                      | None => schema
                      | Some adapt_schema => adapt_schema schema doc
                      end) <$> documents |}.

End Search.

End Search.

(** * The waypoints (views/waypoint.py) *)

Module WaypointRest.

Inductive exn :=
  | HTTPNotFound (msg : string)
  | HTTPBadRequest (msg : string)
  | HTTPConflict (msg : string).

Inductive result (A : Type) :=
  | Ok (a : A)
  | Raise (e : exn).
Arguments Ok {A} a.
Arguments Raise {A} e.

(** A locale and a waypoint with its locales, as far as the checks of the
    resource read them. *)
Record DocumentLocale := {
  culture : string;
  locale_version : Z        (* DocumentLocale.version *)
}.

Record Waypoint := {
  document_id : Z;
  version : Z;
  locales : list DocumentLocale
}.

(** Truth value of the [culture] parameter: [None] and the empty string are
    false. *)
Definition culture_truthy (culture : option string) : bool :=
  match culture with
  | None => false
  | Some s => negb (bool_decide (s = ""))
  end.

(** [_get_waypoint(id, culture)]; [table] holds the waypoints, each with all
    its locales.  Without culture the first waypoint of the id is loaded with
    all its locales; with a culture the first row of the join of the
    waypoints with their locales that has the id and the culture, and the
    waypoint holds the locale of this row only ([contains_eager]). *)
Definition _get_waypoint (table : list Waypoint) (id : Z)
    (culture' : option string) : result Waypoint :=
  let waypoint :=
    if negb (culture_truthy culture') then
      head (filter (λ wp, document_id wp = id) table)
    else
      head (filter (λ wp, document_id wp = id)
              (wp ← table;
               (λ locale, {| document_id := document_id wp;
                             version := version wp;
                             locales := [locale] |}) <$>
                 filter (λ locale, Some (culture locale) = culture')
                        (locales wp))) in
  match waypoint with
  | None => Raise (HTTPNotFound "document not found")
  | Some waypoint => Ok waypoint
  end.

Definition _check_document_id (id document_id' : Z) : result unit :=
  if bool_decide (id ≠ document_id') then
    Raise (HTTPBadRequest
             "id in the url does not match document_id in request body")
  else Ok ().

Section Versions.

(** [waypoint.get_locale(culture)] of models/document.py. *)
Variable get_locale : Waypoint → string → option DocumentLocale.

(** The loop of [_check_versions] over the locales that were passed in. *)
Fixpoint check_locale_versions (waypoint : Waypoint)
    (locales_in : list DocumentLocale) : result unit :=
  match locales_in with
  | [] => Ok ()
  | locale_in :: locales_in =>
      match get_locale waypoint (culture locale_in) with
      | Some locale =>
          if bool_decide (locale_version locale ≠ locale_version locale_in)
          then Raise (HTTPConflict
                        ("version of locale '" +:+ culture locale +:+
                         "' has changed"))
          else check_locale_versions waypoint locales_in
      | None => check_locale_versions waypoint locales_in
      end
  end.

Definition _check_versions (waypoint waypoint_in : Waypoint) : result unit :=
  if bool_decide (version waypoint ≠ version waypoint_in) then
    Raise (HTTPConflict "version of document has changed")
  else check_locale_versions waypoint (locales waypoint_in).

End Versions.

End WaypointRest.

(** * Vocabulary of the properties *)

(** The ids a user follows and the areas a user filters on, read from the
    tables. *)
Definition followed_ids (db : DB) (user : User) : list Z :=
  followed_user_id <$>
    filter (λ r, follower_user_id r = id user) (feed_followed_users db).

Definition filtered_area_ids (db : DB) (user : User) : list Z :=
  area_id <$> filter (λ r, filter_user_id r = id user) (feed_filter_area db).

(** The rows a query returns before its LIMIT: the rows that pass every
    condition, in feed order. *)
Definition selected (db : DB) (fs : list clause) : list DocumentChange :=
  merge_sort feed_order
    (filter (λ c, forallb (λ f, holds f c) fs = true) (feed_document_changes db)).

(** What the personal filter of a user with an area filter and an activity
    filter lets through. *)
Definition area_and_activity (db : DB) (user : User) (c : DocumentChange) : bool :=
  overlap (area_ids c) (filtered_area_ids db user) &&
  overlap (activities c) (feed_filter_activities user).

Definition followed (db : DB) (user : User) (c : DocumentChange) : bool :=
  overlap (user_ids c) (followed_ids db user).

(** The image of a slot: the document of the image id, when the id is set
    (and not 0) and its document was loaded. *)
Definition image_slot (documents : gmap Z Doc) (image_id : option Z)
    : option Doc :=
  i ← image_id; if bool_decide (i ≠ 0) then documents !! i else None.

(** [entry_for isoformat documents c e]: [e] is the entry of the change [c],
    every field filled from [c] and from the loaded documents; participants
    that were not loaded are left out. *)
Definition entry_for (isoformat : Z → string) (documents : gmap Z Doc)
    (c : DocumentChange) (e : FeedEntry) : Prop :=
  e_id e = change_id c ∧
  e_time e = isoformat (time c) ∧
  documents !! user_id c = Some (e_user e) ∧
  e_participants e =
    omap (λ i, documents !! i) (filter (λ i, i ≠ user_id c) (user_ids c)) ∧
  e_change_type e = change_type c ∧
  documents !! document_id c = Some (e_document e) ∧
  e_image1 e = image_slot documents (image1_id c) ∧
  e_image2 e = image_slot documents (image2_id c) ∧
  e_image3 e = image_slot documents (image3_id c) ∧
  e_more_images e = more_images c.

Definition limit_of (params : option string * option Z * option Z * Z) : Z :=
  params.2.

(** The condition of the pagination filter for the token of the change
    [c0]. *)
Definition pagination_filter (token_id token_time : Z) : clause :=
  or_ (time_lt token_time) (and_ (time_eq token_time) (change_id_gt token_id)).

(** [c] comes strictly after [c0] in feed order. *)
Definition after (c0 c : DocumentChange) : Prop :=
  time c < time c0 ∨ (time c = time c0 ∧ change_id c > change_id c0).

Definition feed_key (c : DocumentChange) : Z * Z := (time c, change_id c).

(** Modelled from the spec: [validate_token_pagination] of
    views/validation.py, which fills [token_id] and [token_time] of
    [request.validated] from the [token] parameter and is not part of the
    sources.  By the spec the token decodes to [(change_id, time)] or the
    request is refused; the decoding itself is the parameter [parse_token].
    [None] is the refused request, [Some (None, None)] the request without
    token. *)
Definition validated_token (parse_token : string → option (Z * Z))
    (token : option string) : option (option Z * option Z) :=
  match token with
  | None => Some (None, None)
  | Some token =>
      match parse_token token with
      | Some (token_id, token_time) => Some (Some token_id, Some token_time)
      | None => None
      end
  end.

(** What identifies an entry and a change in a response. *)
Definition entry_key (e : FeedEntry) : Z * string := (e_id e, e_time e).

Definition change_key (isoformat : Z → string) (c : DocumentChange)
    : Z * string :=
  (change_id c, isoformat (time c)).

(** The conditions of a query without token. *)
Definition extra_clauses (extra_filter : option clause) : list clause :=
  match extra_filter with Some f => [f] | None => [] end.

(** A store that has a document for every id it is asked for. *)
Definition complete_store {Config : Type}
    (get_documents_for_ids : gset Z → option string → Config → list Doc) : Prop :=
  ∀ ids lang document_config i,
    i ∈ ids →
    ∃ d, d ∈ get_documents_for_ids ids lang document_config ∧
         doc_document_id d = i.

(** Every type of documents to load has a configuration. *)
Definition all_configured {Config : Type}
    (document_configs : gmap string Config)
    (documents_to_load : list (string * gset Z)) : Prop :=
  ∀ k, k ∈ documents_to_load.*1 → is_Some (document_configs !! k).

(** The types a change log can ask for have a configuration: the types of
    its documents, the profile type and the image type. *)
Definition types_configured {Config : Type}
    (document_configs : gmap string Config)
    (changes : list DocumentChange) : Prop :=
  is_Some (document_configs !! USERPROFILE_TYPE) ∧
  is_Some (document_configs !! IMAGE_TYPE) ∧
  ∀ c, c ∈ changes → is_Some (document_configs !! document_type c).

(** The id [i] is to be loaded as a document of type [k]. *)
Definition to_load (d : list (string * gset Z)) (k : string) (i : Z) : Prop :=
  ∃ s, (k, s) ∈ d ∧ i ∈ s.

(** What a condition that may be absent lets through: everything when there
    is none. *)
Definition passes (extra_filter : option clause) (c : DocumentChange) : bool :=
  match extra_filter with
  | Some f => holds f c
  | None => true
  end.

(** The table of the cases of [create_personal_filter], as a condition on a
    change. *)
Definition personal_condition (db : DB) (user : User) (c : DocumentChange)
    : bool :=
  if feed_followed_only user then
    if is_following_users user then followed db user c else true
  else if list_truthy (feed_filter_activities user) || has_area_filter user then
    ((if has_area_filter user
      then overlap (area_ids c) (filtered_area_ids db user) else true) &&
     (if list_truthy (feed_filter_activities user)
      then overlap (activities c) (feed_filter_activities user) else true))
    || (is_following_users user && followed db user c)
  else true.

(** [c] comes after the token, when there is a whole token. *)
Definition after_token (token_id token_time : option Z) (c : DocumentChange)
    : Prop :=
  match token_id, token_time with
  | Some i, Some t => time c < t ∨ (time c = t ∧ change_id c > i)
  | _, _ => True
  end.

(** * Sample data *)

(** A user for the examples: id 1, filters on area 5 and on ski touring,
    follows nobody. *)
Definition user_area_activity : User :=
  {| id := 1; email_validated := true; is_profile_public := true;
     feed_followed_only := false;
     feed_filter_activities := ["skitouring"];
     has_area_filter := true; is_following_users := false |}.

(** A change in area 5 for hiking, by user 7. *)
Definition change_hiking_in_area : DocumentChange :=
  {| change_id := 1; time := 100; user_id := 7; change_type := "created";
     document_id := 200; document_type := "o";
     activities := ["hiking"]; area_ids := [5]; user_ids := [7];
     image1_id := None; image2_id := None; image3_id := None;
     more_images := false |}.

Definition db_area_activity : DB :=
  {| users := [user_area_activity];
     feed_document_changes := [change_hiking_in_area];
     feed_followed_users := [];
     feed_filter_area := [{| area_id := 5; filter_user_id := 1 |}] |}.

(** A user in followed-only mode who follows nobody, with an area filter and
    an activity filter besides. *)
Definition user_followed_only_alone : User :=
  {| id := 1; email_validated := true; is_profile_public := true;
     feed_followed_only := true;
     feed_filter_activities := ["skitouring"];
     has_area_filter := true; is_following_users := false |}.

Definition db_followed_only_alone : DB :=
  {| users := [user_followed_only_alone];
     feed_document_changes := [change_hiking_in_area];
     feed_followed_users := [];
     feed_filter_area := [{| area_id := 5; filter_user_id := 1 |}] |}.

(** A user in followed-only mode who follows user 7. *)
Definition user_followed_only : User :=
  {| id := 1; email_validated := true; is_profile_public := true;
     feed_followed_only := true;
     feed_filter_activities := ["skitouring"];
     has_area_filter := true; is_following_users := true |}.

Definition db_followed_only : DB :=
  {| users := [user_followed_only];
     feed_document_changes := [change_hiking_in_area];
     feed_followed_users :=
       [{| followed_user_id := 7; follower_user_id := 1 |}];
     feed_filter_area := [{| area_id := 5; filter_user_id := 1 |}] |}.

(** [datetime.isoformat] on the instants of 1970-01-01, counted in seconds
    from midnight. *)
Definition two_digits (n : Z) : string :=
  if bool_decide (n < 10) then "0" +:+ pretty n else pretty n.

Definition isoformat_first_day (t : Z) : string :=
  "1970-01-01T" +:+ two_digits (t `div` 3600) +:+ ":" +:+
  two_digits ((t `div` 60) `mod` 60) +:+ ":" +:+ two_digits (t `mod` 60).

(** The configurations of the document types, each one standing for its
    type. *)
Definition sample_configs : gmap string string :=
  list_to_map [("w", "w"); ("r", "r"); ("o", "o"); ("i", "i"); ("m", "m");
               ("a", "a"); ("u", "u")].

(** A document store in which every id is found, except those of
    [missing]. *)
Definition documents_except (missing : gset Z) (document_ids : gset Z)
    (lang : option string) (document_config : string) : list Doc :=
  (λ i, {| doc_document_id := i; doc_content := document_config |}) <$>
    elements (document_ids ∖ missing).

(** The two changes of the scenario of the spec, at 00:00:02 and 00:00:01. *)
Definition change_10 : DocumentChange :=
  {| change_id := 10; time := 2; user_id := 1; change_type := "created";
     document_id := 100; document_type := "o";
     activities := []; area_ids := []; user_ids := [1];
     image1_id := None; image2_id := None; image3_id := None;
     more_images := false |}.

Definition change_9 : DocumentChange :=
  {| change_id := 9; time := 1; user_id := 1; change_type := "created";
     document_id := 101; document_type := "o";
     activities := []; area_ids := []; user_ids := [1];
     image1_id := None; image2_id := None; image3_id := None;
     more_images := false |}.

(** A change at the time of [change_9], with a participant and two images. *)
Definition change_11 : DocumentChange :=
  {| change_id := 11; time := 1; user_id := 1; change_type := "updated";
     document_id := 102; document_type := "r";
     activities := []; area_ids := []; user_ids := [1; 3];
     image1_id := Some 501; image2_id := Some 502; image3_id := None;
     more_images := false |}.

Definition request_with_limit (limit : option Z) : Request :=
  {| validated_lang := None;
     validated_token_id := None;
     validated_token_time := None;
     validated_limit := limit;
     validated_u := 1;
     authenticated_userid := None;
     has_permission_authenticated := false |}.

Definition db_two_changes : DB :=
  {| users := [];
     feed_document_changes := [change_9; change_10];
     feed_followed_users := [];
     feed_filter_area := [] |}.

(** A user whose profile is public but whose email is not validated, and a
    request of an anonymous caller for the profile feed of this user. *)
Definition user_not_validated : User :=
  {| id := 2; email_validated := false; is_profile_public := true;
     feed_followed_only := false; feed_filter_activities := [];
     has_area_filter := false; is_following_users := false |}.

Definition user_private : User :=
  {| id := 3; email_validated := true; is_profile_public := false;
     feed_followed_only := false; feed_filter_activities := [];
     has_area_filter := false; is_following_users := false |}.

Definition user_public : User :=
  {| id := 1; email_validated := true; is_profile_public := true;
     feed_followed_only := false; feed_filter_activities := [];
     has_area_filter := false; is_following_users := false |}.

Definition db_profiles : DB :=
  {| users := [user_public; user_not_validated; user_private];
     feed_document_changes := [change_9; change_10];
     feed_followed_users := [];
     feed_filter_area := [] |}.

Definition profile_request (u : Z) (authenticated : bool) : Request :=
  {| validated_lang := None;
     validated_token_id := None;
     validated_token_time := None;
     validated_limit := None;
     validated_u := u;
     authenticated_userid := if authenticated then Some 1 else None;
     has_permission_authenticated := authenticated |}.

(** A decoder for the tokens of the changes of one log: the token of a
    change of the log decodes to the id and the time of the change. *)
Definition token_decoder (isoformat : Z → string)
    (changes : list DocumentChange) (token : string) : option (Z * Z) :=
  (λ c, (change_id c, time c)) <$>
    head (filter (λ c, format_token isoformat c = token) changes).

(** Three changes, two of them at the same time. *)
Definition db_three_changes : DB :=
  {| users := [];
     feed_document_changes := [change_9; change_11; change_10];
     feed_followed_users := [];
     feed_filter_area := [] |}.

(** A request for the global feed. *)
Definition feed_request (lang : option string) (token : option Z * option Z)
    (limit : option Z) : Request :=
  {| validated_lang := lang;
     validated_token_id := token.1;
     validated_token_time := token.2;
     validated_limit := limit;
     validated_u := 0;
     authenticated_userid := None;
     has_permission_authenticated := false |}.

(** The decoder of the tokens of [db_two_changes]. *)
Definition token_decoder_two_changes : string → option (Z * Z) :=
  token_decoder isoformat_first_day (feed_document_changes db_two_changes).

(** A user without filter who follows user 7, and the request of this user
    for a page of the personal feed. *)
Definition user_following_no_filter : User :=
  {| id := 1; email_validated := true; is_profile_public := true;
     feed_followed_only := false; feed_filter_activities := [];
     has_area_filter := false; is_following_users := true |}.

Definition db_following_no_filter : DB :=
  {| users := [user_following_no_filter];
     feed_document_changes := [change_9; change_hiking_in_area; change_10];
     feed_followed_users :=
       [{| followed_user_id := 7; follower_user_id := 1 |}];
     feed_filter_area := [] |}.

Definition personal_request : Request :=
  {| validated_lang := None;
     validated_token_id := None;
     validated_token_time := None;
     validated_limit := Some 2;
     validated_u := 0;
     authenticated_userid := Some 1;
     has_permission_authenticated := true |}.

(** Documents for the search: a summit, a summit merged into it, and a
    route. *)
Definition search_table : list Search.Document :=
  [ {| Search.document_id := 534681; Search.redirects_to := None;
       Search.locales :=
         [ {| Search.lang := "fr"; Search.title := "Dent de Crolles" |};
           {| Search.lang := "en"; Search.title := "Dent de Crolles" |} ] |};
    {| Search.document_id := 534684; Search.redirects_to := Some 534681;
       Search.locales :=
         [ {| Search.lang := "en"; Search.title := "Mont Blanc" |} ] |};
    {| Search.document_id := 534683; Search.redirects_to := None;
       Search.locales :=
         [ {| Search.lang := "fr"; Search.title := "Mont Blanc du ciel" |} ] |} ].

(** A [set_best_locale] that keeps the locales of the language. *)
Definition keep_locales_of (documents : list Search.Document) (lang : string)
    : list Search.Document :=
  (λ doc, {| Search.document_id := Search.document_id doc;
             Search.redirects_to := Search.redirects_to doc;
             Search.locales :=
               filter (λ l, Search.lang l = lang) (Search.locales doc) |})
    <$> documents.

(** A waypoint with a French and an English locale, and what a client sends
    to update it. *)
Definition waypoint_table : list WaypointRest.Waypoint :=
  [ {| WaypointRest.document_id := 7; WaypointRest.version := 3;
       WaypointRest.locales :=
         [ {| WaypointRest.culture := "fr"; WaypointRest.locale_version := 2 |};
           {| WaypointRest.culture := "en"; WaypointRest.locale_version := 1 |} ] |} ].

Definition waypoint_7 : WaypointRest.Waypoint :=
  {| WaypointRest.document_id := 7; WaypointRest.version := 3;
     WaypointRest.locales :=
       [ {| WaypointRest.culture := "fr"; WaypointRest.locale_version := 2 |};
         {| WaypointRest.culture := "en"; WaypointRest.locale_version := 1 |} ] |}.

Definition waypoint_7_in : WaypointRest.Waypoint :=
  {| WaypointRest.document_id := 7; WaypointRest.version := 3;
     WaypointRest.locales :=
       [ {| WaypointRest.culture := "fr"; WaypointRest.locale_version := 2 |};
         {| WaypointRest.culture := "es"; WaypointRest.locale_version := 0 |} ] |}.

(** The locale of a culture: the first one of the waypoint. *)
Definition first_locale (waypoint : WaypointRest.Waypoint) (culture : string)
    : option WaypointRest.DocumentLocale :=
  head (filter (λ l, WaypointRest.culture l = culture)
          (WaypointRest.locales waypoint)).

(** An answer of the search engine with two hits, of which the second was
    merged into the first, and the reading of their ids. *)
Definition two_hits (search_term document_type : string) (limit : Z)
    : Search.Response :=
  {| Search.hits := ["534681"; "534684"]; Search.hits_total := 2 |}.

Definition int_of_hit (s : string) : option Z :=
  if bool_decide (s = "534681") then Some 534681
  else if bool_decide (s = "534684") then Some 534684
  else None.

(** * Properties *)

(** ** The result monad *)

Lemma bind_Ok {A B} (f : A → result B) (m : result A) (b : B) :
  m ≫= f = Ok b ↔ ∃ a, m = Ok a ∧ f a = Ok b.
Proof.
  destruct m as [a|e]; simpl; split.
  - intros H. by exists a.
  - by intros (a' & [= ->] & H).
  - done.
  - by intros (a' & [=] & _).
Qed.

(** ** SQL conditions *)

Lemma overlap_true `{EqDecision A} (xs ys : list A) :
  overlap xs ys = true ↔ ∃ x, x ∈ xs ∧ x ∈ ys.
Proof.
  unfold overlap. rewrite existsb_exists. split.
  - intros (x & Hx & Hy). exists x. split; [by apply list_elem_of_In|].
    by apply bool_decide_eq_true in Hy.
  - intros (x & Hx & Hy). exists x. split; [by apply list_elem_of_In|].
    by apply bool_decide_eq_true.
Qed.

Lemma overlap_nil_r `{EqDecision A} (xs : list A) : overlap xs [] = false.
Proof.
  apply not_true_is_false. rewrite overlap_true.
  intros (x & _ & Hx). by apply not_elem_of_nil in Hx.
Qed.

Lemma holds_and (a b : clause) (c : DocumentChange) :
  holds (and_ a b) c = holds a c && holds b c.
Proof.
  unfold holds. simpl.
  by destruct (eval_clause a c) as [[]|], (eval_clause b c) as [[]|].
Qed.

Lemma holds_or (a b : clause) (c : DocumentChange) :
  holds (or_ a b) c = holds a c || holds b c.
Proof.
  unfold holds. simpl.
  by destruct (eval_clause a c) as [[]|], (eval_clause b c) as [[]|].
Qed.

(** An overlap with the array of a subquery holds when the subquery has a row
    and the arrays meet; the rows of the subquery are never an empty list. *)
Lemma holds_user_ids_overlap (ids : option (list Z)) (c : DocumentChange) :
  holds (user_ids_overlap ids) c = overlap (user_ids c) (default [] ids).
Proof.
  unfold holds. destruct ids as [ids|]; simpl.
  - by destruct (overlap _ _).
  - by rewrite overlap_nil_r.
Qed.

Lemma holds_area_ids_overlap (ids : option (list Z)) (c : DocumentChange) :
  holds (area_ids_overlap ids) c = overlap (area_ids c) (default [] ids).
Proof.
  unfold holds. destruct ids as [ids|]; simpl.
  - by destruct (overlap _ _).
  - by rewrite overlap_nil_r.
Qed.

Lemma holds_activities_overlap (acts : list string) (c : DocumentChange) :
  holds (activities_overlap acts) c = overlap (activities c) acts.
Proof. unfold holds. simpl. by destruct (overlap _ _). Qed.

Lemma followed_users_subquery_default (db : DB) (user : User) :
  default [] (followed_users_subquery db user) = followed_ids db user.
Proof.
  unfold followed_users_subquery, followed_ids.
  by destruct (filter _ _).
Qed.

Lemma filtered_area_ids_subquery_default (db : DB) (user : User) :
  default [] (filtered_area_ids_subquery db user) = filtered_area_ids db user.
Proof.
  unfold filtered_area_ids_subquery, filtered_area_ids.
  by destruct (filter _ _).
Qed.

(** ** Running a query *)

Global Instance feed_order_total : Total feed_order.
Proof. intros c1 c2. unfold feed_order. lia. Qed.

Global Instance feed_order_trans : Transitive feed_order.
Proof. intros c1 c2 c3. unfold feed_order. lia. Qed.

Lemma selected_sorted (db : DB) (fs : list clause) :
  StronglySorted feed_order (selected db fs).
Proof. apply StronglySorted_merge_sort; apply _. Qed.

Lemma elem_of_selected (db : DB) (fs : list clause) (c : DocumentChange) :
  c ∈ selected db fs ↔
  c ∈ feed_document_changes db ∧ Forall (λ f, holds f c = true) fs.
Proof.
  unfold selected. rewrite merge_sort_Permutation, list_elem_of_filter.
  rewrite forallb_forall, Forall_forall.
  setoid_rewrite list_elem_of_In. tauto.
Qed.

Lemma get_changes_of_feed_rows (db : DB) (token_id token_time : option Z)
    (limit : Z) (extra_filter : option clause) :
  0 ≤ limit →
  get_changes_of_feed db token_id token_time limit extra_filter =
  Ok (take (Z.to_nat limit)
        (selected db
           (match token_id, token_time with
            | Some i, Some t =>
                [or_ (time_lt t) (and_ (time_eq t) (change_id_gt i))]
            | _, _ => []
            end ++
            match extra_filter with Some f => [f] | None => [] end))).
Proof.
  intros Hlimit. unfold get_changes_of_feed, query_all, selected. simpl.
  rewrite bool_decide_eq_false_2 by lia.
  by destruct token_id, token_time, extra_filter.
Qed.

(** ** The personal filter *)

Lemma holds_followed_users_filter (db : DB) (user : User) (c : DocumentChange) :
  holds (user_ids_overlap (followed_users_subquery db user)) c = followed db user c.
Proof.
  by rewrite holds_user_ids_overlap, followed_users_subquery_default.
Qed.

Lemma create_personal_filter_area_activity (db : DB) (user : User) :
  feed_followed_only user = false →
  has_area_filter user = true →
  feed_filter_activities user ≠ [] →
  create_personal_filter db user =
  Some (let area_activity_filter :=
          and_ (area_ids_overlap (filtered_area_ids_subquery db user))
               (activities_overlap (feed_filter_activities user)) in
        if is_following_users user
        then or_ area_activity_filter
                 (user_ids_overlap (followed_users_subquery db user))
        else area_activity_filter).
Proof.
  intros Hfo Harea Hact.
  unfold create_personal_filter, create_area_filter, create_activity_filter,
    create_followed_users_filter.
  rewrite Hfo, Harea.
  destruct (feed_filter_activities user) as [|a acts]; [done|]. simpl.
  by destruct (is_following_users user).
Qed.

(** C2, as stated, fails: the change [change_hiking_in_area] is in the
    filtered area 5, so its [area_ids] meets the area filter and the claimed
    disjunction holds of it, but the personal feed of [user_area_activity]
    does not return it, because the change is not for a filtered activity. *)
Lemma personal_feed_area_or_activity_counterexample :
  query_user db_area_activity (Some 1) = Some user_area_activity ∧
  change_hiking_in_area ∈ feed_document_changes db_area_activity ∧
  overlap (area_ids change_hiking_in_area)
          (filtered_area_ids db_area_activity user_area_activity)
  || overlap (activities change_hiking_in_area)
             (feed_filter_activities user_area_activity) = true ∧
  get_changes_of_personal_feed db_area_activity (Some 1) None None 10 = Ok [].
Proof. split_and!; [done|by left|done|done]. Qed.

(** C2, amended: for a user who is not in followed-only mode and has both an
    area filter and an activity filter, the personal feed is the feed
    restricted to the changes whose [area_ids] meets the filtered areas AND
    whose [activities] meets the filtered activities; when the user follows
    users, the changes whose [user_ids] meets the followed users are added
    (OR).  Without a token the rows before the LIMIT are exactly these
    changes of the log. *)
Theorem personal_feed_area_and_activity (db : DB) (user_id : option Z)
    (user : User) (token_id token_time : option Z) (limit : Z) :
  query_user db user_id = Some user →
  feed_followed_only user = false →
  has_area_filter user = true →
  feed_filter_activities user ≠ [] →
  0 ≤ limit →
  ∃ personal_filter,
    create_personal_filter db user = Some personal_filter ∧
    (∀ c, holds personal_filter c =
          area_and_activity db user c ||
          (is_following_users user && followed db user c)) ∧
    get_changes_of_personal_feed db user_id token_id token_time limit =
    get_changes_of_feed db token_id token_time limit (Some personal_filter) ∧
    ∃ rows,
      get_changes_of_personal_feed db user_id None None limit =
      Ok (take (Z.to_nat limit) rows) ∧
      StronglySorted feed_order rows ∧
      ∀ c, c ∈ rows ↔
           c ∈ feed_document_changes db ∧
           area_and_activity db user c ||
           (is_following_users user && followed db user c) = true.
Proof.
  intros Huser Hfo Harea Hact Hlimit.
  pose proof (create_personal_filter_area_activity db user Hfo Harea Hact) as Hf.
  eexists. split; [exact Hf|].
  assert (Hholds : ∀ c,
    holds (let area_activity_filter :=
             and_ (area_ids_overlap (filtered_area_ids_subquery db user))
                  (activities_overlap (feed_filter_activities user)) in
           if is_following_users user
           then or_ area_activity_filter
                    (user_ids_overlap (followed_users_subquery db user))
           else area_activity_filter) c =
    area_and_activity db user c ||
    (is_following_users user && followed db user c)).
  { intros c. unfold area_and_activity. simpl.
    destruct (is_following_users user); simpl.
    - rewrite holds_or, holds_and, holds_area_ids_overlap,
        holds_activities_overlap, holds_followed_users_filter.
      by rewrite filtered_area_ids_subquery_default.
    - rewrite holds_and, holds_area_ids_overlap, holds_activities_overlap.
      rewrite filtered_area_ids_subquery_default. by rewrite orb_false_r. }
  assert (Hcustom : has_no_custom_filter user = false).
  { unfold has_no_custom_filter. rewrite Harea.
    by destruct (list_truthy _). }
  split; [exact Hholds|]. split.
  - unfold get_changes_of_personal_feed. by rewrite Huser, Hcustom, Hf.
  - eexists. split; [|split].
    + unfold get_changes_of_personal_feed. rewrite Huser, Hcustom, Hf.
      by apply get_changes_of_feed_rows.
    + apply selected_sorted.
    + intros c. rewrite elem_of_selected. simpl.
      rewrite Forall_singleton. by rewrite Hholds.
Qed.

Lemma personal_feed_area_and_activity_witness :
  ∃ personal_filter,
    create_personal_filter db_area_activity user_area_activity =
    Some personal_filter ∧
    (∀ c, holds personal_filter c =
          area_and_activity db_area_activity user_area_activity c ||
          (is_following_users user_area_activity &&
           followed db_area_activity user_area_activity c)) ∧
    get_changes_of_personal_feed db_area_activity (Some 1) None None 10 =
    get_changes_of_feed db_area_activity None None 10 (Some personal_filter) ∧
    ∃ rows,
      get_changes_of_personal_feed db_area_activity (Some 1) None None 10 =
      Ok (take (Z.to_nat 10) rows) ∧
      StronglySorted feed_order rows ∧
      ∀ c, c ∈ rows ↔
           c ∈ feed_document_changes db_area_activity ∧
           area_and_activity db_area_activity user_area_activity c ||
           (is_following_users user_area_activity &&
            followed db_area_activity user_area_activity c) = true.
Proof.
  apply (personal_feed_area_and_activity db_area_activity (Some 1)
           user_area_activity None None 10); [reflexivity|reflexivity|
           reflexivity|discriminate|lia].
Defined.

(** C3, as stated, fails for a user who follows nobody:
    [create_followed_users_filter] then returns [None], the query runs
    without a condition, and the user receives a change of user 7, whom they
    do not follow. *)
Lemma followed_only_without_followed_users_counterexample :
  query_user db_followed_only_alone (Some 1) = Some user_followed_only_alone ∧
  feed_followed_only user_followed_only_alone = true ∧
  create_personal_filter db_followed_only_alone user_followed_only_alone = None ∧
  get_changes_of_personal_feed db_followed_only_alone (Some 1) None None 10 =
    Ok [change_hiking_in_area] ∧
  followed db_followed_only_alone user_followed_only_alone
    change_hiking_in_area = false.
Proof. by split_and!. Qed.

(** C3, amended: in followed-only mode the personal filter is what
    [create_followed_users_filter] returns, whatever the area and activity
    filters are; for a user who follows at least one user it is the condition
    that the change's [user_ids] meets the followed users, and every change
    of the personal feed satisfies it.  (For a user who follows nobody there
    is no condition.)  Two users in followed-only mode with the same id and
    the same [is_following_users] have the same filter, whatever their area
    and activity filters. *)
Theorem followed_only_filter (db : DB) (user : User) :
  feed_followed_only user = true →
  create_personal_filter db user = create_followed_users_filter db user ∧
  (∀ user',
     id user' = id user →
     feed_followed_only user' = true →
     is_following_users user' = is_following_users user →
     create_personal_filter db user' = create_personal_filter db user) ∧
  (is_following_users user = false → create_personal_filter db user = None) ∧
  (is_following_users user = true →
   create_personal_filter db user =
     Some (user_ids_overlap (followed_users_subquery db user)) ∧
   ∀ user_id token_id token_time limit changes,
     query_user db user_id = Some user →
     get_changes_of_personal_feed db user_id token_id token_time limit =
       Ok changes →
     ∀ c, c ∈ changes → followed db user c = true).
Proof.
  intros Hfo. unfold create_personal_filter. rewrite Hfo.
  split; [done|]. unfold create_followed_users_filter.
  split.
  { intros user' Hid Hfo' Hfollowing'.
    unfold followed_users_subquery. by rewrite Hfo', Hfollowing', Hid. }
  split; intros Hfollowing; rewrite Hfollowing; [done|]. simpl.
  split; [done|].
  intros uid token_id token_time limit changes Huser Hchanges c Hc.
  unfold get_changes_of_personal_feed in Hchanges. rewrite Huser in Hchanges.
  assert (has_no_custom_filter user = false) as Hcustom.
  { unfold has_no_custom_filter. rewrite Hfo. by rewrite !orb_true_r. }
  rewrite Hcustom in Hchanges.
  unfold create_personal_filter, create_followed_users_filter in Hchanges.
  rewrite Hfo, Hfollowing in Hchanges. simpl in Hchanges.
  destruct (decide (0 ≤ limit)) as [Hlimit|Hlimit].
  - rewrite get_changes_of_feed_rows in Hchanges by done.
    injection Hchanges as <-.
    apply elem_of_take in Hc as (i & Hc & _).
    apply list_elem_of_lookup_2 in Hc.
    apply elem_of_selected in Hc as [_ Hall].
    rewrite Forall_app, Forall_singleton in Hall. destruct Hall as [_ Hall].
    by rewrite holds_followed_users_filter in Hall.
  - unfold get_changes_of_feed, query_all in Hchanges. simpl in Hchanges.
    rewrite bool_decide_eq_true_2 in Hchanges by lia. done.
Qed.

Lemma followed_only_filter_witness :
  feed_followed_only user_followed_only = true ∧
  create_personal_filter db_followed_only user_followed_only =
    Some (user_ids_overlap (Some [7])) ∧
  get_changes_of_personal_feed db_followed_only (Some 1) None None 10 =
    Ok [change_hiking_in_area] ∧
  followed db_followed_only user_followed_only change_hiking_in_area = true.
Proof.
  split; [reflexivity|].
  destruct (followed_only_filter db_followed_only user_followed_only
              eq_refl) as (_ & _ & _ & Hfollowing).
  destruct (Hfollowing eq_refl) as [Hfilter Hchanges].
  split; [exact Hfilter|]. split; [reflexivity|].
  apply (Hchanges (Some 1) None None 10 [change_hiking_in_area]);
    [reflexivity|reflexivity|by left].
Defined.

(** C6: a user with no activity filter, no area filter and not in
    followed-only mode gets from the personal feed what the global feed gives
    for the same request (the same changes in the same order, the same feed
    and the same pagination token), whether the user follows users or not. *)
Theorem personal_feed_without_filter_is_global_feed
    (isoformat : Z → string)
    {Config : Type} (document_configs : gmap string Config)
    (get_documents_for_ids : gset Z → option string → Config → list Doc)
    (db : DB) (request : Request) (user : User) :
  query_user db (authenticated_userid request) = Some user →
  feed_filter_activities user = [] →
  has_area_filter user = false →
  feed_followed_only user = false →
  (∀ token_id token_time limit,
     get_changes_of_personal_feed db (authenticated_userid request)
       token_id token_time limit =
     get_changes_of_feed db token_id token_time limit None) ∧
  PersonalFeedRest_get isoformat document_configs get_documents_for_ids db request =
  FeedRest_get isoformat document_configs get_documents_for_ids db request.
Proof.
  intros Huser Hact Harea Hfo.
  assert (Hchanges : ∀ token_id token_time limit,
     get_changes_of_personal_feed db (authenticated_userid request)
       token_id token_time limit =
     get_changes_of_feed db token_id token_time limit None).
  { intros token_id token_time limit.
    unfold get_changes_of_personal_feed. rewrite Huser.
    unfold has_no_custom_filter, create_personal_filter.
    rewrite Hact, Harea, Hfo. simpl.
    by destruct (is_following_users user). }
  split; [exact Hchanges|].
  unfold PersonalFeedRest_get, FeedRest_get.
  destruct (get_params request) as [[[lang token_id] token_time] limit].
  by rewrite Hchanges.
Qed.

(** ** The feed of a page *)

Ltac unfold_load_feed := unfold load_feed.
Ltac unfold_page_documents H := unfold page_documents in H.

Section FeedProperties.

Context (isoformat : Z → string).
Context {Config : Type} (document_configs : gmap string Config)
    (get_documents_for_ids : gset Z → option string → Config → list Doc).

Local Abbreviation load_feed := (load_feed isoformat document_configs get_documents_for_ids).
Local Abbreviation page_documents := (page_documents document_configs get_documents_for_ids).
Local Abbreviation feed_entry := (feed_entry isoformat).
Local Abbreviation entry_for := (entry_for isoformat).

Lemma get_truthy_Some (documents : gmap Z Doc) (k : Z) :
  get_truthy documents k = true ↔ is_Some (documents !! k).
Proof. unfold get_truthy. apply bool_decide_eq_true. Qed.

Lemma getitem_Some (documents : gmap Z Doc) (k : Z) (d : Doc) :
  documents !! k = Some d → getitem documents k = Ok d.
Proof. unfold getitem. by intros ->. Qed.

Lemma mapM_getitem_participants (documents : gmap Z Doc) (actor : Z)
    (ids : list Z) :
  mapM (getitem documents)
    (filter (λ i, i ≠ actor ∧ get_truthy documents i = true) ids) =
  Ok (omap (λ i, documents !! i) (filter (λ i, i ≠ actor) ids)).
Proof.
  induction ids as [|i ids IH]; [done|].
  rewrite !filter_cons.
  destruct (decide (i ≠ actor)) as [Hne|Heq].
  - destruct (documents !! i) as [d|] eqn:Hd.
    + rewrite decide_True.
      2:{ split; [done|]. apply get_truthy_Some. by rewrite Hd. }
      simpl. rewrite (getitem_Some _ _ _ Hd), Hd. simpl.
      by rewrite IH.
    + rewrite decide_False.
      2:{ intros [_ Ht]. apply get_truthy_Some in Ht.
          rewrite Hd in Ht. by destruct Ht. }
      simpl. by rewrite Hd.
  - rewrite decide_False by tauto. done.
Qed.

Lemma load_image_slot (documents : gmap Z Doc) (image_id : option Z) :
  load_image documents image_id = Ok (image_slot documents image_id).
Proof.
  unfold load_image, image_slot, id_truthy, get_truthy.
  destruct image_id as [i|]; [|done]. simpl.
  destruct (bool_decide (i ≠ 0)); [|done]. simpl.
  destruct (documents !! i) as [d|] eqn:Hd.
  - rewrite bool_decide_eq_true_2 by done.
    by rewrite (getitem_Some _ _ _ Hd).
  - rewrite bool_decide_eq_false_2; [done|]. by intros [? [=]].
Qed.

(** The lookups of [feed_entry] do not fail on a change that survived. *)
Lemma feed_entry_loaded (documents : gmap Z Doc) (c : DocumentChange) :
  loaded documents c →
  ∃ e, feed_entry documents c = Ok e ∧ entry_for documents c e.
Proof.
  intros [Hu Hd].
  apply get_truthy_Some in Hu as [user Hu].
  apply get_truthy_Some in Hd as [document Hd].
  unfold feed_entry.
  rewrite (getitem_Some _ _ _ Hu), (getitem_Some _ _ _ Hd). simpl.
  rewrite mapM_getitem_participants. simpl.
  rewrite !load_image_slot. simpl.
  eexists. split; [reflexivity|]. by repeat split.
Qed.

Lemma mapM_feed_entry (documents : gmap Z Doc) (changes : list DocumentChange) :
  Forall (loaded documents) changes →
  ∃ entries,
    mapM (feed_entry documents) changes = Ok entries ∧
    Forall2 (entry_for documents) changes entries.
Proof.
  induction 1 as [|c changes Hc _ (entries & Hentries & Hall)].
  - exists []. by split.
  - destruct (feed_entry_loaded _ _ Hc) as (e & He & Hfor).
    exists (e :: entries). simpl. rewrite He. simpl. rewrite Hentries.
    split; [done|]. by constructor.
Qed.

Lemma load_documents_items_cons (documents : gmap Z Doc) (k : string)
    (ids : gset Z) (items : list (string * gset Z)) (lang : option string) :
  load_documents_items document_configs get_documents_for_ids
    documents ((k, ids) :: items) lang =
  match document_configs !! k with
  | Some document_config =>
      load_documents_items document_configs get_documents_for_ids
        (foldl (λ documents doc, <[doc_document_id doc := doc]> documents)
               documents (get_documents_for_ids ids lang document_config))
        items lang
  | None => Raise KeyError
  end.
Proof.
  simpl. unfold getitem_config. by destruct (document_configs !! k).
Qed.

(** [load_documents] answers exactly when every type to load has a
    configuration, and raises [KeyError] otherwise. *)
Lemma load_documents_items_configured (documents : gmap Z Doc)
    (items : list (string * gset Z)) (lang : option string) :
  all_configured document_configs items →
  ∃ documents',
    load_documents_items document_configs get_documents_for_ids
      documents items lang = Ok documents'.
Proof.
  revert documents.
  induction items as [|[k ids] items IH]; intros documents Hall.
  - by eexists.
  - destruct (Hall k) as [document_config Hk]; [left|].
    rewrite load_documents_items_cons.
    destruct (document_configs !! k); [|done].
    apply IH. intros k' Hk'. apply Hall. by right.
Qed.

Lemma load_documents_items_Ok_inv (documents documents' : gmap Z Doc)
    (items : list (string * gset Z)) (lang : option string) :
  load_documents_items document_configs get_documents_for_ids
    documents items lang = Ok documents' →
  all_configured document_configs items.
Proof.
  revert documents.
  induction items as [|[k ids] items IH]; intros documents H k' Hk'.
  - by apply elem_of_nil in Hk'.
  - rewrite load_documents_items_cons in H.
    destruct (document_configs !! k) as [document_config|] eqn:Hk; [|done].
    rewrite fmap_cons in Hk'. apply elem_of_cons in Hk' as [->|Hk'].
    + simpl. by rewrite Hk.
    + by apply (IH _ H).
Qed.

Lemma load_documents_items_Raise (documents : gmap Z Doc)
    (items : list (string * gset Z)) (lang : option string) (e : exn) :
  load_documents_items document_configs get_documents_for_ids
    documents items lang = Raise e →
  e = KeyError.
Proof.
  revert documents.
  induction items as [|[k ids] items IH]; intros documents H.
  - done.
  - rewrite load_documents_items_cons in H.
    destruct (document_configs !! k) as [document_config|].
    + by apply (IH _ H).
    + congruence.
Qed.

(** When the documents of the page are loaded, [load_feed] answers: its
    feed has one entry per surviving change, in the order of the page, and
    its token is that of the last surviving change. *)
Lemma load_feed_spec (changes : list DocumentChange) (lang : option string)
    (documents : gmap Z Doc) :
  page_documents changes lang = Ok documents →
  let surviving := filter (loaded documents) changes in
  ∃ entries,
    load_feed changes lang =
      Ok {| feed := entries;
            pagination_token := format_token isoformat <$> last surviving |} ∧
    Forall2 (entry_for documents) surviving entries.
Proof.
  intros Hdocuments surviving.
  assert (load_feed changes lang =
          match last surviving with
          | None => mret {| feed := []; pagination_token := None |}
          | Some last_change =>
              entries ← mapM (feed_entry documents) surviving;
              mret {| feed := entries;
                      pagination_token :=
                        Some (format_token isoformat last_change) |}
          end) as ->.
  { destruct changes as [|c changes']; [done|].
    unfold_load_feed. unfold_page_documents Hdocuments.
    by rewrite Hdocuments. }
  destruct (last surviving) as [last_change|] eqn:Hlast.
  - destruct (mapM_feed_entry documents surviving) as (entries & He & Hall).
    { subst surviving. apply Forall_forall. intros c Hc.
      by apply list_elem_of_filter in Hc as [Hc _]. }
    exists entries. rewrite He. by split.
  - apply last_None in Hlast. rewrite Hlast. exists []. split; [done|].
    constructor.
Qed.

(** When the documents of a page cannot be loaded, [load_feed] raises the
    error of [load_documents]; the empty page loads nothing. *)
Lemma load_feed_Raise (changes : list DocumentChange) (lang : option string)
    (e : exn) :
  changes ≠ [] →
  page_documents changes lang = Raise e →
  load_feed changes lang = Raise e.
Proof.
  intros Hne H. destruct changes as [|c changes']; [done|].
  unfold_load_feed. unfold_page_documents H.
  by rewrite H.
Qed.

Lemma page_documents_nil (lang : option string) :
  page_documents [] lang = Ok ∅.
Proof. done. Qed.

Lemma load_feed_Ok_inv (changes : list DocumentChange) (lang : option string)
    (body : Feed) :
  load_feed changes lang = Ok body →
  ∃ documents, page_documents changes lang = Ok documents.
Proof.
  intros H. destruct (page_documents changes lang) as [documents|e] eqn:Hd.
  - by exists documents.
  - destruct changes as [|c changes']; [done|].
    rewrite (load_feed_Raise (c :: changes') lang e) in H; done.
Qed.

Lemma page_documents_configured (changes : list DocumentChange)
    (lang : option string) :
  all_configured document_configs (get_documents_to_load changes) →
  ∃ documents, page_documents changes lang = Ok documents.
Proof. apply load_documents_items_configured. Qed.

Lemma page_documents_Raise (changes : list DocumentChange)
    (lang : option string) (e : exn) :
  page_documents changes lang = Raise e → e = KeyError.
Proof. apply load_documents_items_Raise. Qed.

(** The only error of [load_feed] is that of a type without configuration. *)
Lemma load_feed_Raise_inv (changes : list DocumentChange)
    (lang : option string) (e : exn) :
  load_feed changes lang = Raise e →
  e = KeyError ∧ page_documents changes lang = Raise KeyError.
Proof.
  intros H. destruct (page_documents changes lang) as [documents|e'] eqn:Hd.
  - destruct (load_feed_spec changes lang documents Hd) as (entries & Hfeed & _).
    congruence.
  - pose proof (page_documents_Raise changes lang e' Hd) as ->.
    destruct changes as [|c changes']; [done|].
    rewrite (load_feed_Raise (c :: changes') lang KeyError) in H by done.
    split; congruence.
Qed.

End FeedProperties.

(** *** Two pages with loading failures *)

Example load_feed_dropped_tail :
  load_feed isoformat_first_day sample_configs (documents_except {[ 101 ]})
    [change_10; change_9] None =
  Ok {| feed :=
          [ {| e_id := 10; e_time := "1970-01-01T00:00:02";
               e_user := {| doc_document_id := 1; doc_content := "u" |};
               e_participants := [];
               e_change_type := "created";
               e_document := {| doc_document_id := 100; doc_content := "o" |};
               e_image1 := None; e_image2 := None; e_image3 := None;
               e_more_images := false |} ];
        pagination_token := Some "10,1970-01-01T00:00:02" |}.
Proof. vm_compute. reflexivity. Qed.

Example load_feed_missing_image :
  load_feed isoformat_first_day sample_configs (documents_except {[ 502; 3 ]})
    [change_10; change_11] None =
  Ok {| feed :=
          [ {| e_id := 10; e_time := "1970-01-01T00:00:02";
               e_user := {| doc_document_id := 1; doc_content := "u" |};
               e_participants := [];
               e_change_type := "created";
               e_document := {| doc_document_id := 100; doc_content := "o" |};
               e_image1 := None; e_image2 := None; e_image3 := None;
               e_more_images := false |};
            {| e_id := 11; e_time := "1970-01-01T00:00:01";
               e_user := {| doc_document_id := 1; doc_content := "u" |};
               e_participants := [];
               e_change_type := "updated";
               e_document := {| doc_document_id := 102; doc_content := "r" |};
               e_image1 := Some {| doc_document_id := 501; doc_content := "i" |};
               e_image2 := None; e_image3 := None;
               e_more_images := false |} ];
        pagination_token := Some "11,1970-01-01T00:00:01" |}.
Proof. vm_compute. reflexivity. Qed.

Lemma image_slot_not_loaded (documents : gmap Z Doc) (i : Z) :
  documents !! i = None → image_slot documents (Some i) = None.
Proof. intros H. unfold image_slot. simpl. by destruct (bool_decide _). Qed.

Lemma image_slot_loaded (documents : gmap Z Doc) (i : Z) (d : Doc) :
  i ≠ 0 → documents !! i = Some d → image_slot documents (Some i) = Some d.
Proof.
  intros Hi H. unfold image_slot. simpl. by rewrite bool_decide_eq_true_2.
Qed.

Lemma elem_of_participants (documents : gmap Z Doc) (c : DocumentChange)
    (d : Doc) :
  d ∈ omap (λ i, documents !! i) (filter (λ i, i ≠ user_id c) (user_ids c)) ↔
  ∃ i, i ∈ user_ids c ∧ i ≠ user_id c ∧ documents !! i = Some d.
Proof.
  rewrite list_elem_of_omap. split.
  - intros (i & Hi & Hd). apply list_elem_of_filter in Hi as [Hne Hi]. eauto.
  - intros (i & Hi & Hne & Hd). exists i. split; [|done].
    by apply list_elem_of_filter.
Qed.

(** C4: when the documents of the page are loaded and some change of the
    page survives, the pagination token of the response is made of the
    [change_id] and of the ISO time of the last surviving change, which is
    the last entry of the feed, whatever follows it in the page that was
    fetched. *)
Theorem pagination_token_of_last_surviving
    (isoformat : Z → string)
    {Config : Type} (document_configs : gmap string Config)
    (get_documents_for_ids : gset Z → option string → Config → list Doc)
    (changes : list DocumentChange) (lang : option string)
    (documents : gmap Z Doc)
    (surviving : list DocumentChange) (last_change : DocumentChange) :
  page_documents document_configs get_documents_for_ids changes lang =
    Ok documents →
  filter (loaded documents) changes = surviving ++ [last_change] →
  ∃ entries last_entry,
    load_feed isoformat document_configs get_documents_for_ids changes lang =
      Ok {| feed := entries ++ [last_entry];
            pagination_token :=
              Some (pretty (change_id last_change) +:+ "," +:+
                    isoformat (time last_change)) |} ∧
    e_id last_entry = change_id last_change ∧
    e_time last_entry = isoformat (time last_change).
Proof.
  intros Hdocuments Hsurviving.
  destruct (load_feed_spec isoformat document_configs get_documents_for_ids
              changes lang documents Hdocuments)
    as (entries & Hfeed & Hall).
  rewrite Hsurviving in Hfeed, Hall. rewrite last_snoc in Hfeed.
  apply Forall2_app_inv_l in Hall as (entries' & last' & _ & Hlast & ->).
  apply Forall2_cons_inv_l in Hlast as (last_entry & nil' & Hfor & Hnil & ->).
  apply Forall2_nil_inv_l in Hnil as ->.
  exists entries', last_entry. split; [exact Hfeed|].
  destruct Hfor as (Hid & Htime & _). by split.
Qed.

(** The page [change_10; change_9] when document 101 cannot be loaded: the
    last change of the page is dropped and the token is that of
    [change_10]. *)
Lemma pagination_token_of_last_surviving_witness :
  ∃ entries last_entry,
    load_feed isoformat_first_day sample_configs (documents_except {[ 101 ]})
      [change_10; change_9] None =
      Ok {| feed := entries ++ [last_entry];
            pagination_token := Some "10,1970-01-01T00:00:02" |} ∧
    e_id last_entry = 10 ∧
    e_time last_entry = "1970-01-01T00:00:02".
Proof.
  eapply (pagination_token_of_last_surviving isoformat_first_day sample_configs
            (documents_except {[ 101 ]}) [change_10; change_9] None _
            [] change_10).
  - vm_compute. reflexivity.
  - vm_compute. reflexivity.
Defined.

(** C5: when the documents of the page are loaded, the response has one
    entry per change of the page whose user and whose document were both
    loaded, in the order of the page, and no entry for the other changes;
    the entry of a surviving change has every field filled from the change
    ([entry_for]), its participants being the loaded documents of the other
    ids of [user_ids] and each image slot being the loaded document of its
    image id, or nothing. *)
Theorem load_feed_drops_unloaded
    (isoformat : Z → string)
    {Config : Type} (document_configs : gmap string Config)
    (get_documents_for_ids : gset Z → option string → Config → list Doc)
    (changes : list DocumentChange) (lang : option string)
    (documents : gmap Z Doc) :
  page_documents document_configs get_documents_for_ids changes lang =
    Ok documents →
  ∃ surviving entries token,
    load_feed isoformat document_configs get_documents_for_ids changes lang =
      Ok {| feed := entries; pagination_token := token |} ∧
    surviving `sublist_of` changes ∧
    (∀ c, c ∈ surviving ↔
          c ∈ changes ∧
          is_Some (documents !! user_id c) ∧
          is_Some (documents !! document_id c)) ∧
    Forall2 (entry_for isoformat documents) surviving entries ∧
    (NoDup (change_id <$> changes) →
     ∀ c, c ∈ changes →
       (∃ e, e ∈ entries ∧ e_id e = change_id c) ↔
       is_Some (documents !! user_id c) ∧
       is_Some (documents !! document_id c)) ∧
    (∀ c e, entry_for isoformat documents c e →
       (∀ d, d ∈ e_participants e ↔
             ∃ i, i ∈ user_ids c ∧ i ≠ user_id c ∧ documents !! i = Some d) ∧
       (∀ i, image1_id c = Some i → documents !! i = None → e_image1 e = None) ∧
       (∀ i, image2_id c = Some i → documents !! i = None → e_image2 e = None) ∧
       (∀ i, image3_id c = Some i → documents !! i = None → e_image3 e = None)).
Proof.
  intros Hdocuments.
  destruct (load_feed_spec isoformat document_configs get_documents_for_ids
              changes lang documents Hdocuments)
    as (entries & Hfeed & Hall).
  set (surviving := filter (loaded documents) changes) in *.
  assert (Hsurv : ∀ c, c ∈ surviving ↔
            c ∈ changes ∧
            is_Some (documents !! user_id c) ∧
            is_Some (documents !! document_id c)).
  { intros c. subst surviving. rewrite list_elem_of_filter.
    unfold loaded. rewrite !get_truthy_Some. tauto. }
  exists surviving, entries, (format_token isoformat <$> last surviving).
  split; [exact Hfeed|]. split; [apply sublist_filter|].
  split; [exact Hsurv|]. split; [exact Hall|]. split.
  - intros Hnodup c Hc. split.
    + intros (e & He & Hid).
      apply list_elem_of_lookup in He as [n He].
      destruct (Forall2_lookup_r _ _ _ _ _ Hall He) as (c' & Hc' & Hfor).
      apply list_elem_of_lookup_2 in Hc'.
      assert (c' = c) as ->.
      { apply Hsurv in Hc' as Hc''. destruct Hc'' as [Hc'' _].
        destruct Hfor as (Hid' & _).
        apply list_elem_of_lookup in Hc as [j Hj].
        apply list_elem_of_lookup in Hc'' as [j' Hj'].
        assert (j' = j) as ->.
        { eapply NoDup_lookup; [exact Hnodup| |].
          - rewrite list_lookup_fmap, Hj'. reflexivity.
          - rewrite list_lookup_fmap, Hj. simpl. congruence. }
        congruence. }
      by apply Hsurv in Hc' as [_ ?].
    + intros Hloaded.
      assert (c ∈ surviving) as Hin by by apply Hsurv.
      apply list_elem_of_lookup in Hin as [n Hn].
      destruct (Forall2_lookup_l _ _ _ _ _ Hall Hn) as (e & He & Hfor).
      exists e. split; [by eapply list_elem_of_lookup_2|]. by destruct Hfor.
  - intros c e (_ & _ & _ & Hp & _ & _ & H1 & H2 & H3 & _).
    split; [intros d; rewrite Hp; apply elem_of_participants|].
    split_and!; intros i Hi Hnone.
    + rewrite H1, Hi. by apply image_slot_not_loaded.
    + rewrite H2, Hi. by apply image_slot_not_loaded.
    + rewrite H3, Hi. by apply image_slot_not_loaded.
Qed.

Lemma load_feed_drops_unloaded_witness :
  ∃ documents,
    page_documents sample_configs (documents_except {[ 502; 3 ]})
      [change_10; change_11] None = Ok documents ∧
    ∃ surviving entries token,
      load_feed isoformat_first_day sample_configs
        (documents_except {[ 502; 3 ]}) [change_10; change_11] None =
        Ok {| feed := entries; pagination_token := token |} ∧
      surviving `sublist_of` [change_10; change_11] ∧
      (∀ c, c ∈ surviving ↔
            c ∈ [change_10; change_11] ∧
            is_Some (documents !! user_id c) ∧
            is_Some (documents !! document_id c)) ∧
      Forall2 (entry_for isoformat_first_day documents) surviving entries ∧
      (NoDup (change_id <$> [change_10; change_11]) →
       ∀ c, c ∈ [change_10; change_11] →
         (∃ e, e ∈ entries ∧ e_id e = change_id c) ↔
         is_Some (documents !! user_id c) ∧
         is_Some (documents !! document_id c)) ∧
      (∀ c e, entry_for isoformat_first_day documents c e →
         (∀ d, d ∈ e_participants e ↔
               ∃ i, i ∈ user_ids c ∧ i ≠ user_id c ∧ documents !! i = Some d) ∧
         (∀ i, image1_id c = Some i → documents !! i = None →
               e_image1 e = None) ∧
         (∀ i, image2_id c = Some i → documents !! i = None →
               e_image2 e = None) ∧
         (∀ i, image3_id c = Some i → documents !! i = None →
               e_image3 e = None)).
Proof.
  destruct (page_documents_configured sample_configs
              (documents_except {[ 502; 3 ]}) [change_10; change_11] None)
    as [documents Hdocuments].
  { intros k Hk. vm_compute in Hk.
    repeat (apply elem_of_cons in Hk as [->|Hk]); try (vm_compute; by eexists).
    by apply elem_of_nil in Hk. }
  exists documents. split; [exact Hdocuments|].
  exact (load_feed_drops_unloaded isoformat_first_day sample_configs
           (documents_except {[ 502; 3 ]}) [change_10; change_11] None
           documents Hdocuments).
Defined.

(** ** The page limit *)

(** C7, as stated, fails below the range: [limit=0] is not raised to 1, the
    limit stays 0 and the feed is empty although the log is not. *)
Lemma get_params_limit_zero_counterexample :
  limit_of (get_params (request_with_limit (Some 0))) = 0 ∧
  ¬ (1 ≤ limit_of (get_params (request_with_limit (Some 0))) ≤ 50) ∧
  FeedRest_get isoformat_first_day sample_configs (documents_except ∅) db_two_changes
    (request_with_limit (Some 0)) =
  Ok {| feed := []; pagination_token := None |}.
Proof.
  split; [reflexivity|]. split.
  - vm_compute. intros [H _]. by apply H.
  - vm_compute. reflexivity.
Qed.

Lemma get_changes_of_feed_length (db : DB) (token_id token_time : option Z)
    (limit : Z) (extra_filter : option clause) (changes : list DocumentChange) :
  get_changes_of_feed db token_id token_time limit extra_filter = Ok changes →
  0 ≤ limit ∧ Z.of_nat (length changes) ≤ limit.
Proof.
  intros H. destruct (decide (0 ≤ limit)) as [Hlimit|Hlimit].
  - rewrite get_changes_of_feed_rows in H by done. injection H as <-.
    rewrite length_take. lia.
  - unfold get_changes_of_feed, query_all in H. simpl in H.
    rewrite bool_decide_eq_true_2 in H by lia. done.
Qed.

Lemma get_changes_of_feed_subseteq (db : DB) (token_id token_time : option Z)
    (limit : Z) (extra_filter : option clause) (changes : list DocumentChange) :
  get_changes_of_feed db token_id token_time limit extra_filter = Ok changes →
  changes ⊆ feed_document_changes db.
Proof.
  intros H. pose proof (get_changes_of_feed_length _ _ _ _ _ _ H) as [Hlimit _].
  rewrite get_changes_of_feed_rows in H by done. injection H as <-.
  intros c Hc. apply (subseteq_take (Z.to_nat limit)) in Hc.
  by apply elem_of_selected in Hc as [? _].
Qed.

(** The types of the documents to load for a page. *)
Lemma dict_update_types (k k' : string) (ids : gset Z)
    (d : list (string * gset Z)) :
  k' ∈ (dict_update k ids d).*1 → k' = k ∨ k' ∈ d.*1.
Proof.
  induction d as [|[k0 s0] d IH]; simpl.
  - intros Hk'. apply list_elem_of_singleton in Hk'. by left.
  - case_decide as Hk; simpl.
    + intros Hk'. by right.
    + intros [->|Hk']%elem_of_cons; [right; left|].
      destruct (IH Hk') as [->|?]; [by left|right; by right].
Qed.

Lemma dict_add_if_types (b : bool) (k k' : string) (image_id : option Z)
    (d : list (string * gset Z)) :
  k' ∈ (dict_add_if b k image_id d).*1 → k' = k ∨ k' ∈ d.*1.
Proof.
  unfold dict_add_if. destruct image_id, b; try by right.
  apply dict_update_types.
Qed.

Lemma get_documents_to_load_types (changes : list DocumentChange) (k : string) :
  k ∈ (get_documents_to_load changes).*1 →
  k = USERPROFILE_TYPE ∨ k = IMAGE_TYPE ∨
  ∃ c, c ∈ changes ∧ k = document_type c.
Proof.
  unfold get_documents_to_load.
  induction changes as [|c changes IH] using rev_ind; intros Hk.
  - by apply elem_of_nil in Hk.
  - rewrite foldl_snoc in Hk.
    apply dict_add_if_types in Hk as [->|Hk]; [tauto|].
    apply dict_add_if_types in Hk as [->|Hk]; [tauto|].
    apply dict_add_if_types in Hk as [->|Hk]; [tauto|].
    apply dict_update_types in Hk as [->|Hk]; [tauto|].
    apply dict_update_types in Hk as [->|Hk]; [tauto|].
    apply dict_update_types in Hk as [->|Hk].
    + right. right. exists c. split; [apply elem_of_app; right; left|done].
    + destruct (IH Hk) as [?|[?|(c' & Hc' & ?)]]; [tauto..|].
      right. right. exists c'. split; [apply elem_of_app; by left|done].
Qed.

Lemma types_configured_all {Config : Type}
    (document_configs : gmap string Config)
    (log page : list DocumentChange) :
  types_configured document_configs log →
  page ⊆ log →
  all_configured document_configs (get_documents_to_load page).
Proof.
  intros (Hu & Hi & Hlog) Hpage k Hk.
  apply get_documents_to_load_types in Hk as [->|[->|(c & Hc & ->)]];
    [done..|].
  by apply Hlog, Hpage.
Qed.

Lemma load_feed_length (isoformat : Z → string)
    {Config : Type} (document_configs : gmap string Config)
    (get_documents_for_ids : gset Z → option string → Config → list Doc)
    (changes : list DocumentChange) (lang : option string) (body : Feed) :
  load_feed isoformat document_configs get_documents_for_ids changes lang =
    Ok body →
  (length (feed body) ≤ length changes)%nat.
Proof.
  intros Hbody.
  destruct (load_feed_Ok_inv isoformat document_configs get_documents_for_ids
              changes lang body Hbody) as [documents Hdocuments].
  destruct (load_feed_spec isoformat document_configs get_documents_for_ids
              changes lang documents Hdocuments)
    as (entries & Hfeed & Hall).
  rewrite Hfeed in Hbody. injection Hbody as <-. simpl.
  rewrite <- (Forall2_length _ _ _ Hall). apply length_filter.
Qed.

(** [load_feed] answers for a page of a log whose types have a
    configuration. *)
Lemma load_feed_answers (isoformat : Z → string)
    {Config : Type} (document_configs : gmap string Config)
    (get_documents_for_ids : gset Z → option string → Config → list Doc)
    (log changes : list DocumentChange) (lang : option string) :
  types_configured document_configs log →
  changes ⊆ log →
  ∃ body,
    load_feed isoformat document_configs get_documents_for_ids changes lang =
      Ok body.
Proof.
  intros Hlog Hchanges.
  destruct (page_documents_configured document_configs get_documents_for_ids
              changes lang) as [documents Hdocuments].
  { by apply (types_configured_all document_configs log). }
  destruct (load_feed_spec isoformat document_configs get_documents_for_ids
              changes lang documents Hdocuments)
    as (entries & Hfeed & _).
  by eexists.
Qed.

Lemma feed_length_le (isoformat : Z → string)
    {Config : Type} (document_configs : gmap string Config)
    (get_documents_for_ids : gset Z → option string → Config → list Doc)
    (limit : Z) (lang : option string)
    (fetch : result (list DocumentChange)) (body : Feed) :
  (∀ changes, fetch = Ok changes → Z.of_nat (length changes) ≤ limit) →
  fetch ≫= (λ changes, load_feed isoformat document_configs get_documents_for_ids changes lang)
    = Ok body →
  Z.of_nat (length (feed body)) ≤ limit.
Proof.
  intros Hfetch Hbody. apply bind_Ok in Hbody as (changes & Hchanges & Hbody).
  pose proof (load_feed_length isoformat document_configs
                get_documents_for_ids changes lang body Hbody) as Hlen.
  specialize (Hfetch _ Hchanges). lia.
Qed.

(** C7, amended: the page limit is the supplied limit bounded from above by
    50, and 10 when no limit is supplied; it is not raised to 1, so it lies
    in [1, 50] when the supplied limit is at least 1.  A feed never has more
    entries than the page limit: at most 50 for [limit=1000], at most 10
    without a limit; for a limit that is not negative the global feed
    answers whenever the document types of the log have a configuration,
    and its only error is the [KeyError] of a type without one. *)
Theorem get_params_limit
    (isoformat : Z → string)
    {Config : Type} (document_configs : gmap string Config)
    (get_documents_for_ids : gset Z → option string → Config → list Doc)
    (db : DB) (request : Request) :
  let limit := limit_of (get_params request) in
  limit = Z.min (default 10 (validated_limit request)) 50 ∧
  limit ≤ 50 ∧
  (validated_limit request = None → limit = 10) ∧
  (validated_limit request = Some 1000 → limit = 50) ∧
  (∀ l, validated_limit request = Some l → 1 ≤ l →
        1 ≤ limit ≤ 50 ∧ limit = Z.max 1 (Z.min l 50)) ∧
  (0 ≤ limit →
   types_configured document_configs (feed_document_changes db) →
   ∃ body, FeedRest_get isoformat document_configs get_documents_for_ids db request = Ok body ∧
           Z.of_nat (length (feed body)) ≤ limit) ∧
  (0 ≤ limit →
   ∀ e, FeedRest_get isoformat document_configs get_documents_for_ids db request = Raise e →
        e = KeyError) ∧
  (∀ body,
     FeedRest_get isoformat document_configs get_documents_for_ids db request = Ok body ∨
     PersonalFeedRest_get isoformat document_configs get_documents_for_ids db request = Ok body ∨
     ProfileFeedRest_get isoformat document_configs get_documents_for_ids db request = Ok body →
     Z.of_nat (length (feed body)) ≤ limit).
Proof.
  intros limit.
  assert (Hlimit : limit =
            Z.min (default 10 (validated_limit request)) 50).
  { subst limit. unfold limit_of, get_params. simpl.
    by destruct (validated_limit request). }
  split; [exact Hlimit|].
  split; [rewrite Hlimit; apply Z.le_min_r|].
  split; [intros H; by rewrite Hlimit, H|].
  split; [intros H; by rewrite Hlimit, H|].
  split; [intros l H Hl; rewrite Hlimit, H; simpl; lia|].
  clear Hlimit. subst limit. unfold limit_of.
  unfold FeedRest_get, PersonalFeedRest_get, ProfileFeedRest_get.
  destruct (get_params request) as [[[lang token_id] token_time] limit].
  simpl.
  assert (Hbound : ∀ body,
    get_changes_of_feed db token_id token_time limit None ≫=
      (λ changes, load_feed isoformat document_configs get_documents_for_ids
                    changes lang) = Ok body →
    Z.of_nat (length (feed body)) ≤ limit).
  { intros body Hbody. eapply feed_length_le; [|exact Hbody].
    intros changes Hchanges.
    by apply get_changes_of_feed_length in Hchanges as [_ ?]. }
  split; [|split].
  - intros Hlimit Hconfigured.
    destruct (get_changes_of_feed db token_id token_time limit None)
      as [changes|e] eqn:Hchanges.
    2:{ rewrite get_changes_of_feed_rows in Hchanges by done. done. }
    destruct (load_feed_answers isoformat document_configs
                get_documents_for_ids (feed_document_changes db) changes lang
                Hconfigured) as [body Hbody].
    { by eapply get_changes_of_feed_subseteq. }
    exists body. split; [done|]. by apply Hbound.
  - intros Hlimit e. rewrite get_changes_of_feed_rows by done. simpl.
    intros H. by apply load_feed_Raise_inv in H as [-> _].
  - intros body [Hbody|[Hbody|Hbody]].
    + by apply Hbound.
    + eapply feed_length_le; [|exact Hbody]; try done.
      intros changes Hchanges. unfold get_changes_of_personal_feed in Hchanges.
      destruct (query_user _ _) as [user|]; [|done].
      destruct (has_no_custom_filter user);
        by apply get_changes_of_feed_length in Hchanges as [_ ?].
    + destruct (head _) as [requested_user|]; [|done].
      destruct (_ || _); [|done].
      eapply feed_length_le; [|exact Hbody]; try done.
      intros changes Hchanges. unfold get_changes_of_profile_feed in Hchanges.
      destruct (negb _); [done|].
      by apply get_changes_of_feed_length in Hchanges as [_ ?].
Qed.

(** The types of a sample log have a configuration in [sample_configs]. *)
Ltac types_configured_sample :=
  split; [vm_compute; by eexists|];
  split; [vm_compute; by eexists|];
  let c := fresh "c" in
  let Hc := fresh "Hc" in
  intros c Hc; simpl in Hc;
  repeat (apply elem_of_cons in Hc as [->|Hc]);
  try (vm_compute; by eexists);
  by apply elem_of_nil in Hc.

Lemma get_params_limit_witness :
  limit_of (get_params (request_with_limit (Some 1000))) = 50 ∧
  ∃ body,
    FeedRest_get isoformat_first_day sample_configs (documents_except ∅) db_two_changes
      (request_with_limit (Some 1000)) = Ok body ∧
    Z.of_nat (length (feed body)) ≤ 50.
Proof.
  destruct (get_params_limit isoformat_first_day sample_configs (documents_except ∅)
              db_two_changes (request_with_limit (Some 1000)))
    as (_ & _ & _ & H1000 & _ & Hfeed & _).
  split; [apply H1000; reflexivity|].
  apply Hfeed; [vm_compute; discriminate|types_configured_sample].
Defined.

(** ** The profile feed *)

Lemma filter_none {A} (P : A → Prop) `{!∀ x, Decision (P x)} (l : list A) :
  (∀ x, x ∈ l → ¬ P x) → filter P l = [].
Proof.
  intros Hnone. destruct (filter P l) as [|x l'] eqn:Hfilter; [done|].
  assert (x ∈ filter P l) as Hx by (rewrite Hfilter; left).
  apply list_elem_of_filter in Hx as [HP Hx]. by destruct (Hnone x Hx).
Qed.

Lemma filter_all {A} (P : A → Prop) `{!∀ x, Decision (P x)} (l : list A) :
  (∀ x, x ∈ l → P x) → filter P l = l.
Proof.
  induction l as [|x l IH]; intros Hall; [done|].
  rewrite filter_cons, decide_True by (apply Hall; left).
  f_equal. apply IH. intros y Hy. apply Hall. by right.
Qed.

(** The rows of one user id, the primary key of the table. *)
Lemma filter_user_id_unique (l : list User) (user : User) :
  NoDup (id <$> l) → user ∈ l → filter (λ u, id u = id user) l = [user].
Proof.
  induction l as [|u l IH]; intros Hnodup Hin.
  - by apply elem_of_nil in Hin.
  - rewrite fmap_cons in Hnodup. apply NoDup_cons in Hnodup as [Hu Hnodup].
    rewrite filter_cons. apply elem_of_cons in Hin as [->|Hin].
    + rewrite decide_True by done. f_equal.
      apply filter_none. intros u' Hu' Heq. apply Hu. rewrite <- Heq.
      by apply list_elem_of_fmap_2.
    + rewrite decide_False; [by apply IH|].
      intros Heq. apply Hu. rewrite Heq. by apply list_elem_of_fmap_2.
Qed.

Lemma user_exists_true (db : DB) (user : User) :
  user ∈ users db →
  bool_decide (Exists (λ u, id u = id user) (users db)) = true.
Proof.
  intros Hin. apply bool_decide_eq_true, Exists_exists. by exists user.
Qed.

(** [ProfileFeedRest.get] when no row has the requested id and a validated
    email. *)
Lemma profile_feed_not_found
    (isoformat : Z → string)
    {Config : Type} (document_configs : gmap string Config)
    (get_documents_for_ids : gset Z → option string → Config → list Doc)
    (db : DB) (request : Request) :
  (∀ user, user ∈ users db → id user = validated_u request →
           email_validated user = false) →
  ProfileFeedRest_get isoformat document_configs get_documents_for_ids db request =
    Raise (HTTPNotFound "user not found").
Proof.
  intros Hnone. unfold ProfileFeedRest_get.
  destruct (get_params request) as [[[lang token_id] token_time] limit].
  rewrite filter_none; [done|].
  intros user Huser Hvalid.
  apply list_elem_of_filter in Huser as [Hid Huser].
  rewrite (Hnone user Huser Hid) in Hvalid. done.
Qed.

(** C9, as stated, fails for a user whose email is not validated: user 2
    exists and has a public profile, yet its profile feed is not served but
    answered with "not found" (and a private profile of such a user would
    be answered with "not found" as well, not with "forbidden"). *)
Lemma profile_feed_public_not_validated_counterexample :
  user_not_validated ∈ users db_profiles ∧
  is_profile_public user_not_validated = true ∧
  ProfileFeedRest_get isoformat_first_day sample_configs (documents_except ∅) db_profiles
    (profile_request 2 false) = Raise (HTTPNotFound "user not found").
Proof. split; [by right; left|]. by split. Qed.

(** C9, amended: the profile feed of a user id that has no row with a
    validated email is answered with "not found"; that of a user with a
    validated email and a private profile is answered with "forbidden" to an
    unauthenticated caller; that of a user with a validated email and a
    public profile is served whatever the authentication state of the caller
    (for a limit that is not negative it is a feed whenever the document
    types of the log have a configuration, and its only error is the
    [KeyError] of a type without one).  The two errors are raised whatever
    the change log holds. *)
Theorem profile_feed_access
    (isoformat : Z → string)
    {Config : Type} (document_configs : gmap string Config)
    (get_documents_for_ids : gset Z → option string → Config → list Doc)
    (db : DB) (request : Request) :
  let u := validated_u request in
  ((∀ user, user ∈ users db → id user = u → email_validated user = false) →
   ProfileFeedRest_get isoformat document_configs get_documents_for_ids db request =
     Raise (HTTPNotFound "user not found")) ∧
  (∀ user,
     NoDup (id <$> users db) →
     user ∈ users db → id user = u → email_validated user = true →
     (is_profile_public user = false →
      has_permission_authenticated request = false →
      ProfileFeedRest_get isoformat document_configs get_documents_for_ids db request =
        Raise (HTTPForbidden "no permission to see the feed")) ∧
     (is_profile_public user = true →
      ProfileFeedRest_get isoformat document_configs get_documents_for_ids db request =
        (let '(lang, token_id, token_time, limit) := get_params request in
         get_changes_of_feed db token_id token_time limit
           (Some (user_ids_overlap (Some [u]))) ≫=
         λ changes, load_feed isoformat document_configs get_documents_for_ids changes lang) ∧
      (0 ≤ limit_of (get_params request) →
       types_configured document_configs (feed_document_changes db) →
       ∃ body,
         ProfileFeedRest_get isoformat document_configs get_documents_for_ids db request =
           Ok body) ∧
      (0 ≤ limit_of (get_params request) →
       ∀ e,
         ProfileFeedRest_get isoformat document_configs get_documents_for_ids db request =
           Raise e →
         e = KeyError))).
Proof.
  intros u. split.
  - apply profile_feed_not_found.
  - intros user Hnodup Hin Hid Hvalid.
    assert (Hserved : is_profile_public user || has_permission_authenticated request = true →
      ProfileFeedRest_get isoformat document_configs get_documents_for_ids db request =
        (let '(lang, token_id, token_time, limit) := get_params request in
         get_changes_of_feed db token_id token_time limit
           (Some (user_ids_overlap (Some [u]))) ≫=
         λ changes, load_feed isoformat document_configs get_documents_for_ids changes lang)).
    { intros Hallowed. unfold ProfileFeedRest_get.
      destruct (get_params request) as [[[lang token_id] token_time] limit].
      fold u. rewrite <- Hid, filter_user_id_unique by done.
      rewrite filter_cons, decide_True, filter_nil by done. simpl.
      rewrite Hallowed. unfold get_changes_of_profile_feed.
      by rewrite user_exists_true. }
    split.
    + intros Hprivate Hanonymous. unfold ProfileFeedRest_get.
      destruct (get_params request) as [[[lang token_id] token_time] limit].
      fold u. rewrite <- Hid, filter_user_id_unique by done.
      rewrite filter_cons, decide_True, filter_nil by done. simpl.
      by rewrite Hprivate, Hanonymous.
    + intros Hpublic. rewrite Hserved by by rewrite Hpublic.
      split; [done|]. unfold limit_of.
      destruct (get_params request) as [[[lang token_id] token_time] limit].
      simpl. split.
      * intros Hlimit Hconfigured.
        destruct (get_changes_of_feed db token_id token_time limit
                    (Some (user_ids_overlap (Some [u]))))
          as [changes|e] eqn:Hchanges.
        2:{ rewrite get_changes_of_feed_rows in Hchanges by done. done. }
        simpl.
        apply (load_feed_answers isoformat document_configs
                 get_documents_for_ids (feed_document_changes db));
          [done|by eapply get_changes_of_feed_subseteq].
      * intros Hlimit e. rewrite get_changes_of_feed_rows by done. simpl.
        intros H. by apply load_feed_Raise_inv in H as [-> _].
Qed.

Lemma profile_feed_access_witness :
  ProfileFeedRest_get isoformat_first_day sample_configs (documents_except ∅) db_profiles
    (profile_request 4 false) = Raise (HTTPNotFound "user not found") ∧
  ProfileFeedRest_get isoformat_first_day sample_configs (documents_except ∅) db_profiles
    (profile_request 3 false) =
    Raise (HTTPForbidden "no permission to see the feed") ∧
  ∃ body,
    ProfileFeedRest_get isoformat_first_day sample_configs (documents_except ∅) db_profiles
      (profile_request 1 false) = Ok body.
Proof.
  assert (Hnodup : NoDup (id <$> users db_profiles)).
  { apply (bool_decide_unpack _). vm_compute. exact I. }
  split; [|split].
  - apply (profile_feed_access isoformat_first_day sample_configs (documents_except ∅)
             db_profiles (profile_request 4 false)).
    intros user Hin Hid. simpl in Hin, Hid.
    repeat (apply elem_of_cons in Hin as [->|Hin]); try discriminate Hid.
    by apply elem_of_nil in Hin.
  - apply (profile_feed_access isoformat_first_day sample_configs (documents_except ∅)
             db_profiles (profile_request 3 false)) with (user := user_private);
      [exact Hnodup|by do 2 right; left|reflexivity|reflexivity|reflexivity|
       reflexivity].
  - apply (profile_feed_access isoformat_first_day sample_configs (documents_except ∅)
             db_profiles (profile_request 1 false)) with (user := user_public);
      [exact Hnodup|by left|reflexivity|reflexivity|reflexivity| |].
    + vm_compute. discriminate.
    + types_configured_sample.
Defined.

(** C10: when the row of the requested user exists but its email is not
    validated, [ProfileFeedRest.get] finds no user and answers "not found",
    which is also its answer when no row has the requested id; the existence
    check of [get_changes_of_profile_feed] does not look at the email: for
    this user it passes and the changes are fetched. *)
Theorem profile_feed_email_not_validated
    (isoformat : Z → string)
    {Config : Type} (document_configs : gmap string Config)
    (get_documents_for_ids : gset Z → option string → Config → list Doc)
    (db : DB) (request : Request) (user : User) :
  NoDup (id <$> users db) →
  user ∈ users db →
  id user = validated_u request →
  email_validated user = false →
  ProfileFeedRest_get isoformat document_configs get_documents_for_ids db request =
    Raise (HTTPNotFound "user not found") ∧
  (∀ db',
     (∀ user', user' ∈ users db' → id user' ≠ validated_u request) →
     ProfileFeedRest_get isoformat document_configs get_documents_for_ids db' request =
     ProfileFeedRest_get isoformat document_configs get_documents_for_ids db request) ∧
  (∀ token_id token_time limit,
     get_changes_of_profile_feed db (validated_u request)
       token_id token_time limit =
     get_changes_of_feed db token_id token_time limit
       (Some (user_ids_overlap (Some [validated_u request])))) ∧
  (∀ token_id token_time limit,
     0 ≤ limit →
     ∃ changes,
       get_changes_of_profile_feed db (validated_u request)
         token_id token_time limit = Ok changes).
Proof.
  intros Hnodup Hin Hid Hvalid.
  assert (Hnotfound :
    ProfileFeedRest_get isoformat document_configs get_documents_for_ids db request =
      Raise (HTTPNotFound "user not found")).
  { unfold ProfileFeedRest_get.
    destruct (get_params request) as [[[lang token_id] token_time] limit].
    rewrite <- Hid, filter_user_id_unique by done.
    rewrite filter_cons, decide_False, filter_nil; [done|].
    by rewrite Hvalid. }
  assert (Hinner : ∀ token_id token_time limit,
     get_changes_of_profile_feed db (validated_u request)
       token_id token_time limit =
     get_changes_of_feed db token_id token_time limit
       (Some (user_ids_overlap (Some [validated_u request])))).
  { intros token_id token_time limit. unfold get_changes_of_profile_feed.
    rewrite <- Hid. by rewrite user_exists_true. }
  split; [exact Hnotfound|]. split; [|split; [exact Hinner|]].
  - intros db' Hnone. rewrite Hnotfound.
    apply profile_feed_not_found.
    intros user' Hin' Hid'. by destruct (Hnone user' Hin').
  - intros token_id token_time limit Hlimit. rewrite Hinner.
    rewrite get_changes_of_feed_rows by done. by eexists.
Qed.

Lemma profile_feed_email_not_validated_witness :
  ProfileFeedRest_get isoformat_first_day sample_configs (documents_except ∅) db_profiles
    (profile_request 2 true) = Raise (HTTPNotFound "user not found") ∧
  ∃ changes,
    get_changes_of_profile_feed db_profiles 2 None None 10 = Ok changes.
Proof.
  destruct (profile_feed_email_not_validated isoformat_first_day
              sample_configs (documents_except ∅) db_profiles
              (profile_request 2 true)
              user_not_validated)
    as (Hnotfound & _ & _ & Hinner);
    [apply (bool_decide_unpack _); vm_compute; exact I
    |by right; left|reflexivity|reflexivity|].
  split; [exact Hnotfound|].
  apply (Hinner None None 10). lia.
Defined.

(** ** Token pagination *)

Lemma holds_pagination_filter (c0 c : DocumentChange) :
  holds (pagination_filter (change_id c0) (time c0)) c = true ↔ after c0 c.
Proof.
  unfold pagination_filter, after. rewrite holds_or, holds_and.
  unfold holds. simpl.
  repeat case_bool_decide; simpl; split; try done; lia.
Qed.

Lemma StronglySorted_filter {A} (R : relation A) (P : A → Prop)
    `{!∀ x, Decision (P x)} (l : list A) :
  StronglySorted R l → StronglySorted R (filter P l).
Proof.
  induction 1 as [|x l Hl IH Hx]; [constructor|].
  rewrite filter_cons. case_decide; [|done].
  constructor; [done|].
  apply Forall_forall. intros y Hy.
  apply list_elem_of_filter in Hy as [_ Hy].
  by apply (proj1 (Forall_forall _ _) Hx).
Qed.

Section Pagination.

Context (db : DB).
Hypothesis distinct_keys : NoDup (feed_key <$> feed_document_changes db).

Lemma feed_key_inj (c1 c2 : DocumentChange) :
  c1 ∈ feed_document_changes db → c2 ∈ feed_document_changes db →
  feed_key c1 = feed_key c2 → c1 = c2.
Proof.
  intros H1 H2 Hkey.
  apply list_elem_of_lookup in H1 as [i1 H1].
  apply list_elem_of_lookup in H2 as [i2 H2].
  assert (i1 = i2) as ->; [|congruence].
  eapply NoDup_lookup; [exact distinct_keys| |].
  - rewrite list_lookup_fmap, H1. reflexivity.
  - rewrite list_lookup_fmap, H2. simpl. by rewrite Hkey.
Qed.

Lemma feed_order_antisym (c1 c2 : DocumentChange) :
  c1 ∈ feed_document_changes db → c2 ∈ feed_document_changes db →
  feed_order c1 c2 → feed_order c2 c1 → c1 = c2.
Proof.
  intros H1 H2 H12 H21. apply feed_key_inj; [done..|].
  unfold feed_order in *. unfold feed_key. f_equal; lia.
Qed.

Lemma selected_NoDup (fs : list clause) : NoDup (selected db fs).
Proof.
  unfold selected. rewrite merge_sort_Permutation.
  apply NoDup_filter. by apply NoDup_fmap_1 in distinct_keys.
Qed.

(** A condition added to a query filters the rows of the query. *)
Lemma selected_cons (f : clause) (fs : list clause) :
  selected db (f :: fs) = filter (λ c, holds f c = true) (selected db fs).
Proof.
  apply StronglySorted_unique_strong with (R := feed_order).
  - intros c1 c2 H1 H2.
    apply elem_of_selected in H1 as [H1 _].
    apply list_elem_of_filter in H2 as [_ H2].
    apply elem_of_selected in H2 as [H2 _].
    by apply feed_order_antisym.
  - apply selected_sorted.
  - apply StronglySorted_filter, selected_sorted.
  - unfold selected. rewrite !merge_sort_Permutation.
    rewrite list_filter_filter.
    erewrite list_filter_iff; [reflexivity|].
    intros c. simpl. rewrite andb_true_iff. tauto.
Qed.

(** The rows after the [n] first ones are those the pagination filter of
    the [n]th row keeps. *)
Lemma selected_resume (fs : list clause) (n : nat) (c0 : DocumentChange) :
  last (take n (selected db fs)) = Some c0 →
  selected db (pagination_filter (change_id c0) (time c0) :: fs) =
  drop n (selected db fs).
Proof.
  intros Hlast. rewrite selected_cons.
  pose proof (selected_sorted db fs) as Hsorted.
  pose proof (selected_NoDup fs) as Hnodup.
  assert (Hin : ∀ c, c ∈ selected db fs → c ∈ feed_document_changes db).
  { intros c Hc. by apply elem_of_selected in Hc as [? _]. }
  rewrite <- (take_drop n (selected db fs)) in Hsorted, Hnodup, Hin |- * at 1.
  apply last_Some in Hlast as [init Hinit]. rewrite Hinit in *.
  apply NoDup_app in Hnodup as (_ & Hdisjoint & _).
  rewrite filter_app, filter_none, app_nil_l.
  - apply filter_all. intros c Hc. apply holds_pagination_filter.
    assert (feed_order c0 c) as Horder.
    { eapply StronglySorted_app_1_elem_of; [exact Hsorted| |exact Hc].
      apply elem_of_app. right. left. }
    destruct (decide (feed_key c = feed_key c0)) as [Hkey|Hkey].
    + apply feed_key_inj in Hkey;
        [|apply Hin, elem_of_app; by right
         |apply Hin, elem_of_app; left; apply elem_of_app; right; left].
      subst c. destruct (Hdisjoint c0); [|done].
      apply elem_of_app. right. left.
    + unfold feed_order in Horder. unfold after.
      assert (¬ (time c = time c0 ∧ change_id c = change_id c0)).
      { intros [Ht Hi]. apply Hkey. unfold feed_key. by rewrite Ht, Hi. }
      lia.
  - intros c Hc Hafter. apply holds_pagination_filter in Hafter.
    apply StronglySorted_app_1_l in Hsorted.
    apply elem_of_app in Hc as [Hc|Hc].
    + apply (StronglySorted_app_1_elem_of _ _ _ c c0) in Hsorted;
        [|done|left].
      unfold feed_order in Hsorted. unfold after in Hafter. lia.
    + apply list_elem_of_singleton in Hc as ->.
      unfold after in Hafter. lia.
Qed.

End Pagination.

Section PaginationPages.

Context (isoformat : Z → string).
Context {Config : Type} (document_configs : gmap string Config)
    (get_documents_for_ids : gset Z → option string → Config → list Doc).

Lemma load_feed_all_loaded (changes : list DocumentChange)
    (lang : option string) (documents : gmap Z Doc) :
  page_documents document_configs get_documents_for_ids changes lang =
    Ok documents →
  Forall (loaded documents) changes →
  ∃ entries,
    load_feed isoformat document_configs get_documents_for_ids changes lang =
      Ok {| feed := entries;
            pagination_token := format_token isoformat <$> last changes |} ∧
    entry_key <$> entries = change_key isoformat <$> changes.
Proof.
  intros Hdocuments Hloaded.
  destruct (load_feed_spec isoformat document_configs get_documents_for_ids
              changes lang documents Hdocuments)
    as (entries & Hfeed & Hall).
  rewrite filter_all in Hfeed, Hall
    by (intros c Hc; by apply (proj1 (Forall_forall _ _) Hloaded)).
  exists entries. split; [exact Hfeed|].
  clear Hfeed Hloaded Hdocuments.
  induction Hall as [|c e cs es (Hid & Htime & _) _ IH]; [done|].
  rewrite !fmap_cons, IH. f_equal.
  unfold entry_key, change_key. by rewrite Hid, Htime.
Qed.

End PaginationPages.

Lemma get_changes_of_feed_first (db : DB) (limit : Z)
    (extra_filter : option clause) :
  0 ≤ limit →
  get_changes_of_feed db None None limit extra_filter =
  Ok (take (Z.to_nat limit) (selected db (extra_clauses extra_filter))).
Proof. intros Hlimit. by rewrite get_changes_of_feed_rows. Qed.

Lemma get_changes_of_feed_token (db : DB) (token_id token_time limit : Z)
    (extra_filter : option clause) :
  0 ≤ limit →
  get_changes_of_feed db (Some token_id) (Some token_time) limit extra_filter =
  Ok (take (Z.to_nat limit)
        (selected db (pagination_filter token_id token_time ::
                      extra_clauses extra_filter))).
Proof. intros Hlimit. by rewrite get_changes_of_feed_rows. Qed.

(** The global feed, for limits that [get_params] leaves as they are. *)
Lemma pages_of_FeedRest_get
    (isoformat : Z → string)
    {Config : Type} (document_configs : gmap string Config)
    (get_documents_for_ids : gset Z → option string → Config → list Doc)
    (db : DB) (lang : option string) (extra_filter : option clause)
    (token_id token_time : option Z) (k1 k2 : Z)
    (changes1 changes2 changes : list DocumentChange) (page1 page2 page : Feed) :
  0 ≤ k1 → 0 ≤ k2 →
  get_changes_of_feed db None None k1 extra_filter = Ok changes1 →
  load_feed isoformat document_configs get_documents_for_ids changes1 lang = Ok page1 →
  get_changes_of_feed db token_id token_time k2 extra_filter = Ok changes2 →
  load_feed isoformat document_configs get_documents_for_ids changes2 lang = Ok page2 →
  get_changes_of_feed db None None (k1 + k2) extra_filter = Ok changes →
  load_feed isoformat document_configs get_documents_for_ids changes lang = Ok page →
  extra_filter = None → k1 + k2 ≤ MAX_PAGE_LIMIT →
  FeedRest_get isoformat document_configs get_documents_for_ids db
    (feed_request lang (None, None) (Some k1)) = Ok page1 ∧
  FeedRest_get isoformat document_configs get_documents_for_ids db
    (feed_request lang (token_id, token_time) (Some k2)) = Ok page2 ∧
  FeedRest_get isoformat document_configs get_documents_for_ids db
    (feed_request lang (None, None) (Some (k1 + k2))) = Ok page.
Proof.
  intros Hk1 Hk2 Hc1 Hp1 Hc2 Hp2 Hc Hp -> Hmax.
  assert (Hparams : ∀ token k, k ≤ MAX_PAGE_LIMIT →
    get_params (feed_request lang token (Some k)) = (lang, token.1, token.2, k)).
  { intros token k Hk. unfold get_params, feed_request. simpl.
    by rewrite Z.min_l. }
  unfold FeedRest_get. rewrite !Hparams by lia. cbn [fst snd].
  rewrite Hc1, Hc2, Hc. simpl. by rewrite Hp1, Hp2, Hp.
Qed.

Lemma take_nil_inv {A} (n : nat) (l : list A) :
  take n l = [] → n = 0%nat ∨ l = [].
Proof. destruct n, l; naive_solver. Qed.

(** C1: on a change log with pairwise distinct [(time, change_id)] and
    without loading failures, the page of limit [k1] followed by the page of
    limit [k2] fetched with the token of the first one is the page of limit
    [k1 + k2]: the same changes in the same order, none twice, and none
    skipped (a change of the log that passes the filter and is not returned
    comes after all the returned ones).  The limits are those
    [get_changes_of_feed] receives and the same extra filter is used for the
    three fetches; for the global feed these are the pages of the three
    requests when [k1 + k2] is at most the maximal page limit. *)
Theorem pagination_completeness
    (isoformat : Z → string)
    {Config : Type} (document_configs : gmap string Config)
    (get_documents_for_ids : gset Z → option string → Config → list Doc)
    (parse_token : string → option (Z * Z))
    (db : DB) (extra_filter : option clause) (lang : option string)
    (k1 k2 : Z) :
  0 ≤ k1 → 0 ≤ k2 →
  NoDup (feed_key <$> feed_document_changes db) →
  (∀ page, page ⊆ feed_document_changes db →
           ∃ documents,
             page_documents document_configs get_documents_for_ids page lang =
               Ok documents ∧
             Forall (loaded documents) page) →
  (∀ c, c ∈ feed_document_changes db →
        parse_token (format_token isoformat c) = Some (change_id c, time c)) →
  ∃ changes1 changes2 page1 page2 page token_id token_time,
    get_changes_of_feed db None None k1 extra_filter = Ok changes1 ∧
    load_feed isoformat document_configs get_documents_for_ids changes1 lang = Ok page1 ∧
    validated_token parse_token (pagination_token page1) =
      Some (token_id, token_time) ∧
    get_changes_of_feed db token_id token_time k2 extra_filter = Ok changes2 ∧
    load_feed isoformat document_configs get_documents_for_ids changes2 lang = Ok page2 ∧
    get_changes_of_feed db None None (k1 + k2) extra_filter =
      Ok (changes1 ++ changes2) ∧
    load_feed isoformat document_configs get_documents_for_ids (changes1 ++ changes2) lang =
      Ok page ∧
    entry_key <$> feed page1 = change_key isoformat <$> changes1 ∧
    entry_key <$> feed page2 = change_key isoformat <$> changes2 ∧
    entry_key <$> feed page = entry_key <$> (feed page1 ++ feed page2) ∧
    NoDup (changes1 ++ changes2) ∧
    (∀ c c', c ∈ changes1 ++ changes2 →
             c' ∈ selected db (extra_clauses extra_filter) →
             c' ∉ changes1 ++ changes2 →
             after c c') ∧
    (extra_filter = None → k1 + k2 ≤ MAX_PAGE_LIMIT →
     FeedRest_get isoformat document_configs get_documents_for_ids db
       (feed_request lang (None, None) (Some k1)) = Ok page1 ∧
     FeedRest_get isoformat document_configs get_documents_for_ids db
       (feed_request lang (token_id, token_time) (Some k2)) = Ok page2 ∧
     FeedRest_get isoformat document_configs get_documents_for_ids db
       (feed_request lang (None, None) (Some (k1 + k2))) = Ok page).
Proof.
  intros Hk1 Hk2 Hkeys Hloaded Hparse.
  set (fs := extra_clauses extra_filter).
  set (rows := selected db fs).
  assert (Hrows : ∀ c, c ∈ rows → c ∈ feed_document_changes db).
  { intros c Hc. by apply elem_of_selected in Hc as [? _]. }
  assert (Hpage : ∀ n m page, page = take n (drop m rows) →
            ∃ entries,
              load_feed isoformat document_configs get_documents_for_ids page lang =
                Ok {| feed := entries;
                      pagination_token := format_token isoformat <$> last page |} ∧
              entry_key <$> entries = change_key isoformat <$> page).
  { intros n m page ->.
    destruct (Hloaded (take n (drop m rows))) as (documents & Hdocuments & Hall).
    { intros c Hc. by apply Hrows, (subseteq_drop m), (subseteq_take n). }
    by apply (load_feed_all_loaded _ _ _ _ _ documents). }
  set (n1 := Z.to_nat k1). set (n2 := Z.to_nat k2).
  assert (Hfirst : get_changes_of_feed db None None k1 extra_filter =
                   Ok (take n1 rows))
    by by rewrite get_changes_of_feed_first.
  destruct (Hpage n1 0%nat (take n1 rows) eq_refl) as (entries1 & Hfeed1 & Hkeys1).
  (* the second fetch returns the rows that follow the first page *)
  assert (Hsecond : ∃ token_id token_time,
            validated_token parse_token
              (format_token isoformat <$> last (take n1 rows)) =
              Some (token_id, token_time) ∧
            get_changes_of_feed db token_id token_time k2 extra_filter =
              Ok (take n2 (drop n1 rows)) ∧
            take n1 rows ++ take n2 (drop n1 rows) = take (n1 + n2) rows).
  { destruct (last (take n1 rows)) as [c0|] eqn:Hlast.
    - exists (Some (change_id c0)), (Some (time c0)). simpl.
      rewrite Hparse.
      2:{ apply Hrows, (subseteq_take n1). by apply last_Some_elem_of. }
      split; [done|]. split; [|apply take_take_drop].
      rewrite get_changes_of_feed_token by done.
      fold fs. by rewrite (selected_resume db Hkeys fs n1 c0 Hlast).
    - exists None, None. simpl. split; [done|].
      apply last_None in Hlast. rewrite Hlast.
      rewrite get_changes_of_feed_first by done. fold fs. fold rows.
      apply take_nil_inv in Hlast as [Hn|Hnil].
      + rewrite Hn. by rewrite drop_0.
      + rewrite Hnil, drop_nil, !take_nil. done. }
  destruct Hsecond as (token_id & token_time & Htoken & Hsecond & Happ).
  destruct (Hpage n2 n1 (take n2 (drop n1 rows)) eq_refl)
    as (entries2 & Hfeed2 & Hkeys2).
  destruct (Hpage (n1 + n2)%nat 0%nat (take (n1 + n2) rows) eq_refl)
    as (entries & Hfeed & Hkeys12).
  exists (take n1 rows), (take n2 (drop n1 rows)).
  eexists _, _, _, token_id, token_time.
  split; [exact Hfirst|]. split; [exact Hfeed1|]. split; [exact Htoken|].
  split; [exact Hsecond|]. split; [exact Hfeed2|]. rewrite Happ.
  split.
  { rewrite get_changes_of_feed_first by lia. fold fs. fold rows.
    subst n1 n2. by rewrite Z2Nat.inj_add. }
  split; [exact Hfeed|]. simpl.
  split; [exact Hkeys1|]. split; [exact Hkeys2|]. split.
  { rewrite fmap_app, Hkeys12, Hkeys1, Hkeys2, <- fmap_app. by rewrite Happ. }
  pose proof (selected_NoDup db Hkeys fs) as Hnodup.
  pose proof (selected_sorted db fs) as Hsorted.
  fold rows in Hnodup, Hsorted.
  rewrite <- (take_drop (n1 + n2) rows) in Hnodup, Hsorted.
  split; [by apply NoDup_app in Hnodup as [? _]|].
  split.
  2:{ apply (pages_of_FeedRest_get isoformat document_configs get_documents_for_ids db lang
               extra_filter token_id token_time k1 k2
               (take n1 rows) (take n2 (drop n1 rows))
               (take n1 rows ++ take n2 (drop n1 rows))); try done.
      - rewrite Happ, get_changes_of_feed_first by lia. fold fs. fold rows.
        subst n1 n2. by rewrite Z2Nat.inj_add.
      - by rewrite Happ. }
  intros c c' Hc Hc' Hnot.
  assert (c' ∈ drop (n1 + n2) rows) as Hdrop.
  { rewrite <- (take_drop (n1 + n2) rows) in Hc'.
    by apply elem_of_app in Hc' as [?|?]. }
  pose proof (StronglySorted_app_1_elem_of _ _ _ _ _ Hsorted Hc Hdrop) as Horder.
  destruct (decide (feed_key c' = feed_key c)) as [Hkey|Hkey].
  - apply (feed_key_inj db Hkeys) in Hkey.
    + subst c'. done.
    + apply Hrows. rewrite <- (take_drop (n1 + n2) rows).
      apply elem_of_app. by right.
    + apply Hrows. rewrite <- (take_drop (n1 + n2) rows).
      apply elem_of_app. by left.
  - unfold feed_order in Horder. unfold after.
    assert (¬ (time c' = time c ∧ change_id c' = change_id c)).
    { intros [Ht Hi]. apply Hkey. unfold feed_key. by rewrite Ht, Hi. }
    lia.
Qed.

(** ** Stores without loading failures *)

Lemma dict_update_to_load (k : string) (ids : gset Z)
    (d : list (string * gset Z)) (i : Z) :
  i ∈ ids → to_load (dict_update k ids d) k i.
Proof.
  intros Hi. induction d as [|[k' s] d IH]; simpl.
  - exists ids. split; [left|done].
  - case_decide as Hk.
    + subst k'. exists (s ∪ ids). split; [left|set_solver].
    + destruct IH as (s' & Hin & Hi'). exists s'. split; [by right|done].
Qed.

Lemma dict_update_mono (k k' : string) (ids : gset Z)
    (d : list (string * gset Z)) (i : Z) :
  to_load d k' i → to_load (dict_update k ids d) k' i.
Proof.
  intros (s & Hin & Hi). induction d as [|[k0 s0] d IH]; simpl.
  - by apply elem_of_nil in Hin.
  - apply elem_of_cons in Hin as [[= <- <-]|Hin].
    + case_decide as Hk.
      * subst k'. exists (s ∪ ids). split; [left|set_solver].
      * exists s. split; [left|done].
    + case_decide.
      * exists s. split; [by right|done].
      * destruct (IH Hin) as (s' & Hin' & Hi').
        exists s'. split; [by right|done].
Qed.

Lemma dict_add_if_mono (b : bool) (k k' : string) (image_id : option Z)
    (d : list (string * gset Z)) (i : Z) :
  to_load d k' i → to_load (dict_add_if b k image_id d) k' i.
Proof.
  intros H. unfold dict_add_if. destruct image_id, b; try done.
  by apply dict_update_mono.
Qed.

Lemma get_documents_to_load_elem (changes : list DocumentChange)
    (c : DocumentChange) :
  c ∈ changes →
  to_load (get_documents_to_load changes) (document_type c) (document_id c) ∧
  to_load (get_documents_to_load changes) USERPROFILE_TYPE (user_id c).
Proof.
  unfold get_documents_to_load.
  induction changes as [|c' changes IH] using rev_ind; intros Hc.
  - by apply elem_of_nil in Hc.
  - rewrite foldl_snoc. apply elem_of_app in Hc as [Hc|Hc].
    + destruct (IH Hc) as [Hd Hu].
      split; repeat apply dict_add_if_mono; by repeat apply dict_update_mono.
    + apply list_elem_of_singleton in Hc as ->.
      split; repeat apply dict_add_if_mono.
      * do 2 apply dict_update_mono. apply dict_update_to_load. set_solver.
      * apply dict_update_mono. apply dict_update_to_load. set_solver.
Qed.

Section CompleteStore.

Context {Config : Type} (document_configs : gmap string Config)
    (get_documents_for_ids : gset Z → option string → Config → list Doc).
Hypothesis complete : complete_store get_documents_for_ids.

Lemma insert_documents_is_Some (docs : list Doc) (documents : gmap Z Doc)
    (i : Z) :
  is_Some (documents !! i) ∨ (∃ d, d ∈ docs ∧ doc_document_id d = i) →
  is_Some (foldl (λ documents doc, <[doc_document_id doc := doc]> documents)
             documents docs !! i).
Proof.
  revert documents.
  induction docs as [|doc docs IH]; intros documents H; simpl.
  - destruct H as [H|(d & Hd & _)]; [done|by apply elem_of_nil in Hd].
  - apply IH. destruct H as [H|(d & Hd & Hid)].
    + left. rewrite lookup_insert. case_decide; [by eexists|done].
    + apply elem_of_cons in Hd as [->|Hd].
      * left. rewrite Hid. rewrite lookup_insert_eq. by eexists.
      * right. by exists d.
Qed.

Lemma load_documents_items_is_Some (items : list (string * gset Z))
    (lang : option string) (k : string) (i : Z)
    (documents documents' : gmap Z Doc) :
  load_documents_items document_configs get_documents_for_ids
    documents items lang = Ok documents' →
  is_Some (documents !! i) ∨ to_load items k i →
  is_Some (documents' !! i).
Proof.
  revert documents.
  induction items as [|[k' s] d IH]; intros documents Hload H.
  - injection Hload as <-.
    destruct H as [H|(s & Hin & _)]; [done|by apply elem_of_nil in Hin].
  - rewrite load_documents_items_cons in Hload.
    destruct (document_configs !! k') as [document_config|]; [|done].
    apply (IH _ Hload). destruct H as [H|(s' & Hin & Hi)].
    + left. apply insert_documents_is_Some. by left.
    + apply elem_of_cons in Hin as [[= <- <-]|Hin].
      * left. apply insert_documents_is_Some. right. by apply complete.
      * right. by exists s'.
Qed.

(** With a complete store and a configuration for every type of the page,
    the documents of the page are loaded and no change is dropped. *)
Lemma complete_store_loaded (log page : list DocumentChange)
    (lang : option string) :
  types_configured document_configs log →
  page ⊆ log →
  ∃ documents,
    page_documents document_configs get_documents_for_ids page lang =
      Ok documents ∧
    Forall (loaded documents) page.
Proof.
  intros Hlog Hpage.
  destruct (page_documents_configured document_configs get_documents_for_ids
              page lang) as [documents Hdocuments].
  { by apply (types_configured_all document_configs log). }
  exists documents. split; [done|].
  apply Forall_forall. intros c Hc.
  destruct (get_documents_to_load_elem page c Hc) as [Hd Hu].
  split; apply get_truthy_Some;
    by eapply (load_documents_items_is_Some _ _ _ _ ∅); [exact Hdocuments|right].
Qed.

End CompleteStore.

Lemma documents_except_complete : complete_store (documents_except ∅).
Proof.
  intros ids lang document_type i Hi. unfold documents_except.
  exists {| doc_document_id := i; doc_content := document_type |}.
  split; [|reflexivity].
  apply list_elem_of_fmap. exists i. split; [done|].
  apply elem_of_elements. set_solver.
Qed.

(** *** Pages of a sample log *)

Example first_page_of_two :
  get_changes_of_feed db_three_changes None None 2 None =
  Ok [change_10; change_9].
Proof. vm_compute. reflexivity. Qed.

Example second_page_of_one :
  get_changes_of_feed db_three_changes (Some 9) (Some 1) 1 None =
  Ok [change_11].
Proof. vm_compute. reflexivity. Qed.

Example single_page_of_three :
  get_changes_of_feed db_three_changes None None 3 None =
  Ok [change_10; change_9; change_11].
Proof. vm_compute. reflexivity. Qed.

Lemma pagination_completeness_witness :
  ∃ changes1 changes2 page1 page2 page token_id token_time,
    get_changes_of_feed db_three_changes None None 2 None = Ok changes1 ∧
    load_feed isoformat_first_day sample_configs (documents_except ∅) changes1 None =
      Ok page1 ∧
    validated_token
      (token_decoder isoformat_first_day (feed_document_changes db_three_changes))
      (pagination_token page1) = Some (token_id, token_time) ∧
    get_changes_of_feed db_three_changes token_id token_time 1 None =
      Ok changes2 ∧
    load_feed isoformat_first_day sample_configs (documents_except ∅) changes2 None =
      Ok page2 ∧
    get_changes_of_feed db_three_changes None None (2 + 1) None =
      Ok (changes1 ++ changes2) ∧
    load_feed isoformat_first_day sample_configs (documents_except ∅)
      (changes1 ++ changes2) None = Ok page ∧
    entry_key <$> feed page1 = change_key isoformat_first_day <$> changes1 ∧
    entry_key <$> feed page2 = change_key isoformat_first_day <$> changes2 ∧
    entry_key <$> feed page = entry_key <$> (feed page1 ++ feed page2) ∧
    NoDup (changes1 ++ changes2) ∧
    (∀ c c', c ∈ changes1 ++ changes2 →
             c' ∈ selected db_three_changes (extra_clauses None) →
             c' ∉ changes1 ++ changes2 →
             after c c') ∧
    (@None clause = None → 2 + 1 ≤ MAX_PAGE_LIMIT →
     FeedRest_get isoformat_first_day sample_configs (documents_except ∅) db_three_changes
       (feed_request None (None, None) (Some 2)) = Ok page1 ∧
     FeedRest_get isoformat_first_day sample_configs (documents_except ∅) db_three_changes
       (feed_request None (token_id, token_time) (Some 1)) = Ok page2 ∧
     FeedRest_get isoformat_first_day sample_configs (documents_except ∅) db_three_changes
       (feed_request None (None, None) (Some (2 + 1))) = Ok page).
Proof.
  apply (pagination_completeness isoformat_first_day sample_configs (documents_except ∅)
           (token_decoder isoformat_first_day
              (feed_document_changes db_three_changes))
           db_three_changes None None 2 1).
  - lia.
  - lia.
  - apply (bool_decide_unpack _). vm_compute. exact I.
  - intros page Hpage.
    apply (complete_store_loaded _ _ documents_except_complete
             (feed_document_changes db_three_changes)); [|done].
    types_configured_sample.
  - intros c Hc. simpl in Hc.
    repeat (apply elem_of_cons in Hc as [->|Hc]); try (vm_compute; reflexivity).
    by apply elem_of_nil in Hc.
Defined.

(** ** The scenario of the two changes *)

Section TwoChanges.

Context (db : DB) (c10 c9 : DocumentChange).
Hypothesis log : feed_document_changes db ≡ₚ [c10; c9].
Hypothesis id10 : change_id c10 = 10.
Hypothesis id9 : change_id c9 = 9.
Hypothesis times : time c9 < time c10.

Lemma two_changes_keys : NoDup (feed_key <$> feed_document_changes db).
Proof.
  rewrite log. simpl. unfold feed_key. rewrite id10, id9.
  apply NoDup_cons. split; [|apply NoDup_singleton].
  intros H. apply list_elem_of_singleton in H. congruence.
Qed.

Lemma two_changes_rows : selected db [] = [c10; c9].
Proof.
  apply StronglySorted_unique_strong with (R := feed_order).
  - intros x1 x2 H1 H2. apply (feed_order_antisym db two_changes_keys).
    + by apply elem_of_selected in H1 as [? _].
    + by rewrite log.
  - apply selected_sorted.
  - repeat constructor. unfold feed_order. lia.
  - unfold selected. rewrite merge_sort_Permutation, filter_all; done.
Qed.

Lemma two_changes_after_10 :
  selected db [pagination_filter 10 (time c10)] = [c9].
Proof.
  rewrite <- id10.
  rewrite (selected_resume db two_changes_keys [] 1 c10);
    by rewrite two_changes_rows.
Qed.

Lemma two_changes_after_9 :
  selected db [pagination_filter 9 (time c9)] = [].
Proof.
  rewrite <- id9.
  rewrite (selected_resume db two_changes_keys [] 2 c9);
    by rewrite two_changes_rows.
Qed.

End TwoChanges.

Lemma load_feed_single (isoformat : Z → string)
    {Config : Type} (document_configs : gmap string Config)
    (get_documents_for_ids : gset Z → option string → Config → list Doc)
    (c : DocumentChange) (lang : option string) (documents : gmap Z Doc) :
  page_documents document_configs get_documents_for_ids [c] lang =
    Ok documents →
  Forall (loaded documents) [c] →
  ∃ e,
    load_feed isoformat document_configs get_documents_for_ids [c] lang =
      Ok {| feed := [e];
            pagination_token := Some (format_token isoformat c) |} ∧
    entry_for isoformat documents c e.
Proof.
  intros Hdocuments Hloaded.
  destruct (load_feed_spec isoformat document_configs get_documents_for_ids
              [c] lang documents Hdocuments)
    as (entries & Hfeed & Hall).
  rewrite filter_all in Hfeed, Hall
    by (intros c' Hc'; by apply (proj1 (Forall_forall _ _) Hloaded)).
  apply Forall2_cons_inv_l in Hall as (e & nil' & Hfor & Hnil & ->).
  apply Forall2_nil_inv_l in Hnil as ->.
  by exists e.
Qed.

(** C8, as stated, fails in its last part: the response to the follow-up
    request holds the entry of change 9 and a pagination token, that of
    change 9, although nothing older exists. *)
Lemma two_changes_follow_up_counterexample :
  validated_token token_decoder_two_changes (Some "10,1970-01-01T00:00:02") =
    Some (Some 10, Some 2) ∧
  ∃ body,
    FeedRest_get isoformat_first_day sample_configs (documents_except ∅) db_two_changes
      (feed_request None (Some 10, Some 2) (Some 1)) = Ok body ∧
    e_id <$> feed body = [9] ∧
    pagination_token body = Some "9,1970-01-01T00:00:01" ∧
    pagination_token body ≠ None.
Proof.
  split; [vm_compute; reflexivity|].
  eexists. split; [vm_compute; reflexivity|]. simpl. by split_and!.
Qed.

(** C8, amended: with exactly the two changes 10 (at T2) and 9 (at T1 < T2)
    and no loading failure, the global feed with [limit=1] returns the entry
    of change 10 with the token "10,T2"; the request with that token
    returns the entry of change 9 with the token "9,T1"; the request with
    this last token returns an empty feed without token. *)
Theorem two_changes_scenario
    (isoformat : Z → string)
    {Config : Type} (document_configs : gmap string Config)
    (get_documents_for_ids : gset Z → option string → Config → list Doc)
    (parse_token : string → option (Z * Z))
    (db : DB) (c10 c9 : DocumentChange) (lang : option string)
    (documents10 documents9 : gmap Z Doc) :
  feed_document_changes db ≡ₚ [c10; c9] →
  change_id c10 = 10 →
  change_id c9 = 9 →
  time c9 < time c10 →
  page_documents document_configs get_documents_for_ids [c10] lang =
    Ok documents10 →
  Forall (loaded documents10) [c10] →
  page_documents document_configs get_documents_for_ids [c9] lang =
    Ok documents9 →
  Forall (loaded documents9) [c9] →
  parse_token ("10," +:+ isoformat (time c10)) = Some (10, time c10) →
  parse_token ("9," +:+ isoformat (time c9)) = Some (9, time c9) →
  ∃ e10 e9 token1 token2,
    FeedRest_get isoformat document_configs get_documents_for_ids db
      (feed_request lang (None, None) (Some 1)) =
      Ok {| feed := [e10];
            pagination_token := Some ("10," +:+ isoformat (time c10)) |} ∧
    entry_for isoformat documents10 c10 e10 ∧
    validated_token parse_token (Some ("10," +:+ isoformat (time c10))) =
      Some token1 ∧
    FeedRest_get isoformat document_configs get_documents_for_ids db
      (feed_request lang token1 (Some 1)) =
      Ok {| feed := [e9];
            pagination_token := Some ("9," +:+ isoformat (time c9)) |} ∧
    entry_for isoformat documents9 c9 e9 ∧
    validated_token parse_token (Some ("9," +:+ isoformat (time c9))) =
      Some token2 ∧
    FeedRest_get isoformat document_configs get_documents_for_ids db
      (feed_request lang token2 (Some 1)) =
      Ok {| feed := []; pagination_token := None |}.
Proof.
  intros Hlog Hid10 Hid9 Htimes Hdocuments10 Hloaded10 Hdocuments9 Hloaded9
    Hparse10 Hparse9.
  destruct (load_feed_single isoformat document_configs get_documents_for_ids
              c10 lang documents10 Hdocuments10 Hloaded10)
    as (e10 & Hfeed10 & Hfor10).
  destruct (load_feed_single isoformat document_configs get_documents_for_ids
              c9 lang documents9 Hdocuments9 Hloaded9)
    as (e9 & Hfeed9 & Hfor9).
  unfold format_token in Hfeed10, Hfeed9. rewrite Hid10 in Hfeed10.
  rewrite Hid9 in Hfeed9.
  exists e10, e9, (Some 10, Some (time c10)), (Some 9, Some (time c9)).
  unfold validated_token. rewrite Hparse10, Hparse9.
  assert (Hparams : ∀ token,
    get_params (feed_request lang token (Some 1)) =
    (lang, token.1, token.2, 1)) by done.
  unfold FeedRest_get. rewrite !Hparams.
  cbn [fst snd extra_clauses].
  rewrite get_changes_of_feed_first, !get_changes_of_feed_token by done.
  cbn [extra_clauses].
  rewrite (two_changes_rows db c10 c9), (two_changes_after_10 db c10 c9),
    (two_changes_after_9 db c10 c9) by done.
  change (Z.to_nat 1) with 1%nat. cbn [take mbind result_bind].
  by rewrite Hfeed10, Hfeed9.
Qed.

Lemma two_changes_scenario_witness :
  ∃ documents10 documents9 e10 e9 token1 token2,
    page_documents sample_configs (documents_except ∅) [change_10] None =
      Ok documents10 ∧
    page_documents sample_configs (documents_except ∅) [change_9] None =
      Ok documents9 ∧
    FeedRest_get isoformat_first_day sample_configs (documents_except ∅) db_two_changes
      (feed_request None (None, None) (Some 1)) =
      Ok {| feed := [e10];
            pagination_token :=
              Some ("10," +:+ isoformat_first_day (time change_10)) |} ∧
    entry_for isoformat_first_day documents10 change_10 e10 ∧
    validated_token token_decoder_two_changes
      (Some ("10," +:+ isoformat_first_day (time change_10))) = Some token1 ∧
    FeedRest_get isoformat_first_day sample_configs (documents_except ∅) db_two_changes
      (feed_request None token1 (Some 1)) =
      Ok {| feed := [e9];
            pagination_token :=
              Some ("9," +:+ isoformat_first_day (time change_9)) |} ∧
    entry_for isoformat_first_day documents9 change_9 e9 ∧
    validated_token token_decoder_two_changes
      (Some ("9," +:+ isoformat_first_day (time change_9))) = Some token2 ∧
    FeedRest_get isoformat_first_day sample_configs (documents_except ∅) db_two_changes
      (feed_request None token2 (Some 1)) =
      Ok {| feed := []; pagination_token := None |}.
Proof.
  destruct (complete_store_loaded sample_configs _ documents_except_complete
              (feed_document_changes db_two_changes) [change_10] None)
    as (documents10 & Hdocuments10 & Hloaded10);
    [types_configured_sample|
     intros c Hc; apply list_elem_of_singleton in Hc as ->;
     apply list_elem_of_In; simpl; tauto|].
  destruct (complete_store_loaded sample_configs _ documents_except_complete
              (feed_document_changes db_two_changes) [change_9] None)
    as (documents9 & Hdocuments9 & Hloaded9);
    [types_configured_sample|
     intros c Hc; apply list_elem_of_singleton in Hc as ->;
     apply list_elem_of_In; simpl; tauto|].
  exists documents10, documents9.
  destruct (two_changes_scenario isoformat_first_day sample_configs
              (documents_except ∅) token_decoder_two_changes db_two_changes
              change_10 change_9 None documents10 documents9)
    as (e10 & e9 & token1 & token2 & H); try done.
  - apply Permutation_swap.
  - by exists e10, e9, token1, token2.
Defined.

Lemma personal_feed_without_filter_is_global_feed_witness :
  (∀ token_id token_time limit,
     get_changes_of_personal_feed db_following_no_filter
       (authenticated_userid personal_request) token_id token_time limit =
     get_changes_of_feed db_following_no_filter token_id token_time limit None) ∧
  PersonalFeedRest_get isoformat_first_day sample_configs (documents_except ∅)
    db_following_no_filter personal_request =
  FeedRest_get isoformat_first_day sample_configs (documents_except ∅)
    db_following_no_filter personal_request.
Proof.
  apply (personal_feed_without_filter_is_global_feed isoformat_first_day sample_configs
           (documents_except ∅) db_following_no_filter personal_request
           user_following_no_filter); reflexivity.
Defined.

Example personal_feed_following_no_filter :
  e_id <$> feed
    (match PersonalFeedRest_get isoformat_first_day sample_configs (documents_except ∅)
             db_following_no_filter personal_request with
     | Ok body => body
     | Raise _ => {| feed := []; pagination_token := None |}
     end) = [1; 10].
Proof. vm_compute. reflexivity. Qed.

(** * Further properties of the feed *)

(** ** The rows of [get_changes_of_feed] *)

Lemma holds_pagination (token_id token_time : Z) (c : DocumentChange) :
  holds (pagination_filter token_id token_time) c = true ↔
  time c < token_time ∨ (time c = token_time ∧ change_id c > token_id).
Proof.
  unfold pagination_filter. rewrite holds_or, holds_and.
  unfold holds. simpl.
  repeat case_bool_decide; simpl; split; try done; lia.
Qed.

(** The rows of a fetch before its LIMIT: the changes of the log that pass
    the extra filter and come after the token. *)
Lemma get_changes_of_feed_selected (db : DB) (token_id token_time : option Z)
    (limit : Z) (extra_filter : option clause) :
  0 ≤ limit →
  ∃ rows,
    get_changes_of_feed db token_id token_time limit extra_filter =
      Ok (take (Z.to_nat limit) rows) ∧
    StronglySorted feed_order rows ∧
    ∀ c, c ∈ rows ↔
         c ∈ feed_document_changes db ∧
         passes extra_filter c = true ∧
         after_token token_id token_time c.
Proof.
  intros Hlimit. eexists. split; [by apply get_changes_of_feed_rows|].
  split; [apply selected_sorted|].
  intros c. rewrite elem_of_selected, Forall_app.
  assert (Forall (λ f, holds f c = true)
            match extra_filter with Some f => [f] | None => [] end ↔
          passes extra_filter c = true) as ->.
  { destruct extra_filter; simpl; [by rewrite Forall_singleton|].
    split; [done|constructor]. }
  assert (Forall (λ f, holds f c = true)
            match token_id, token_time with
            | Some i, Some t =>
                [or_ (time_lt t) (and_ (time_eq t) (change_id_gt i))]
            | _, _ => []
            end ↔
          after_token token_id token_time c) as ->; [|tauto].
  unfold after_token.
  destruct token_id as [i|], token_time as [t|];
    try (split; [done|constructor]).
  rewrite Forall_singleton. apply holds_pagination.
Qed.

Lemma StronglySorted_lookup_lt {A} (R : relation A) (l : list A)
    (i j : nat) (x y : A) :
  StronglySorted R l → l !! i = Some x → l !! j = Some y → (i < j)%nat →
  R x y.
Proof.
  intros Hsorted Hi Hj Hlt.
  rewrite <- (take_drop_middle l j y Hj) in Hsorted.
  eapply StronglySorted_app_1_elem_of; [exact Hsorted| |left].
  apply elem_of_take. eauto.
Qed.

Lemma StronglySorted_take {A} (R : relation A) (n : nat) (l : list A) :
  StronglySorted R l → StronglySorted R (take n l).
Proof.
  intros H. rewrite <- (take_drop n l) in H.
  by apply StronglySorted_app_1_l in H.
Qed.

Lemma get_changes_of_feed_Ok_inv (db : DB) (token_id token_time : option Z)
    (limit : Z) (extra_filter : option clause) (changes : list DocumentChange) :
  get_changes_of_feed db token_id token_time limit extra_filter = Ok changes →
  0 ≤ limit.
Proof. intros H. by apply get_changes_of_feed_length in H as [? _]. Qed.

(** X1: the changes [get_changes_of_feed] returns are at most [limit], the
    most recent first, and changes of one time by increasing [change_id]. *)
Theorem get_changes_of_feed_order (db : DB) (token_id token_time : option Z)
    (limit : Z) (extra_filter : option clause) (changes : list DocumentChange) :
  get_changes_of_feed db token_id token_time limit extra_filter = Ok changes →
  Z.of_nat (length changes) ≤ limit ∧
  ∀ (i j : nat) c1 c2,
    changes !! i = Some c1 → changes !! j = Some c2 → (i < j)%nat →
    time c2 < time c1 ∨ (time c1 = time c2 ∧ change_id c1 ≤ change_id c2).
Proof.
  intros Hchanges.
  pose proof (get_changes_of_feed_length _ _ _ _ _ _ Hchanges) as [Hlimit Hlen].
  split; [exact Hlen|].
  destruct (get_changes_of_feed_selected db token_id token_time limit
              extra_filter Hlimit) as (rows & Hrows & Hsorted & _).
  rewrite Hrows in Hchanges. injection Hchanges as <-.
  intros i j c1 c2 Hi Hj Hlt.
  apply (StronglySorted_lookup_lt feed_order
           (take (Z.to_nat limit) rows) i j c1 c2); try done.
  by apply StronglySorted_take.
Qed.

Lemma get_changes_of_feed_order_witness :
  Z.of_nat (length [change_10; change_9; change_11]) ≤ 3 ∧
  ∀ (i j : nat) c1 c2,
    [change_10; change_9; change_11] !! i = Some c1 →
    [change_10; change_9; change_11] !! j = Some c2 → (i < j)%nat →
    time c2 < time c1 ∨ (time c1 = time c2 ∧ change_id c1 ≤ change_id c2).
Proof.
  apply (get_changes_of_feed_order db_three_changes None None 3 None).
  vm_compute. reflexivity.
Defined.

(** X2: every change [get_changes_of_feed] returns is a change of the log
    that passes the extra filter and comes after the token (an older time,
    or the time of the token and a greater [change_id]); when fewer changes
    than [limit] are returned, all such changes of the log are returned.  A
    token of which only the id or only the time is given is ignored. *)
Theorem get_changes_of_feed_filtered (db : DB) (token_id token_time : option Z)
    (limit : Z) (extra_filter : option clause) :
  0 ≤ limit →
  ∃ changes,
    get_changes_of_feed db token_id token_time limit extra_filter =
      Ok changes ∧
    (∀ c, c ∈ changes →
          c ∈ feed_document_changes db ∧
          passes extra_filter c = true ∧
          match token_id, token_time with
          | Some i, Some t => time c < t ∨ (time c = t ∧ change_id c > i)
          | _, _ => True
          end) ∧
    (Z.of_nat (length changes) < limit →
     ∀ c, c ∈ feed_document_changes db →
          passes extra_filter c = true →
          match token_id, token_time with
          | Some i, Some t => time c < t ∨ (time c = t ∧ change_id c > i)
          | _, _ => True
          end →
          c ∈ changes).
Proof.
  intros Hlimit.
  destruct (get_changes_of_feed_selected db token_id token_time limit
              extra_filter Hlimit) as (rows & Hrows & _ & Helem).
  exists (take (Z.to_nat limit) rows). split; [exact Hrows|]. split.
  - intros c Hc. apply Helem. by apply (subseteq_take (Z.to_nat limit)).
  - intros Hlen c Hlog Hpasses Hafter.
    rewrite take_ge; [by apply Helem|].
    rewrite length_take in Hlen. lia.
Qed.

Lemma get_changes_of_feed_filtered_witness :
  ∃ changes,
    get_changes_of_feed db_three_changes (Some 9) (Some 1) 5 None =
      Ok changes ∧
    (∀ c, c ∈ changes →
          c ∈ feed_document_changes db_three_changes ∧
          passes None c = true ∧
          (time c < 1 ∨ (time c = 1 ∧ change_id c > 9))) ∧
    (Z.of_nat (length changes) < 5 →
     ∀ c, c ∈ feed_document_changes db_three_changes →
          passes None c = true →
          time c < 1 ∨ (time c = 1 ∧ change_id c > 9) →
          c ∈ changes).
Proof.
  apply (get_changes_of_feed_filtered db_three_changes (Some 9) (Some 1) 5
           None). lia.
Defined.

(** X3: on a log with pairwise distinct [(time, change_id)], the token of
    any change of a page, not only of its last one, resumes right after this
    change: the changes of the page up to it, followed by the fetch with its
    token, are the page of as many changes. *)
Theorem token_resumes_after_its_change (db : DB)
    (extra_filter : option clause) (k1 k2 : Z) (page : list DocumentChange)
    (i : nat) (c0 : DocumentChange) :
  NoDup (feed_key <$> feed_document_changes db) →
  0 ≤ k2 →
  get_changes_of_feed db None None k1 extra_filter = Ok page →
  page !! i = Some c0 →
  ∃ next,
    get_changes_of_feed db (Some (change_id c0)) (Some (time c0)) k2
      extra_filter = Ok next ∧
    get_changes_of_feed db None None (Z.of_nat (S i) + k2) extra_filter =
      Ok (take (S i) page ++ next) ∧
    c0 ∉ next.
Proof.
  intros Hkeys Hk2 Hpage Hi.
  pose proof (get_changes_of_feed_Ok_inv _ _ _ _ _ _ Hpage) as Hk1.
  rewrite get_changes_of_feed_first in Hpage by done.
  injection Hpage as <-.
  set (rows := selected db (extra_clauses extra_filter)) in *.
  assert (Hrows : rows !! i = Some c0).
  { apply lookup_take_Some in Hi as [? _]. done. }
  assert (Htake : take (S i) (take (Z.to_nat k1) rows) = take (S i) rows).
  { rewrite take_take. f_equal.
    apply lookup_lt_Some in Hi. rewrite length_take in Hi. lia. }
  assert (Hlast : last (take (S i) rows) = Some c0).
  { rewrite (take_S_r _ _ _ Hrows). apply last_snoc. }
  exists (take (Z.to_nat k2) (drop (S i) rows)).
  split; [|split].
  - rewrite get_changes_of_feed_token by done.
    by rewrite (selected_resume db Hkeys _ (S i) c0 Hlast).
  - rewrite get_changes_of_feed_first by lia. fold rows.
    rewrite Htake, take_take_drop. do 2 f_equal. lia.
  - intros Hin. apply (subseteq_take (Z.to_nat k2)) in Hin.
    pose proof (selected_NoDup db Hkeys (extra_clauses extra_filter)) as Hnodup.
    fold rows in Hnodup. rewrite <- (take_drop (S i) rows) in Hnodup.
    apply NoDup_app in Hnodup as (_ & Hdisjoint & _).
    apply (Hdisjoint c0); [|done].
    by apply last_Some_elem_of.
Qed.

Lemma token_resumes_after_its_change_witness :
  ∃ next,
    get_changes_of_feed db_three_changes (Some 10) (Some 2) 1 None = Ok next ∧
    get_changes_of_feed db_three_changes None None (Z.of_nat 1 + 1) None =
      Ok (take 1 [change_10; change_9; change_11] ++ next) ∧
    change_10 ∉ next.
Proof.
  apply (token_resumes_after_its_change db_three_changes None 3 1
           [change_10; change_9; change_11] 0 change_10).
  - apply (bool_decide_unpack _). vm_compute. exact I.
  - lia.
  - vm_compute. reflexivity.
  - reflexivity.
Defined.

(** ** The cases of the personal filter *)

Lemma passes_create_personal_filter (db : DB) (user : User)
    (c : DocumentChange) :
  passes (create_personal_filter db user) c = personal_condition db user c.
Proof.
  unfold create_personal_filter, personal_condition,
    create_followed_users_filter, create_area_filter, create_activity_filter.
  destruct (feed_followed_only user).
  { destruct (is_following_users user); simpl; [|done].
    apply holds_followed_users_filter. }
  destruct (list_truthy (feed_filter_activities user)) eqn:Hact,
    (has_area_filter user) eqn:Harea, (is_following_users user) eqn:Hfol;
    simpl;
    rewrite ?holds_or, ?holds_and, ?holds_area_ids_overlap,
      ?holds_activities_overlap, ?holds_followed_users_filter,
      ?filtered_area_ids_subquery_default, ?orb_false_r, ?andb_true_r;
    done.
Qed.

(** X4: the condition [create_personal_filter] builds, case by case: in
    followed-only mode the changes of followed users (all changes when the
    user follows nobody); otherwise, with an area or an activity filter, the
    changes that meet every configured one of the two, or involve a followed
    user; otherwise all changes. *)
Theorem create_personal_filter_cases (db : DB) (user : User)
    (c : DocumentChange) :
  passes (create_personal_filter db user) c =
  if feed_followed_only user then
    if is_following_users user then followed db user c else true
  else if list_truthy (feed_filter_activities user) || has_area_filter user then
    ((if has_area_filter user
      then overlap (area_ids c) (filtered_area_ids db user) else true) &&
     (if list_truthy (feed_filter_activities user)
      then overlap (activities c) (feed_filter_activities user) else true))
    || (is_following_users user && followed db user c)
  else true.
Proof. apply passes_create_personal_filter. Qed.

Lemma has_no_custom_filter_create_personal_filter (db : DB) (user : User) :
  has_no_custom_filter user = true → create_personal_filter db user = None.
Proof.
  unfold has_no_custom_filter, create_personal_filter.
  destruct (feed_followed_only user), (has_area_filter user),
    (is_following_users user), (list_truthy (feed_filter_activities user));
    done.
Qed.

(** X5: the short cut of [get_changes_of_personal_feed] for a user without
    custom filter changes nothing: for every user that exists the personal
    feed is [get_changes_of_feed] with the filter of
    [create_personal_filter], which is absent whenever
    [has_no_custom_filter] holds; and every change of the personal feed
    satisfies the condition of the cases of the filter. *)
Theorem get_changes_of_personal_feed_filter (db : DB) (user_id : option Z)
    (user : User) (token_id token_time : option Z) (limit : Z) :
  query_user db user_id = Some user →
  get_changes_of_personal_feed db user_id token_id token_time limit =
    get_changes_of_feed db token_id token_time limit
      (create_personal_filter db user) ∧
  (has_no_custom_filter user = true → create_personal_filter db user = None) ∧
  ∀ changes,
    get_changes_of_personal_feed db user_id token_id token_time limit =
      Ok changes →
    ∀ c, c ∈ changes →
         c ∈ feed_document_changes db ∧ personal_condition db user c = true.
Proof.
  intros Huser.
  assert (Heq :
    get_changes_of_personal_feed db user_id token_id token_time limit =
    get_changes_of_feed db token_id token_time limit
      (create_personal_filter db user)).
  { unfold get_changes_of_personal_feed. rewrite Huser.
    destruct (has_no_custom_filter user) eqn:Hcustom; [|done].
    by rewrite has_no_custom_filter_create_personal_filter. }
  split; [exact Heq|].
  split; [apply has_no_custom_filter_create_personal_filter|].
  intros changes Hchanges c Hc. rewrite Heq in Hchanges.
  pose proof (get_changes_of_feed_Ok_inv _ _ _ _ _ _ Hchanges) as Hlimit.
  destruct (get_changes_of_feed_selected db token_id token_time limit
              (create_personal_filter db user) Hlimit)
    as (rows & Hrows & _ & Helem).
  rewrite Hrows in Hchanges. injection Hchanges as <-.
  apply (subseteq_take (Z.to_nat limit)), Helem in Hc as (Hlog & Hpasses & _).
  split; [done|]. by rewrite <- passes_create_personal_filter.
Qed.

Lemma get_changes_of_personal_feed_filter_witness :
  get_changes_of_personal_feed db_following_no_filter (Some 1) None None 2 =
    get_changes_of_feed db_following_no_filter None None 2
      (create_personal_filter db_following_no_filter
         user_following_no_filter) ∧
  (has_no_custom_filter user_following_no_filter = true →
   create_personal_filter db_following_no_filter user_following_no_filter =
     None) ∧
  ∀ changes,
    get_changes_of_personal_feed db_following_no_filter (Some 1) None None 2 =
      Ok changes →
    ∀ c, c ∈ changes →
         c ∈ feed_document_changes db_following_no_filter ∧
         personal_condition db_following_no_filter user_following_no_filter c
           = true.
Proof.
  apply (get_changes_of_personal_feed_filter db_following_no_filter (Some 1)
           user_following_no_filter None None 2).
  reflexivity.
Defined.

(** ** The profile feed *)

(** X6: [get_changes_of_profile_feed] raises "not found" exactly when no
    user has the id; otherwise every change it returns is a change of the
    log in which the user is involved ([user_id] is one of its [user_ids]),
    and when fewer changes than [limit] are returned, all such changes that
    come after the token are returned. *)
Theorem get_changes_of_profile_feed_changes (db : DB) (user_id : Z)
    (token_id token_time : option Z) (limit : Z) :
  0 ≤ limit →
  ((∀ user, user ∈ users db → id user ≠ user_id) →
   get_changes_of_profile_feed db user_id token_id token_time limit =
     Raise (HTTPNotFound "user not found")) ∧
  ((∃ user, user ∈ users db ∧ id user = user_id) →
   ∃ changes,
     get_changes_of_profile_feed db user_id token_id token_time limit =
       Ok changes ∧
     (∀ c, c ∈ changes →
           c ∈ feed_document_changes db ∧ user_id ∈ user_ids c) ∧
     (Z.of_nat (length changes) < limit →
      ∀ c, c ∈ feed_document_changes db → user_id ∈ user_ids c →
           match token_id, token_time with
           | Some i, Some t => time c < t ∨ (time c = t ∧ change_id c > i)
           | _, _ => True
           end →
           c ∈ changes)).
Proof.
  intros Hlimit. unfold get_changes_of_profile_feed. split.
  - intros Hnone. rewrite bool_decide_eq_false_2; [done|].
    intros Hex. apply Exists_exists in Hex as (user & Hin & Hid).
    by apply (Hnone user).
  - intros (user & Hin & Hid). rewrite bool_decide_eq_true_2.
    2:{ apply Exists_exists. by exists user. }
    simpl.
    destruct (get_changes_of_feed_selected db token_id token_time limit
                (Some (user_ids_overlap (Some [user_id]))) Hlimit)
      as (rows & Hrows & _ & Helem).
    assert (Hinvolved : ∀ c,
      passes (Some (user_ids_overlap (Some [user_id]))) c = true ↔
      user_id ∈ user_ids c).
    { intros c. simpl. rewrite holds_user_ids_overlap. simpl.
      rewrite overlap_true. split.
      - intros (x & Hx & Hx'). by apply list_elem_of_singleton in Hx' as ->.
      - intros Hx. exists user_id. split; [done|left]. }
    exists (take (Z.to_nat limit) rows). split; [exact Hrows|]. split.
    + intros c Hc.
      apply (subseteq_take (Z.to_nat limit)), Helem in Hc as (? & Hp & _).
      split; [done|]. by apply Hinvolved.
    + intros Hlen c Hlog Hc Hafter. rewrite take_ge.
      * apply Helem. split; [done|]. split; [by apply Hinvolved|done].
      * rewrite length_take in Hlen. lia.
Qed.

Lemma get_changes_of_profile_feed_changes_witness :
  get_changes_of_profile_feed db_profiles 4 None None 10 =
    Raise (HTTPNotFound "user not found") ∧
  ∃ changes,
    get_changes_of_profile_feed db_profiles 1 None None 10 = Ok changes ∧
    (∀ c, c ∈ changes →
          c ∈ feed_document_changes db_profiles ∧ 1 ∈ user_ids c) ∧
    (Z.of_nat (length changes) < 10 →
     ∀ c, c ∈ feed_document_changes db_profiles → 1 ∈ user_ids c →
          True → c ∈ changes).
Proof.
  split.
  - apply (get_changes_of_profile_feed_changes db_profiles 4 None None 10);
      [lia|].
    intros user Hin. simpl in Hin.
    repeat (apply elem_of_cons in Hin as [->|Hin]); try discriminate.
    by apply elem_of_nil in Hin.
  - apply (get_changes_of_profile_feed_changes db_profiles 1 None None 10);
      [lia|].
    exists user_public. split; [left|reflexivity].
Defined.

Lemma requested_user_Some (db : DB) (u : Z) (user : User) :
  head (filter (λ user, email_validated user = true)
          (filter (λ user, id user = u) (users db))) = Some user →
  user ∈ users db ∧ id user = u ∧ email_validated user = true.
Proof.
  intros H. apply head_Some_elem_of in H.
  apply list_elem_of_filter in H as [Hvalid H].
  by apply list_elem_of_filter in H as [Hid H].
Qed.

Lemma requested_user_None_inv (db : DB) (u : Z) :
  head (filter (λ user, email_validated user = true)
          (filter (λ user, id user = u) (users db))) = None →
  ∀ user, user ∈ users db → id user = u → email_validated user = false.
Proof.
  intros H user Hin Hid. apply head_None in H.
  apply not_true_is_false. intros Hvalid.
  assert (user ∈ filter (λ user, email_validated user = true)
            (filter (λ user, id user = u) (users db))) as Hx.
  { apply list_elem_of_filter. split; [done|]. by apply list_elem_of_filter. }
  rewrite H in Hx. by apply elem_of_nil in Hx.
Qed.

(** The feed of a profile whose user exists is that of the filtered global
    feed; its only errors are that of a negative limit and that of a
    document type without configuration. *)
Lemma profile_feed_served (isoformat : Z → string)
    {Config : Type} (document_configs : gmap string Config)
    (get_documents_for_ids : gset Z → option string → Config → list Doc)
    (db : DB) (user : User) (token_id token_time : option Z) (limit : Z)
    (lang : option string) :
  user ∈ users db →
  get_changes_of_profile_feed db (id user) token_id token_time limit ≫=
    (λ changes, load_feed isoformat document_configs get_documents_for_ids changes lang) =
  get_changes_of_feed db token_id token_time limit
    (Some (user_ids_overlap (Some [id user]))) ≫=
    (λ changes, load_feed isoformat document_configs get_documents_for_ids changes lang) ∧
  (∀ e,
     get_changes_of_profile_feed db (id user) token_id token_time limit ≫=
       (λ changes, load_feed isoformat document_configs get_documents_for_ids changes lang) =
     Raise e →
     e = DataError ∨ e = KeyError).
Proof.
  intros Hin. unfold get_changes_of_profile_feed.
  rewrite user_exists_true by done. simpl. split; [done|].
  intros e.
  destruct (decide (0 ≤ limit)) as [Hlimit|Hlimit].
  - rewrite get_changes_of_feed_rows by done. simpl. intros H. right.
    by apply load_feed_Raise_inv in H as [-> _].
  - unfold get_changes_of_feed, query_all. simpl.
    rewrite bool_decide_eq_true_2 by lia. simpl. intros [= <-]. by left.
Qed.

(** X7: with unique user ids, the profile feed answers "not found" exactly
    when no user with a validated email has the requested id, and "forbidden"
    exactly when this user has a private profile and the caller is not
    authenticated; to an authenticated caller the feed of a private profile
    is served like that of a public one.  The existence check inside
    [get_changes_of_profile_feed] never fails for a user the resource has
    found. *)
Theorem profile_feed_errors
    (isoformat : Z → string)
    {Config : Type} (document_configs : gmap string Config)
    (get_documents_for_ids : gset Z → option string → Config → list Doc)
    (db : DB) (request : Request) :
  NoDup (id <$> users db) →
  (ProfileFeedRest_get isoformat document_configs get_documents_for_ids db request =
     Raise (HTTPNotFound "user not found") ↔
   ∀ user, user ∈ users db → id user = validated_u request →
           email_validated user = false) ∧
  (ProfileFeedRest_get isoformat document_configs get_documents_for_ids db request =
     Raise (HTTPForbidden "no permission to see the feed") ↔
   ∃ user, user ∈ users db ∧ id user = validated_u request ∧
           email_validated user = true ∧
           is_profile_public user = false ∧
           has_permission_authenticated request = false) ∧
  (∀ user, user ∈ users db → id user = validated_u request →
           email_validated user = true →
           has_permission_authenticated request = true →
           ProfileFeedRest_get isoformat document_configs get_documents_for_ids db request =
           (let '(lang, token_id, token_time, limit) := get_params request in
            get_changes_of_feed db token_id token_time limit
              (Some (user_ids_overlap (Some [validated_u request]))) ≫=
            λ changes, load_feed isoformat document_configs get_documents_for_ids changes lang)).
Proof.
  intros Hnodup. unfold ProfileFeedRest_get.
  destruct (get_params request) as [[[lang token_id] token_time] limit].
  destruct (head _) as [found|] eqn:Hfound.
  - apply requested_user_Some in Hfound as (Hin & Hid & Hvalid).
    assert (Hunique : ∀ user, user ∈ users db → id user = validated_u request →
              user = found).
    { intros user Hin' Hid'.
      pose proof (filter_user_id_unique (users db) found Hnodup Hin) as H1.
      assert (user ∈ filter (λ u, id u = id found) (users db)) as H2.
      { apply list_elem_of_filter. split; [congruence|done]. }
      rewrite H1 in H2. by apply list_elem_of_singleton in H2. }
    destruct (profile_feed_served isoformat document_configs get_documents_for_ids db found
                token_id token_time limit lang Hin) as [Heq Hserved].
    rewrite Hid in Heq, Hserved.
    split; [|split].
    + split.
      * intros Hnf. destruct (_ || _); [|done].
        by apply Hserved in Hnf as [?|?].
      * intros Hnone. rewrite (Hnone found Hin Hid) in Hvalid. done.
    + split.
      * intros Hforbidden. exists found.
        destruct (is_profile_public found), (has_permission_authenticated request);
          simpl in Hforbidden; try done;
          by apply Hserved in Hforbidden as [?|?].
      * intros (user & Hin' & Hid' & _ & Hprivate & Hanonymous).
        rewrite (Hunique user Hin' Hid') in Hprivate.
        by rewrite Hprivate, Hanonymous.
    + intros user Hin' Hid' _ Hauth. rewrite Hauth, orb_true_r. exact Heq.
  - pose proof (requested_user_None_inv db _ Hfound) as Hnone.
    split; [|split].
    + split; [by intros _|done].
    + split; [done|].
      intros (user & Hin' & Hid' & Hvalid & _).
      rewrite (Hnone user Hin' Hid') in Hvalid. done.
    + intros user Hin' Hid' Hvalid. rewrite (Hnone user Hin' Hid') in Hvalid.
      done.
Qed.

Lemma profile_feed_errors_witness :
  ProfileFeedRest_get isoformat_first_day sample_configs (documents_except ∅) db_profiles
    (profile_request 3 true) =
  (let '(lang, token_id, token_time, limit) :=
     get_params (profile_request 3 true) in
   get_changes_of_feed db_profiles token_id token_time limit
     (Some (user_ids_overlap (Some [3]))) ≫=
   λ changes, load_feed isoformat_first_day sample_configs (documents_except ∅) changes lang).
Proof.
  destruct (profile_feed_errors isoformat_first_day sample_configs (documents_except ∅)
              db_profiles (profile_request 3 true)) as (_ & _ & Hserved).
  - apply (bool_decide_unpack _). vm_compute. exact I.
  - apply (Hserved user_private); [by do 2 right; left|reflexivity..].
Defined.

(** ** The documents of a page *)

Lemma dict_update_inv (k k' : string) (ids : gset Z)
    (d : list (string * gset Z)) (i : Z) :
  to_load (dict_update k ids d) k' i → to_load d k' i ∨ (k' = k ∧ i ∈ ids).
Proof.
  induction d as [|[k0 s0] d IH]; simpl; intros (s & Hin & Hi).
  - apply list_elem_of_singleton in Hin as [= -> ->]. by right.
  - case_decide as Hk.
    + subst k0. apply elem_of_cons in Hin as [[= -> ->]|Hin].
      * apply elem_of_union in Hi as [Hi|Hi]; [|by right].
        left. exists s0. split; [left|done].
      * left. exists s. split; [by right|done].
    + apply elem_of_cons in Hin as [[= -> ->]|Hin].
      * left. exists s0. split; [left|done].
      * destruct IH as [(s' & Hin' & Hi')|?]; [by exists s| |by right].
        left. exists s'. split; [by right|done].
Qed.

Lemma dict_add_if_inv (k k' : string) (image_id : option Z)
    (d : list (string * gset Z)) (i : Z) :
  to_load (dict_add_if (id_truthy image_id) k image_id d) k' i →
  to_load d k' i ∨ (k' = k ∧ i ≠ 0 ∧ image_id = Some i).
Proof.
  unfold dict_add_if, id_truthy. destruct image_id as [j|]; [|by left].
  case_bool_decide as Hj; [|by left].
  intros [H|[-> Hi]]%dict_update_inv; [by left|].
  apply elem_of_singleton in Hi as ->. by right.
Qed.

Lemma dict_add_if_to_load (k : string) (d : list (string * gset Z)) (i : Z) :
  i ≠ 0 → to_load (dict_add_if (id_truthy (Some i)) k (Some i) d) k i.
Proof.
  intros Hi. unfold dict_add_if, id_truthy.
  rewrite bool_decide_eq_true_2 by done.
  apply dict_update_to_load. set_solver.
Qed.

Lemma dict_update_keys (k : string) (ids : gset Z)
    (d : list (string * gset Z)) :
  NoDup (d.*1) → NoDup ((dict_update k ids d).*1) ∧
  ∀ k', k' ∈ (dict_update k ids d).*1 → k' = k ∨ k' ∈ d.*1.
Proof.
  induction d as [|[k0 s0] d IH]; simpl; intros Hnodup.
  - split; [apply NoDup_singleton|].
    intros k' Hk'. apply list_elem_of_singleton in Hk'. by left.
  - apply NoDup_cons in Hnodup as [Hk0 Hnodup].
    case_decide as Hk; simpl.
    + split; [by apply NoDup_cons|]. intros k' Hk'. by right.
    + destruct (IH Hnodup) as [IH1 IH2]. split.
      * apply NoDup_cons. split; [|done].
        intros Hin. by destruct (IH2 _ Hin) as [->|?].
      * intros k' [->|Hk']%elem_of_cons; [right; left|].
        destruct (IH2 _ Hk') as [->|?]; [by left|right; by right].
Qed.

Lemma dict_add_if_keys (b : bool) (k : string) (image_id : option Z)
    (d : list (string * gset Z)) :
  NoDup (d.*1) → NoDup ((dict_add_if b k image_id d).*1).
Proof.
  intros H. unfold dict_add_if. destruct image_id, b; try done.
  by apply dict_update_keys.
Qed.

(** X8: [get_documents_to_load] asks for exactly the ids the changes refer
    to, each under its type: the document of a change under the type of the
    change, its user and its participants under the profile type, and its
    images under the image type, an image id that is not set (or 0) being
    left out; every type has one entry. *)
Theorem get_documents_to_load_ids (changes : list DocumentChange) :
  NoDup ((get_documents_to_load changes).*1) ∧
  ∀ k i,
    (∃ ids, (k, ids) ∈ get_documents_to_load changes ∧ i ∈ ids) ↔
    ∃ c, c ∈ changes ∧
      ((k = document_type c ∧ i = document_id c) ∨
       (k = USERPROFILE_TYPE ∧ (i = user_id c ∨ i ∈ user_ids c)) ∨
       (k = IMAGE_TYPE ∧ i ≠ 0 ∧
        (image1_id c = Some i ∨ image2_id c = Some i ∨ image3_id c = Some i))).
Proof.
  unfold get_documents_to_load.
  induction changes as [|c changes [IHkeys IH]] using rev_ind.
  - split; [constructor|]. intros k i. split.
    + intros (ids & Hin & _). by apply elem_of_nil in Hin.
    + intros (c & Hc & _). by apply elem_of_nil in Hc.
  - rewrite foldl_snoc. split.
    { repeat apply dict_add_if_keys. by repeat apply dict_update_keys. }
    intros k i. fold (to_load
      (foldl (λ documents_to_load change,
         dict_add_if (id_truthy (image3_id change)) IMAGE_TYPE (image3_id change)
           (dict_add_if (id_truthy (image2_id change)) IMAGE_TYPE
              (image2_id change)
              (dict_add_if (id_truthy (image1_id change)) IMAGE_TYPE
                 (image1_id change)
                 (dict_update USERPROFILE_TYPE (list_to_set (user_ids change))
                    (dict_update USERPROFILE_TYPE {[user_id change]}
                       (dict_update (document_type change)
                          {[document_id change]} documents_to_load))))))
         [] changes) k i) in IH.
    match goal with |- (∃ ids, (k, ids) ∈ ?d ∧ i ∈ ids) ↔ _ =>
      change (∃ ids, (k, ids) ∈ d ∧ i ∈ ids) with (to_load d k i) end.
    split.
    + intros H.
      apply dict_add_if_inv in H as [H|(-> & Hi & H3)];
        [|exists c; split; [apply elem_of_app; right; left|tauto]].
      apply dict_add_if_inv in H as [H|(-> & Hi & H2)];
        [|exists c; split; [apply elem_of_app; right; left|tauto]].
      apply dict_add_if_inv in H as [H|(-> & Hi & H1)];
        [|exists c; split; [apply elem_of_app; right; left|tauto]].
      apply dict_update_inv in H as [H|(-> & Hi)];
        [|exists c; split; [apply elem_of_app; right; left|]; right; left;
          split; [done|]; right; by apply elem_of_list_to_set in Hi].
      apply dict_update_inv in H as [H|(-> & Hi)];
        [|exists c; split; [apply elem_of_app; right; left|]; right; left;
          split; [done|]; left; by apply elem_of_singleton in Hi].
      apply dict_update_inv in H as [H|(-> & Hi)];
        [|exists c; split; [apply elem_of_app; right; left|]; left;
          split; [done|]; by apply elem_of_singleton in Hi].
      apply IH in H as (c' & Hc' & H). exists c'.
      split; [apply elem_of_app; by left|done].
    + intros (c' & Hc' & H). apply elem_of_app in Hc' as [Hc'|Hc'].
      * repeat apply dict_add_if_mono. repeat apply dict_update_mono.
        apply IH. by exists c'.
      * apply list_elem_of_singleton in Hc' as ->.
        destruct H as [[-> ->]|[[-> [->|Hi]]|(-> & Hi & [H1|[H2|H3]])]].
        -- repeat apply dict_add_if_mono. do 2 apply dict_update_mono.
           apply dict_update_to_load. set_solver.
        -- repeat apply dict_add_if_mono. apply dict_update_mono.
           apply dict_update_to_load. set_solver.
        -- repeat apply dict_add_if_mono. apply dict_update_to_load.
           by apply elem_of_list_to_set.
        -- do 2 apply dict_add_if_mono. rewrite H1.
           by apply dict_add_if_to_load.
        -- apply dict_add_if_mono. rewrite H2. by apply dict_add_if_to_load.
        -- rewrite H3. by apply dict_add_if_to_load.
Qed.

(** A dictionary filled by key, as [documents[doc['document_id']] = doc]. *)
Lemma foldl_insert_lookup {A} (key : A → Z) (l : list A) (m : gmap Z A)
    (i : Z) (x : A) :
  foldl (λ m x, <[key x := x]> m) m l !! i = Some x →
  (x ∈ l ∧ key x = i) ∨ m !! i = Some x.
Proof.
  revert m. induction l as [|y l IH]; intros m H; simpl in H; [by right|].
  apply IH in H as [[Hin Hkey]|H]; [left; split; [by right|done]|].
  rewrite lookup_insert in H. case_decide as Hy.
  - injection H as ->. left. split; [left|done].
  - by right.
Qed.

Lemma foldl_insert_is_Some {A} (key : A → Z) (l : list A) (m : gmap Z A)
    (i : Z) :
  (∃ x, x ∈ l ∧ key x = i) ∨ is_Some (m !! i) →
  is_Some (foldl (λ m x, <[key x := x]> m) m l !! i).
Proof.
  revert m. induction l as [|y l IH]; intros m H; simpl.
  - destruct H as [(x & Hx & _)|H]; [by apply elem_of_nil in Hx|done].
  - apply IH. destruct H as [(x & Hx & Hkey)|H].
    + apply elem_of_cons in Hx as [->|Hx]; [|left; by exists x].
      right. rewrite Hkey, lookup_insert_eq. by eexists.
    + right. rewrite lookup_insert. case_decide; [by eexists|done].
Qed.

Section LoadDocuments.

Context {Config : Type} (document_configs : gmap string Config)
    (get_documents_for_ids : gset Z → option string → Config → list Doc).

Lemma load_documents_items_lookup_inv (items : list (string * gset Z))
    (lang : option string) (i : Z) (doc : Doc)
    (documents documents' : gmap Z Doc) :
  load_documents_items document_configs get_documents_for_ids
    documents items lang = Ok documents' →
  documents' !! i = Some doc →
  (doc_document_id doc = i ∧
   ∃ k ids document_config,
     (k, ids) ∈ items ∧
     document_configs !! k = Some document_config ∧
     doc ∈ get_documents_for_ids ids lang document_config) ∨
  documents !! i = Some doc.
Proof.
  revert documents.
  induction items as [|[k ids] d IH]; intros documents Hload H.
  - injection Hload as <-. by right.
  - rewrite load_documents_items_cons in Hload.
    destruct (document_configs !! k) as [document_config|] eqn:Hk; [|done].
    destruct (IH _ Hload H) as [(Hid & k' & ids' & config' & Hin & Hk' & Hdoc)|H'].
    + left. split; [done|]. exists k', ids', config'. split; [by right|done].
    + apply (foldl_insert_lookup doc_document_id) in H' as [[Hin Hid]|H'];
        [|by right].
      left. split; [done|]. exists k, ids, document_config.
      split; [left|done].
Qed.

Lemma load_documents_items_lookup_is_Some (items : list (string * gset Z))
    (lang : option string) (k : string) (ids : gset Z)
    (document_config : Config) (doc : Doc)
    (documents documents' : gmap Z Doc) :
  load_documents_items document_configs get_documents_for_ids
    documents items lang = Ok documents' →
  document_configs !! k = Some document_config →
  doc ∈ get_documents_for_ids ids lang document_config →
  (k, ids) ∈ items ∨ is_Some (documents !! doc_document_id doc) →
  is_Some (documents' !! doc_document_id doc).
Proof.
  intros Hload Hk Hdoc. revert documents Hload.
  induction items as [|[k' ids'] d IH]; intros documents Hload H.
  - injection Hload as <-.
    destruct H as [H|H]; [by apply elem_of_nil in H|done].
  - rewrite load_documents_items_cons in Hload.
    destruct (document_configs !! k') as [config'|] eqn:Hk'; [|done].
    apply (IH _ Hload). destruct H as [H|H].
    + apply elem_of_cons in H as [[= <- <-]|H]; [|by left].
      right. apply (foldl_insert_is_Some doc_document_id). left.
      exists doc. split; [|done]. congruence.
    + right. apply (foldl_insert_is_Some doc_document_id). by right.
Qed.

(** X9: [load_documents] looks up the configuration of every type to load:
    it answers exactly when each of these types has one, and raises
    [KeyError] otherwise.  The dictionary it answers with holds a document
    under an id only if this is the document's own id and the store returned
    the document for one of the requested sets of ids; and the id of every
    document the store returned for a requested set is a key of the
    dictionary. *)
Theorem load_documents_keys (documents_to_load : list (string * gset Z))
    (lang : option string) :
  ((∃ documents,
      load_documents document_configs get_documents_for_ids
        documents_to_load lang = Ok documents) ↔
   all_configured document_configs documents_to_load) ∧
  (load_documents document_configs get_documents_for_ids
     documents_to_load lang = Raise KeyError ↔
   ¬ all_configured document_configs documents_to_load) ∧
  (∀ e,
     load_documents document_configs get_documents_for_ids
       documents_to_load lang = Raise e → e = KeyError) ∧
  ∀ documents,
    load_documents document_configs get_documents_for_ids
      documents_to_load lang = Ok documents →
    (∀ i doc,
       documents !! i = Some doc →
       doc_document_id doc = i ∧
       ∃ k ids document_config,
         (k, ids) ∈ documents_to_load ∧
         document_configs !! k = Some document_config ∧
         doc ∈ get_documents_for_ids ids lang document_config) ∧
    (∀ k ids document_config doc,
       (k, ids) ∈ documents_to_load →
       document_configs !! k = Some document_config →
       doc ∈ get_documents_for_ids ids lang document_config →
       is_Some (documents !! doc_document_id doc)).
Proof.
  unfold load_documents.
  assert (Hok : (∃ documents,
      load_documents_items document_configs get_documents_for_ids
        ∅ documents_to_load lang = Ok documents) ↔
    all_configured document_configs documents_to_load).
  { split.
    - intros [documents H]. by eapply load_documents_items_Ok_inv.
    - apply load_documents_items_configured. }
  split; [exact Hok|]. split; [|split].
  - split.
    + intros Hraise Hall. apply Hok in Hall as [documents Hdocuments].
      congruence.
    + intros Hnot.
      destruct (load_documents_items _ _ _ _ _) as [documents|e] eqn:Hload.
      * destruct Hnot. apply Hok. by exists documents.
      * by apply load_documents_items_Raise in Hload as ->.
  - intros e. apply load_documents_items_Raise.
  - intros documents Hload. split.
    + intros i doc Hdoc.
      destruct (load_documents_items_lookup_inv _ _ _ _ _ _ Hload Hdoc)
        as [?|Hempty]; [done|].
      by rewrite lookup_empty in Hempty.
    + intros k ids document_config doc Hin Hk Hdoc.
      eapply load_documents_items_lookup_is_Some; eauto.
Qed.

End LoadDocuments.

Lemma load_documents_keys_witness :
  ∃ documents,
    load_documents sample_configs (documents_except {[ 101 ]})
      (get_documents_to_load [change_10; change_9]) None = Ok documents ∧
    is_Some (documents !! 100) ∧
    ∀ doc, documents !! 100 = Some doc → doc_document_id doc = 100.
Proof.
  destruct (load_documents_keys sample_configs (documents_except {[ 101 ]})
              (get_documents_to_load [change_10; change_9]) None)
    as (Hok & _ & _ & Hkeys).
  destruct (proj2 Hok) as [documents Hdocuments].
  { apply (types_configured_all sample_configs [change_10; change_9]);
      [types_configured_sample|done]. }
  exists documents. split; [done|].
  destruct (Hkeys documents Hdocuments) as [Hinv Hsome].
  split.
  - apply (Hsome "o" {[ 100; 101 ]} "o"
             {| doc_document_id := 100; doc_content := "o" |}).
    + vm_compute. left.
    + vm_compute. reflexivity.
    + vm_compute. left.
  - intros doc Hdoc. by apply Hinv in Hdoc as [? _].
Defined.

(** A type to load without configuration: the lookup of line
    [document_configs[document_type]] fails. *)
Example load_documents_not_configured :
  load_documents (delete "o" sample_configs) (documents_except ∅)
    (get_documents_to_load [change_10; change_9]) None = Raise KeyError ∧
  load_feed isoformat_first_day (delete "o" sample_configs)
    (documents_except ∅) [change_10; change_9] None = Raise KeyError ∧
  load_feed isoformat_first_day (delete "o" sample_configs)
    (documents_except ∅) [] None =
    Ok {| feed := []; pagination_token := None |}.
Proof. split_and!; vm_compute; reflexivity. Qed.

(** ** The response of [load_feed] *)

Section LoadFeedResponse.

Context (isoformat : Z → string).
Context {Config : Type} (document_configs : gmap string Config)
    (get_documents_for_ids : gset Z → option string → Config → list Doc).

(** X10: [load_feed] answers exactly when every type to load of the page has
    a configuration, and raises [KeyError] otherwise.  The pagination token
    of a response is the id and the time of the last entry of its feed, and
    is absent exactly when the feed is empty, that is when no change of the
    page has both its user and its document loaded. *)
Theorem load_feed_token_of_last_entry (changes : list DocumentChange)
    (lang : option string) :
  ((∃ body,
      load_feed isoformat document_configs get_documents_for_ids
        changes lang = Ok body) ↔
   all_configured document_configs (get_documents_to_load changes)) ∧
  (∀ e,
     load_feed isoformat document_configs get_documents_for_ids
       changes lang = Raise e → e = KeyError) ∧
  ∀ body,
    load_feed isoformat document_configs get_documents_for_ids
      changes lang = Ok body →
    pagination_token body =
      (λ e, pretty (e_id e) +:+ "," +:+ e_time e) <$> last (feed body) ∧
    (pagination_token body = None ↔ feed body = []) ∧
    ∃ documents,
      page_documents document_configs get_documents_for_ids changes lang =
        Ok documents ∧
      (feed body = [] ↔ ∀ c, c ∈ changes → ¬ loaded documents c).
Proof.
  split; [|split].
  - split.
    + intros [body Hbody].
      apply load_feed_Ok_inv in Hbody as [documents Hdocuments].
      by eapply load_documents_items_Ok_inv.
    + intros Hall.
      destruct (page_documents_configured document_configs
                  get_documents_for_ids changes lang Hall)
        as [documents Hdocuments].
      destruct (load_feed_spec isoformat document_configs
                  get_documents_for_ids changes lang documents Hdocuments)
        as (entries & Hfeed & _).
      by eexists.
  - intros e H. by apply load_feed_Raise_inv in H as [-> _].
  - intros body Hbody.
    destruct (load_feed_Ok_inv isoformat document_configs
                get_documents_for_ids changes lang body Hbody)
      as [documents Hdocuments].
    destruct (load_feed_spec isoformat document_configs
                get_documents_for_ids changes lang documents Hdocuments)
      as (entries & Hfeed & Hall).
    rewrite Hfeed in Hbody. injection Hbody as <-. simpl.
    set (surviving := filter (loaded documents) changes) in *.
    assert (Htoken : format_token isoformat <$> last surviving =
              (λ e, pretty (e_id e) +:+ "," +:+ e_time e) <$> last entries).
    { apply Forall2_last in Hall.
      destruct Hall as [c e (Hid & Htime & _)|]; [|done]. simpl.
      unfold format_token. by rewrite Hid, Htime. }
    split; [exact Htoken|]. split.
    + rewrite Htoken, fmap_None. apply last_None.
    + exists documents. split; [done|]. split.
      * intros ->. apply Forall2_nil_inv_r in Hall.
        intros c Hc Hloaded.
        assert (c ∈ surviving) as Hin by by apply list_elem_of_filter.
        rewrite Hall in Hin. by apply elem_of_nil in Hin.
      * intros Hnone. subst surviving.
        rewrite (filter_none (loaded documents) changes Hnone) in Hall.
        by apply Forall2_nil_inv_l in Hall.
Qed.

(** X11: every entry of a feed [load_feed] answers with is the entry of a
    change of the page, and its documents are those the change refers to:
    its user has the id [user_id], its document the id [document_id], its
    participants have ids of [user_ids] other than [user_id], and an image
    has the id of its slot. *)
Theorem load_feed_entry_ids (changes : list DocumentChange)
    (lang : option string) (body : Feed) :
  load_feed isoformat document_configs get_documents_for_ids changes lang =
    Ok body →
  ∀ e, e ∈ feed body →
    ∃ c, c ∈ changes ∧
      e_id e = change_id c ∧
      e_time e = isoformat (time c) ∧
      e_change_type e = change_type c ∧
      e_more_images e = more_images c ∧
      doc_document_id (e_user e) = user_id c ∧
      doc_document_id (e_document e) = document_id c ∧
      (∀ d, d ∈ e_participants e →
            doc_document_id d ∈ user_ids c ∧
            doc_document_id d ≠ user_id c) ∧
      (∀ d, e_image1 e = Some d → image1_id c = Some (doc_document_id d)) ∧
      (∀ d, e_image2 e = Some d → image2_id c = Some (doc_document_id d)) ∧
      (∀ d, e_image3 e = Some d → image3_id c = Some (doc_document_id d)).
Proof.
  intros Hbody.
  destruct (load_feed_Ok_inv isoformat document_configs
              get_documents_for_ids changes lang body Hbody)
    as [documents Hdocuments].
  destruct (load_feed_spec isoformat document_configs
              get_documents_for_ids changes lang documents Hdocuments)
    as (entries & Hfeed & Hall).
  rewrite Hfeed in Hbody. injection Hbody as <-. simpl.
  assert (Hkey : ∀ i d, documents !! i = Some d → doc_document_id d = i).
  { intros i d Hd.
    destruct (load_documents_items_lookup_inv document_configs
                get_documents_for_ids _ _ _ _ _ _ Hdocuments Hd)
      as [[? _]|Hempty]; [done|].
    by rewrite lookup_empty in Hempty. }
  assert (Himage : ∀ image_id d,
    image_slot documents image_id = Some d →
    image_id = Some (doc_document_id d)).
  { intros [i|] d; unfold image_slot; simpl; [|done].
    case_bool_decide; [|done]. intros Hd. by rewrite (Hkey _ _ Hd). }
  intros e He. apply list_elem_of_lookup in He as [n He].
  destruct (Forall2_lookup_r _ _ _ _ _ Hall He) as (c & Hc & Hfor).
  apply list_elem_of_lookup_2, list_elem_of_filter in Hc as [_ Hc].
  destruct Hfor as (Hid & Htime & Hu & Hp & Hct & Hd & H1 & H2 & H3 & Hm).
  exists c. split; [done|].
  split_and!; try done.
  - by apply Hkey.
  - by apply Hkey.
  - intros d Hin. rewrite Hp in Hin.
    apply elem_of_participants in Hin as (i & Hi & Hne & Hdoc).
    by rewrite (Hkey _ _ Hdoc).
  - intros d Hd'. apply Himage. by rewrite <- H1.
  - intros d Hd'. apply Himage. by rewrite <- H2.
  - intros d Hd'. apply Himage. by rewrite <- H3.
Qed.

End LoadFeedResponse.

Lemma load_feed_token_of_last_entry_witness :
  ∃ body,
    load_feed isoformat_first_day sample_configs (documents_except {[ 101 ]})
      [change_10; change_9] None = Ok body ∧
    pagination_token body =
      (λ e, pretty (e_id e) +:+ "," +:+ e_time e) <$> last (feed body) ∧
    (pagination_token body = None ↔ feed body = []).
Proof.
  destruct (load_feed_token_of_last_entry isoformat_first_day sample_configs
              (documents_except {[ 101 ]}) [change_10; change_9] None)
    as (Hok & _ & Htoken).
  destruct (proj2 Hok) as [body Hbody].
  { apply (types_configured_all sample_configs [change_10; change_9]);
      [types_configured_sample|done]. }
  exists body. split; [done|].
  destruct (Htoken body Hbody) as (Hlast & Hnone & _). by split.
Defined.

Lemma load_feed_entry_ids_witness :
  ∃ body,
    load_feed isoformat_first_day sample_configs (documents_except {[ 101 ]})
      [change_10; change_9] None = Ok body ∧
    ∀ e, e ∈ feed body →
      ∃ c, c ∈ [change_10; change_9] ∧
        e_id e = change_id c ∧
        e_time e = isoformat_first_day (time c) ∧
        e_change_type e = change_type c ∧
        e_more_images e = more_images c ∧
        doc_document_id (e_user e) = user_id c ∧
        doc_document_id (e_document e) = document_id c ∧
        (∀ d, d ∈ e_participants e →
              doc_document_id d ∈ user_ids c ∧
              doc_document_id d ≠ user_id c) ∧
        (∀ d, e_image1 e = Some d → image1_id c = Some (doc_document_id d)) ∧
        (∀ d, e_image2 e = Some d → image2_id c = Some (doc_document_id d)) ∧
        (∀ d, e_image3 e = Some d → image3_id c = Some (doc_document_id d)).
Proof.
  destruct (load_feed_answers isoformat_first_day sample_configs
              (documents_except {[ 101 ]}) [change_10; change_9]
              [change_10; change_9] None)
    as [body Hbody]; [types_configured_sample|done|].
  exists body. split; [done|].
  by apply (load_feed_entry_ids isoformat_first_day sample_configs
              (documents_except {[ 101 ]}) [change_10; change_9] None).
Defined.

(** * The search *)

Lemma omap_length_le {A B} (f : A → option B) (l : list A) :
  (length (omap f l) ≤ length l)%nat.
Proof.
  induction l as [|x l IH]; [done|]. csimpl.
  destruct (f x); simpl; lia.
Qed.

Lemma omap_lookup_empty {A} (l : list Z) :
  omap (λ i, (∅ : gmap Z A) !! i) l = [].
Proof.
  induction l as [|i l IH]; [done|]. csimpl. by rewrite lookup_empty.
Qed.

Section GetDocuments.

Context (set_best_locale : list Search.Document → string → list Search.Document).

Lemma document_index_ids (documents : list Search.Document) (l : list Z)
    (P : Z → Prop) `{!∀ i, Decision (P i)} :
  (∀ i, i ∈ l → P i ↔ i ∈ Search.document_id <$> documents) →
  Search.document_id <$>
    omap (λ id, foldl (λ index doc, <[Search.document_id doc := doc]> index)
                  (∅ : gmap Z Search.Document) documents !! id) l =
  filter P l.
Proof.
  intros HP.
  set (index := foldl (λ index doc, <[Search.document_id doc := doc]> index)
                  (∅ : gmap Z Search.Document) documents).
  assert (Hinv : ∀ i doc, index !! i = Some doc →
            doc ∈ documents ∧ Search.document_id doc = i).
  { intros i doc Hdoc.
    apply (foldl_insert_lookup Search.document_id) in Hdoc as [?|Hdoc];
      [done|by rewrite lookup_empty in Hdoc]. }
  assert (Hsome : ∀ doc, doc ∈ documents →
            is_Some (index !! Search.document_id doc)).
  { intros doc Hdoc. apply (foldl_insert_is_Some Search.document_id).
    left. by exists doc. }
  clearbody index.
  induction l as [|i l IH]; [done|].
  rewrite filter_cons. csimpl.
  destruct (index !! i) as [doc|] eqn:Hdoc; csimpl.
  - destruct (Hinv _ _ Hdoc) as [Hin Hid].
    rewrite decide_True.
    2:{ apply HP; [left|]. rewrite <- Hid. by apply list_elem_of_fmap_2. }
    rewrite Hid, IH; [done|].
    intros j Hj. apply HP. by right.
  - rewrite decide_False.
    2:{ intros Hi. apply HP in Hi; [|left].
        apply list_elem_of_fmap in Hi as (doc & -> & Hin).
        destruct (Hsome doc Hin) as [? Hsome']. congruence. }
    apply IH. intros j Hj. apply HP. by right.
Qed.

(** X12: [get_documents] returns the documents in the order of the ids: the
    ids of the documents it returns are the given ids, in their order, of
    which a document exists that was not merged into another one; ids
    without such a document are skipped.  ([set_best_locale] is assumed to
    keep the ids of the documents.) *)
Theorem get_documents_ids (table : list Search.Document)
    (document_ids : list Z) (lang : option string) :
  (∀ documents l,
     lang = Some l →
     Search.document_id <$> set_best_locale documents l =
     Search.document_id <$> documents) →
  Search.document_id <$>
    Search.get_documents set_best_locale table document_ids lang =
  filter (λ i, Exists (λ doc, Search.redirects_to doc = None ∧
                              Search.document_id doc = i) table)
         document_ids.
Proof.
  intros Hbest. unfold Search.get_documents.
  destruct document_ids as [|i0 ids0] eqn:Hids; [done|].
  rewrite <- Hids. clear Hids i0 ids0.
  apply document_index_ids. intros i Hi.
  assert (Search.document_id <$>
            match lang with
            | Some lang0 =>
                set_best_locale
                  (filter (λ doc, Search.redirects_to doc = None ∧
                                  Search.document_id doc ∈ document_ids) table)
                  lang0
            | None =>
                filter (λ doc, Search.redirects_to doc = None ∧
                               Search.document_id doc ∈ document_ids) table
            end =
          Search.document_id <$>
            filter (λ doc, Search.redirects_to doc = None ∧
                           Search.document_id doc ∈ document_ids) table) as ->.
  { destruct lang as [l|]; [by apply Hbest|done]. }
  rewrite Exists_exists, list_elem_of_fmap. split.
  - intros (doc & Hin & Hnone & Hid). exists doc. split; [done|].
    apply list_elem_of_filter. by rewrite Hid.
  - intros (doc & -> & Hin). apply list_elem_of_filter in Hin as [[? ?] ?].
    by exists doc.
Qed.

(** X13: without language, every document [get_documents] returns is a row
    of the table that was not merged and has one of the given ids, and there
    are at most as many documents as ids; when all the documents of the given
    ids were merged into others, nothing is returned. *)
Theorem get_documents_not_merged (table : list Search.Document)
    (document_ids : list Z) :
  (∀ doc,
     doc ∈ Search.get_documents set_best_locale table document_ids None →
     doc ∈ table ∧ Search.redirects_to doc = None ∧
     Search.document_id doc ∈ document_ids) ∧
  (length (Search.get_documents set_best_locale table document_ids None)
   ≤ length document_ids)%nat ∧
  ((∀ doc, doc ∈ table → Search.document_id doc ∈ document_ids →
           Search.redirects_to doc ≠ None) →
   Search.get_documents set_best_locale table document_ids None = []).
Proof.
  unfold Search.get_documents.
  destruct document_ids as [|i0 ids0] eqn:Hids.
  { split; [|split]; [|done..]. intros doc Hdoc. by apply elem_of_nil in Hdoc. }
  rewrite <- Hids. clear Hids i0 ids0.
  split; [|split].
  - intros doc Hdoc. apply list_elem_of_omap in Hdoc as (i & Hi & Hdoc).
    apply (foldl_insert_lookup Search.document_id) in Hdoc as [[Hin Hid]|Hdoc];
      [|by rewrite lookup_empty in Hdoc].
    by apply list_elem_of_filter in Hin as [[? ?] ?].
  - apply omap_length_le.
  - intros Hmerged. rewrite filter_none; [|intros doc Hdoc [Hnone Hin]].
    + simpl. apply omap_lookup_empty.
    + by apply (Hmerged doc).
Qed.

End GetDocuments.

Lemma get_documents_ids_witness :
  Search.document_id <$>
    Search.get_documents keep_locales_of search_table
      [534683; 534684; 1; 534681] (Some "fr") =
  filter (λ i, Exists (λ doc, Search.redirects_to doc = None ∧
                              Search.document_id doc = i) search_table)
         [534683; 534684; 1; 534681].
Proof.
  apply (get_documents_ids keep_locales_of search_table
           [534683; 534684; 1; 534681] (Some "fr")).
  intros documents l _. unfold keep_locales_of.
  rewrite <- list_fmap_compose. reflexivity.
Defined.

Example get_documents_order :
  Search.document_id <$>
    Search.get_documents keep_locales_of search_table
      [534683; 534684; 1; 534681] (Some "fr") = [534683; 534681].
Proof. vm_compute. reflexivity. Qed.

Lemma get_documents_not_merged_witness :
  Search.get_documents keep_locales_of search_table [534684] None = [].
Proof.
  apply (get_documents_not_merged keep_locales_of search_table [534684]).
  intros doc Hdoc Hid. simpl in Hdoc, Hid.
  apply list_elem_of_singleton in Hid.
  repeat (apply elem_of_cons in Hdoc as [->|Hdoc]); try discriminate.
  by apply elem_of_nil in Hdoc.
Defined.

Section SearchForType.

Context (set_best_locale : list Search.Document → string → list Search.Document).
Context (execute : string → string → Z → Search.Response).
Context (int : string → option Z).
Context {Schema Json : Type}.
Context (to_json_dict : Search.Document → Schema → Json).

Lemma mapM_int_Ok (ids : list string) :
  (∀ id, id ∈ ids → is_Some (int id)) →
  ∃ document_ids,
    mapM (λ id, match int id with
                | Some i => Search.Ok i
                | None => Search.Raise Search.ValueError
                end) ids = Search.Ok document_ids ∧
    length document_ids = length ids.
Proof.
  induction ids as [|id ids IH]; intros Hall.
  - by exists [].
  - destruct (Hall id) as [i Hi]; [left|].
    destruct IH as (document_ids & Hmap & Hlen).
    { intros id' Hid'. apply Hall. by right. }
    exists (i :: document_ids). simpl. rewrite Hi. simpl. rewrite Hmap.
    simpl. by rewrite Hlen.
Qed.

Lemma mapM_int_Raise (ids : list string) :
  (∃ id, id ∈ ids ∧ int id = None) →
  mapM (λ id, match int id with
              | Some i => Search.Ok i
              | None => Search.Raise Search.ValueError
              end) ids = Search.Raise Search.ValueError.
Proof.
  induction ids as [|id ids IH]; intros (id' & Hin & Hnone).
  - by apply elem_of_nil in Hin.
  - simpl. destruct (int id) as [i|] eqn:Hi; [|done]. simpl.
    rewrite IH; [done|].
    apply elem_of_cons in Hin as [->|Hin]; [congruence|by exists id'].
Qed.

(** X14: when the ids of all hits are integers, [search_for_type] answers
    with [count] the number of documents of its answer, which is at most the
    number of hits of the page (hits without document are skipped), and with
    [total] the total of the search engine; when the id of a hit is not an
    integer it raises [ValueError]. *)
Theorem search_for_type_count (table : list Search.Document)
    (search_term document_type : string) (schema : Schema)
    (adapt_schema : option (Schema → Search.Document → Schema))
    (limit : Z) (lang : option string) :
  ((∀ id, id ∈ Search.hits (execute search_term document_type limit) →
          is_Some (int id)) →
   ∃ r,
     Search.search_for_type set_best_locale execute int to_json_dict table
       search_term document_type schema adapt_schema limit lang =
       Search.Ok r ∧
     Search.count r = length (Search.documents r) ∧
     (Search.count r ≤
      length (Search.hits (execute search_term document_type limit)))%nat ∧
     Search.total r =
       Search.hits_total (execute search_term document_type limit)) ∧
  ((∃ id, id ∈ Search.hits (execute search_term document_type limit) ∧
          int id = None) →
   Search.search_for_type set_best_locale execute int to_json_dict table
     search_term document_type schema adapt_schema limit lang =
     Search.Raise Search.ValueError).
Proof.
  unfold Search.search_for_type. split.
  - intros Hall. destruct (mapM_int_Ok _ Hall) as (document_ids & -> & Hlen).
    eexists. split; [reflexivity|]. simpl.
    split; [by rewrite length_fmap|]. split; [|done].
    rewrite <- Hlen. unfold Search.get_documents.
    destruct document_ids as [|i0 ids0] eqn:Hids; [simpl; lia|].
    rewrite <- Hids. apply omap_length_le.
  - intros Hbad. by rewrite (mapM_int_Raise _ Hbad).
Qed.

End SearchForType.

Lemma search_for_type_count_witness :
  ∃ r,
    Search.search_for_type keep_locales_of two_hits int_of_hit
      (λ doc (_ : unit), Search.document_id doc) search_table
      "crolles" "w" () None 30 (Some "fr") = Search.Ok r ∧
    Search.count r = length (Search.documents r) ∧
    (Search.count r ≤ length (Search.hits (two_hits "crolles" "w" 30)))%nat ∧
    Search.total r = Search.hits_total (two_hits "crolles" "w" 30).
Proof.
  apply (search_for_type_count keep_locales_of two_hits int_of_hit
           (λ doc (_ : unit), Search.document_id doc) search_table
           "crolles" "w" () None 30 (Some "fr")).
  intros id Hid. simpl in Hid.
  repeat (apply elem_of_cons in Hid as [->|Hid]); try by eexists.
  by apply elem_of_nil in Hid.
Defined.

Example search_for_type_two_hits :
  Search.search_for_type keep_locales_of two_hits int_of_hit
    (λ doc (_ : unit), Search.document_id doc) search_table
    "crolles" "w" () None 30 (Some "fr") =
  Search.Ok {| Search.count := 1; Search.total := 2;
               Search.documents := [534681] |}.
Proof. vm_compute. reflexivity. Qed.

(** * The waypoints *)

(** X15: [_get_waypoint] without culture returns a waypoint of the table
    with the id and raises "not found" exactly when there is none; with a
    culture it returns a waypoint of the id with exactly one locale, a locale
    of the culture, and raises "not found" exactly when no waypoint of the id
    has a locale of the culture, also when the waypoint exists in other
    cultures. *)
Theorem get_waypoint_found (table : list WaypointRest.Waypoint) (id : Z)
    (culture : option string) :
  (WaypointRest.culture_truthy culture = false →
   (∀ waypoint,
      WaypointRest._get_waypoint table id culture = WaypointRest.Ok waypoint →
      waypoint ∈ table ∧ WaypointRest.document_id waypoint = id) ∧
   (WaypointRest._get_waypoint table id culture =
      WaypointRest.Raise (WaypointRest.HTTPNotFound "document not found") ↔
    ∀ waypoint, waypoint ∈ table → WaypointRest.document_id waypoint ≠ id)) ∧
  (WaypointRest.culture_truthy culture = true →
   (∀ waypoint,
      WaypointRest._get_waypoint table id culture = WaypointRest.Ok waypoint →
      ∃ row locale,
        row ∈ table ∧ WaypointRest.document_id row = id ∧
        locale ∈ WaypointRest.locales row ∧
        Some (WaypointRest.culture locale) = culture ∧
        WaypointRest.document_id waypoint = id ∧
        WaypointRest.version waypoint = WaypointRest.version row ∧
        WaypointRest.locales waypoint = [locale]) ∧
   (WaypointRest._get_waypoint table id culture =
      WaypointRest.Raise (WaypointRest.HTTPNotFound "document not found") ↔
    ∀ row locale,
      row ∈ table → WaypointRest.document_id row = id →
      locale ∈ WaypointRest.locales row →
      Some (WaypointRest.culture locale) ≠ culture)).
Proof.
  unfold WaypointRest._get_waypoint. split; intros Hculture; rewrite Hculture;
    simpl.
  - split.
    + intros waypoint H.
      destruct (head _) as [wp|] eqn:Hhead; [|done]. injection H as ->.
      apply head_Some_elem_of, list_elem_of_filter in Hhead. tauto.
    + destruct (head _) as [wp|] eqn:Hhead.
      * split; [done|]. intros Hnone.
        apply head_Some_elem_of, list_elem_of_filter in Hhead as [Hid Hin].
        by destruct (Hnone wp Hin).
      * split; [|done]. intros _ waypoint Hin Hid. apply head_None in Hhead.
        assert (waypoint ∈ filter (λ wp, WaypointRest.document_id wp = id) table)
          as Hx by by apply list_elem_of_filter.
        rewrite Hhead in Hx. by apply elem_of_nil in Hx.
  - assert (Hrows : ∀ waypoint,
      waypoint ∈ filter (λ wp, WaypointRest.document_id wp = id)
        (wp ← table;
         (λ locale, {| WaypointRest.document_id := WaypointRest.document_id wp;
                       WaypointRest.version := WaypointRest.version wp;
                       WaypointRest.locales := [locale] |}) <$>
           filter (λ locale, Some (WaypointRest.culture locale) = culture)
                  (WaypointRest.locales wp)) ↔
      ∃ row locale,
        row ∈ table ∧ WaypointRest.document_id row = id ∧
        locale ∈ WaypointRest.locales row ∧
        Some (WaypointRest.culture locale) = culture ∧
        waypoint = {| WaypointRest.document_id := id;
                      WaypointRest.version := WaypointRest.version row;
                      WaypointRest.locales := [locale] |}).
    { intros waypoint. rewrite list_elem_of_filter, list_elem_of_bind. split.
      - intros (Hid & row & Hwp & Hrow).
        apply list_elem_of_fmap in Hwp as (locale & -> & Hlocale).
        apply list_elem_of_filter in Hlocale as [Hc Hlocale].
        simpl in Hid. exists row, locale. by rewrite Hid.
      - intros (row & locale & Hrow & Hid & Hlocale & Hc & ->).
        split; [done|]. exists row. split; [|done].
        apply list_elem_of_fmap. exists locale. rewrite Hid.
        split; [done|]. by apply list_elem_of_filter. }
    split.
    + intros waypoint H.
      destruct (head _) as [wp|] eqn:Hhead; [|done]. injection H as ->.
      apply head_Some_elem_of, Hrows in Hhead
        as (row & locale & ? & ? & ? & ? & ->).
      by exists row, locale.
    + destruct (head _) as [wp|] eqn:Hhead.
      * split; [done|]. intros Hnone.
        apply head_Some_elem_of, Hrows in Hhead
          as (row & locale & Hrow & Hid & Hlocale & Hc & _).
        by destruct (Hnone row locale).
      * split; [|done]. intros _ row locale Hrow Hid Hlocale Hc.
        apply head_None in Hhead.
        assert ({| WaypointRest.document_id := id;
                   WaypointRest.version := WaypointRest.version row;
                   WaypointRest.locales := [locale] |} ∈
                filter (λ wp, WaypointRest.document_id wp = id)
                  (wp ← table;
                   (λ locale, {| WaypointRest.document_id :=
                                   WaypointRest.document_id wp;
                                 WaypointRest.version := WaypointRest.version wp;
                                 WaypointRest.locales := [locale] |}) <$>
                     filter (λ locale,
                               Some (WaypointRest.culture locale) = culture)
                            (WaypointRest.locales wp))) as Hx.
        { apply Hrows. by exists row, locale. }
        rewrite Hhead in Hx. by apply elem_of_nil in Hx.
Qed.

Lemma get_waypoint_found_witness :
  WaypointRest._get_waypoint waypoint_table 7 (Some "es") =
    WaypointRest.Raise (WaypointRest.HTTPNotFound "document not found") ∧
  ∃ row locale,
    row ∈ waypoint_table ∧ WaypointRest.document_id row = 7 ∧
    locale ∈ WaypointRest.locales row ∧
    Some (WaypointRest.culture locale) = Some "en" ∧
    WaypointRest.locales
      {| WaypointRest.document_id := 7; WaypointRest.version := 3;
         WaypointRest.locales :=
           [ {| WaypointRest.culture := "en";
                WaypointRest.locale_version := 1 |} ] |} = [locale].
Proof.
  split.
  - destruct (get_waypoint_found waypoint_table 7 (Some "es")) as [_ Hc].
    destruct (Hc eq_refl) as [_ Hnone]. apply Hnone.
    intros row locale Hrow Hid Hlocale. simpl in Hrow.
    apply list_elem_of_singleton in Hrow as ->. simpl in Hlocale.
    repeat (apply elem_of_cons in Hlocale as [->|Hlocale]); try discriminate.
    by apply elem_of_nil in Hlocale.
  - destruct (get_waypoint_found waypoint_table 7 (Some "en")) as [_ Hc].
    destruct (Hc eq_refl) as [Hfound _].
    destruct (Hfound
      {| WaypointRest.document_id := 7; WaypointRest.version := 3;
         WaypointRest.locales :=
           [ {| WaypointRest.culture := "en";
                WaypointRest.locale_version := 1 |} ] |} eq_refl)
      as (row & locale & ? & ? & ? & ? & _ & _ & ?).
    by exists row, locale.
Defined.

Section CheckVersions.

Context (get_locale : WaypointRest.Waypoint → string →
                      option WaypointRest.DocumentLocale).

Lemma check_locale_versions_ok (waypoint : WaypointRest.Waypoint)
    (locales_in : list WaypointRest.DocumentLocale) :
  WaypointRest.check_locale_versions get_locale waypoint locales_in =
    WaypointRest.Ok () ↔
  ∀ locale_in locale,
    locale_in ∈ locales_in →
    get_locale waypoint (WaypointRest.culture locale_in) = Some locale →
    WaypointRest.locale_version locale =
    WaypointRest.locale_version locale_in.
Proof.
  induction locales_in as [|locale_in locales_in IH]; simpl.
  - split; [|done]. intros _ ? ? Hin. by apply elem_of_nil in Hin.
  - destruct (get_locale waypoint (WaypointRest.culture locale_in))
      as [locale|] eqn:Hlocale.
    + case_bool_decide as Hversion.
      * split; [done|]. intros Hall. destruct Hversion.
        apply Hall; [left|done].
      * rewrite IH. split.
        -- intros Hall l_in l [->|Hin]%elem_of_cons Hl; [|by apply Hall].
           rewrite Hlocale in Hl. by injection Hl as <-.
        -- intros Hall l_in l Hin. apply Hall. by right.
    + rewrite IH. split.
      * intros Hall l_in l [->|Hin]%elem_of_cons Hl; [congruence|].
        by apply Hall.
      * intros Hall l_in l Hin. apply Hall. by right.
Qed.

Lemma check_locale_versions_conflict (waypoint : WaypointRest.Waypoint)
    (locales_in : list WaypointRest.DocumentLocale) (e : WaypointRest.exn) :
  WaypointRest.check_locale_versions get_locale waypoint locales_in =
    WaypointRest.Raise e →
  ∃ msg, e = WaypointRest.HTTPConflict msg.
Proof.
  induction locales_in as [|locale_in locales_in IH]; simpl; [done|].
  destruct (get_locale waypoint (WaypointRest.culture locale_in)); [|done].
  case_bool_decide; [|done]. intros [= <-]. by eexists.
Qed.

(** X16: [_check_versions] accepts an update exactly when the version of
    the document that was passed in is the version of the stored document
    and every locale that was passed in and is stored for its culture has
    the stored version; locales of new cultures are accepted.  Otherwise it
    raises a conflict, that of the document when the document versions
    differ. *)
Theorem check_versions_ok (waypoint waypoint_in : WaypointRest.Waypoint) :
  (WaypointRest._check_versions get_locale waypoint waypoint_in =
     WaypointRest.Ok () ↔
   WaypointRest.version waypoint = WaypointRest.version waypoint_in ∧
   ∀ locale_in locale,
     locale_in ∈ WaypointRest.locales waypoint_in →
     get_locale waypoint (WaypointRest.culture locale_in) = Some locale →
     WaypointRest.locale_version locale =
     WaypointRest.locale_version locale_in) ∧
  (WaypointRest.version waypoint ≠ WaypointRest.version waypoint_in →
   WaypointRest._check_versions get_locale waypoint waypoint_in =
     WaypointRest.Raise
       (WaypointRest.HTTPConflict "version of document has changed")) ∧
  (∀ e,
     WaypointRest._check_versions get_locale waypoint waypoint_in =
       WaypointRest.Raise e →
     ∃ msg, e = WaypointRest.HTTPConflict msg).
Proof.
  unfold WaypointRest._check_versions.
  case_bool_decide as Hversion.
  - split; [|split].
    + split; [done|]. by intros [? _].
    + done.
    + intros e [= <-]. by eexists.
  - split; [|split].
    + rewrite check_locale_versions_ok. tauto.
    + done.
    + apply check_locale_versions_conflict.
Qed.

End CheckVersions.

Lemma check_versions_ok_witness :
  WaypointRest._check_versions first_locale waypoint_7 waypoint_7_in =
    WaypointRest.Ok ().
Proof.
  apply (check_versions_ok first_locale waypoint_7 waypoint_7_in).
  split; [reflexivity|].
  intros locale_in locale Hin. simpl in Hin.
  repeat (apply elem_of_cons in Hin as [->|Hin]);
    [vm_compute; by intros [= <-]|vm_compute; discriminate|].
  by apply elem_of_nil in Hin.
Defined.
